(** * BizBoard appointment scheduling: the booking model, its routes and the
      rule-based recommender, embedded from the JavaScript sources.

    Sources embedded here:
    - [backend/models/Booking.js]: the booking schema, its [pre('save')]
      hook, [checkConflicts], [getAvailableTimeSlots], [reschedule];
    - [backend/models/User.js]: the [businessHours] template;
    - [backend/models/Customer.js], [backend/models/Service.js]: the paths
      the booking routes read and write;
    - [backend/routes/bookings.js], [backend/routes/public.js]: creation,
      update, rescheduling and deletion of bookings, the conflict check,
      the calendar view and the public availability;
    - [backend/services/aiService.js]: [generateTimeSlots],
      [calculateSlotScore], [getRuleBasedRecommendations],
      [calculateConfidenceScore];
    - [backend/models/Subscription.js], [middleware/rbac.js] and the
      subscription routes: plan limits, the feature check, prices, the
      downgrade to the free plan, the role tables.

    Conventions.
    - A JavaScript [Date] is its millisecond timestamp, a [Z]. The server runs
      in one time zone without daylight saving (the schema's default is
      Africa/Addis_Ababa), so local wall-clock time differs from UTC by a
      constant; timestamps are counted from local midnight of 1970-01-01 and
      [setHours], [getDay] and [toTimeString] become plain arithmetic.
    - A JavaScript number is an integer, a [Z]: durations are whole minutes
      and amounts whole units.
    - A property that may be [undefined] is an [option].
    - A thrown exception is the [Throw] case of the result type [Exc].
    - A MongoDB collection is the list of its documents in insertion order. *)

From Stdlib Require Import ZArith List Bool String Ascii Sorted Permutation Lia.
Import ListNotations.
Open Scope string_scope.
Open Scope Z_scope.

(* ================================================================== *)
(** * JavaScript dates *)
(* ================================================================== *)

Module JsDate.

Definition msPerMinute : Z := 60000.
Definition msPerHour : Z := 3600000.
Definition msPerDay : Z := 86400000.

(** [d.setHours(0, 0, 0, 0)] *)
Definition startOfDay (t : Z) : Z := t - t mod msPerDay.

(** [d.setHours(23, 59, 59, 999)] *)
Definition endOfDay (t : Z) : Z := startOfDay t + msPerDay - 1.

(** [d.setHours(h, m, 0, 0)]; hours and minutes outside their usual range
    carry over, as in JavaScript. *)
Definition setHours (t h m : Z) : Z :=
  startOfDay t + h * msPerHour + m * msPerMinute.

Definition getHours (t : Z) : Z := (t mod msPerDay) / msPerHour.
Definition getMinutes (t : Z) : Z := (t mod msPerHour) / msPerMinute.

(** [d.setMinutes(d.getMinutes() + n)] *)
Definition addMinutes (t n : Z) : Z := t + n * msPerMinute.

(** [d.getDay()]: 0 is Sunday; day 0 of the epoch was a Thursday. *)
Definition getDay (t : Z) : Z := (t / msPerDay + 4) mod 7.

(** A wall-clock instant, for writing examples: day number since the epoch,
    hour and minute. *)
Definition at_ (day h m : Z) : Z := day * msPerDay + h * msPerHour + m * msPerMinute.

End JsDate.
Import JsDate.

(* ================================================================== *)
(** * JavaScript strings: regular expressions, [split], [Number] *)
(* ================================================================== *)

Module JsString.

(** Anchored regular expressions ([^...$]) matched by derivatives. *)
Inductive regex : Type :=
| Void : regex
| Eps : regex
| Class : (ascii -> bool) -> regex
| Seq : regex -> regex -> regex
| Alt : regex -> regex -> regex
| Star : regex -> regex.

Definition Opt (r : regex) : regex := Alt Eps r.
Definition Plus (r : regex) : regex := Seq r (Star r).

Fixpoint nullable (r : regex) : bool :=
  match r with
  | Void => false
  | Eps => true
  | Class _ => false
  | Seq a b => nullable a && nullable b
  | Alt a b => nullable a || nullable b
  | Star _ => true
  end.

Fixpoint deriv (c : ascii) (r : regex) : regex :=
  match r with
  | Void => Void
  | Eps => Void
  | Class f => if f c then Eps else Void
  | Seq a b =>
      if nullable a then Alt (Seq (deriv c a) b) (deriv c b)
      else Seq (deriv c a) b
  | Alt a b => Alt (deriv c a) (deriv c b)
  | Star a => Seq (deriv c a) (Star a)
  end.

Fixpoint test (r : regex) (s : string) : bool :=
  match s with
  | EmptyString => nullable r
  | String c s' => test (deriv c r) s'
  end.

(** What it means for a string to match, to check [test] against. *)
Inductive Matches : regex -> string -> Prop :=
| MEps : Matches Eps ""
| MClass : forall f c, f c = true -> Matches (Class f) (String c "")
| MSeq : forall a b s t,
    Matches a s -> Matches b t -> Matches (Seq a b) (s ++ t)
| MAltL : forall a b s, Matches a s -> Matches (Alt a b) s
| MAltR : forall a b s, Matches b s -> Matches (Alt a b) s
| MStarNil : forall a, Matches (Star a) ""
| MStarCons : forall a s t,
    Matches a s -> Matches (Star a) t -> Matches (Star a) (s ++ t).

Definition code (c : ascii) : Z := Z.of_nat (nat_of_ascii c).

Definition between (lo hi : ascii) : ascii -> bool :=
  fun c => (code lo <=? code c) && (code c <=? code hi).

Definition oneOf (s : string) : ascii -> bool :=
  fun c => existsb (Ascii.eqb c) (list_ascii_of_string s).

Definition chr (a : ascii) : regex := Class (Ascii.eqb a).
Definition digit : ascii -> bool := between "0" "9".

(** [\w] *)
Definition word : ascii -> bool :=
  fun c => between "a" "z" c || between "A" "Z" c || digit c || Ascii.eqb c "_".

(** [s.split(':')] *)
Fixpoint splitAcc (sep : ascii) (s : string) (cur : string) : list string :=
  match s with
  | EmptyString => [cur]
  | String c s' =>
      if Ascii.eqb c sep then cur :: splitAcc sep s' ""
      else splitAcc sep s' (cur ++ String c "")
  end.

Definition split (sep : ascii) (s : string) : list string := splitAcc sep s "".

(** [Number(s)] on non-empty strings of decimal digits; every time string
    that passes the schema's pattern splits into such strings. Other
    strings are outside the fragment ([None]). *)
Fixpoint digitsValue (s : string) (acc : Z) : option Z :=
  match s with
  | EmptyString => Some acc
  | String c s' =>
      if digit c then digitsValue s' (10 * acc + (code c - 48)) else None
  end.

Definition Number (s : string) : option Z :=
  match s with
  | EmptyString => None
  | _ => digitsValue s 0
  end.

(** [n.toString()] for a non-negative integer. *)
Definition digitChar (d : Z) : ascii := ascii_of_nat (Z.to_nat (48 + d)).

Fixpoint digitsOf (fuel : nat) (n : Z) (acc : string) : string :=
  match fuel with
  | O => acc
  | S f =>
      let acc' := String (digitChar (n mod 10)) acc in
      if n / 10 =? 0 then acc' else digitsOf f (n / 10) acc'
  end.

Definition toString (n : Z) : string :=
  digitsOf (S (Z.to_nat (Z.log2 n))) n "".

(** [s.padStart(2, '0')] *)
Definition padStart2 (s : string) : string :=
  match s with
  | EmptyString => "00"
  | String c EmptyString => String "0" s
  | _ => s
  end.

(** [s.toLowerCase()] on ASCII. *)
Definition lowerChar (c : ascii) : ascii :=
  if between "A" "Z" c then ascii_of_nat (nat_of_ascii c + 32) else c.

Fixpoint toLowerCase (s : string) : string :=
  match s with
  | EmptyString => EmptyString
  | String c s' => String (lowerChar c) (toLowerCase s')
  end.

(** [s.trim()] on ASCII white space. *)
Definition isSpace (c : ascii) : bool :=
  (code c =? 32) || ((9 <=? code c) && (code c <=? 13)).

Fixpoint trimStart (s : string) : string :=
  match s with
  | EmptyString => EmptyString
  | String c s' => if isSpace c then trimStart s' else s
  end.

Fixpoint trimEnd (s : string) : string :=
  match s with
  | EmptyString => EmptyString
  | String c s' =>
      match trimEnd s' with
      | EmptyString => if isSpace c then EmptyString else String c EmptyString
      | t => String c t
      end
  end.

Definition trim (s : string) : string := trimEnd (trimStart s).

(** [const [hours, minutes] = s.split(':').map(Number)] *)
Definition splitHM (s : string) : option (Z * Z) :=
  match map Number (split ":" s) with
  | Some h :: Some m :: _ => Some (h, m)
  | _ => None
  end.

(** [d.toTimeString().slice(0, 5)] *)
Definition toTimeString5 (t : Z) : string :=
  padStart2 (toString (getHours t)) ++ ":" ++ padStart2 (toString (getMinutes t)).

End JsString.
Import JsString.

(* ================================================================== *)
(** * Results of operations that may throw *)
(* ================================================================== *)

Inductive Exc (A : Type) : Type :=
| Ok : A -> Exc A
| Throw : string -> Exc A.
Arguments Ok {A} _.
Arguments Throw {A} _.

Definition bindExc {A B : Type} (x : Exc A) (k : A -> Exc B) : Exc B :=
  match x with
  | Ok a => k a
  | Throw e => Throw e
  end.

Notation "x <- c ;; k" := (bindExc c (fun x => k))
  (at level 61, c at next level, right associativity).

(* ================================================================== *)
(** * The interval model *)
(* ================================================================== *)

Module Interval.

Record TimeInterval : Type := mkInterval { lo : Z; hi : Z }.

Definition wellFormed (a : TimeInterval) : Prop := lo a < hi a.

(** The half-open test [a.start < b.end && b.start < a.end]: the
    specification's [overlaps(a, b)], and the test the slot loop of
    [getAvailableTimeSlots] writes out. *)
Definition overlaps (a b : TimeInterval) : bool :=
  (lo a <? hi b) && (lo b <? hi a).

End Interval.
Import Interval.

(* ================================================================== *)
(** * The booking schema ([backend/models/Booking.js]) *)
(* ================================================================== *)

(** The paths of [bookingSchema] that the operations below read or write;
    the time zone, the calendar display paths and the recurrence rule are
    left out. [time] is the "HH:MM" string, [duration] is in minutes,
    [status], [paymentStatus], [paymentMethod] and [rescheduledBy] are the
    schema's strings. *)
Record Booking : Type := mkBooking {
  _id : Z;
  userId : Z;
  customerId : Z;
  serviceId : Z;
  date : Z;
  time : string;
  duration : Z;
  status : string;
  notes : option string;
  totalAmount : Z;
  paymentStatus : string;
  paymentMethod : string;
  startDateTime : option Z;
  endDateTime : option Z;
  hasConflicts : bool;
  conflictsWith : list Z;
  originalStartDateTime : option Z;
  originalEndDateTime : option Z;
  rescheduledAt : option Z;
  rescheduledBy : option string;
  rescheduleReason : option string
}.

(** Functional update of one path. *)
Definition with_date (v : Z) (b : Booking) : Booking :=
  mkBooking (_id b) (userId b) (customerId b) (serviceId b) v (time b)
    (duration b) (status b) (notes b) (totalAmount b) (paymentStatus b)
    (paymentMethod b) (startDateTime b) (endDateTime b) (hasConflicts b)
    (conflictsWith b) (originalStartDateTime b) (originalEndDateTime b)
    (rescheduledAt b) (rescheduledBy b) (rescheduleReason b).
Definition with_time (v : string) (b : Booking) : Booking :=
  mkBooking (_id b) (userId b) (customerId b) (serviceId b) (date b) v
    (duration b) (status b) (notes b) (totalAmount b) (paymentStatus b)
    (paymentMethod b) (startDateTime b) (endDateTime b) (hasConflicts b)
    (conflictsWith b) (originalStartDateTime b) (originalEndDateTime b)
    (rescheduledAt b) (rescheduledBy b) (rescheduleReason b).
Definition with_duration (v : Z) (b : Booking) : Booking :=
  mkBooking (_id b) (userId b) (customerId b) (serviceId b) (date b)
    (time b) v (status b) (notes b) (totalAmount b) (paymentStatus b)
    (paymentMethod b) (startDateTime b) (endDateTime b) (hasConflicts b)
    (conflictsWith b) (originalStartDateTime b) (originalEndDateTime b)
    (rescheduledAt b) (rescheduledBy b) (rescheduleReason b).
Definition with_status (v : string) (b : Booking) : Booking :=
  mkBooking (_id b) (userId b) (customerId b) (serviceId b) (date b)
    (time b) (duration b) v (notes b) (totalAmount b) (paymentStatus b)
    (paymentMethod b) (startDateTime b) (endDateTime b) (hasConflicts b)
    (conflictsWith b) (originalStartDateTime b) (originalEndDateTime b)
    (rescheduledAt b) (rescheduledBy b) (rescheduleReason b).
Definition with_notes (v : option string) (b : Booking) : Booking :=
  mkBooking (_id b) (userId b) (customerId b) (serviceId b) (date b)
    (time b) (duration b) (status b) v (totalAmount b) (paymentStatus b)
    (paymentMethod b) (startDateTime b) (endDateTime b) (hasConflicts b)
    (conflictsWith b) (originalStartDateTime b) (originalEndDateTime b)
    (rescheduledAt b) (rescheduledBy b) (rescheduleReason b).
Definition with_paymentStatus (v : string) (b : Booking) : Booking :=
  mkBooking (_id b) (userId b) (customerId b) (serviceId b) (date b)
    (time b) (duration b) (status b) (notes b) (totalAmount b) v
    (paymentMethod b) (startDateTime b) (endDateTime b) (hasConflicts b)
    (conflictsWith b) (originalStartDateTime b) (originalEndDateTime b)
    (rescheduledAt b) (rescheduledBy b) (rescheduleReason b).
Definition with_paymentMethod (v : string) (b : Booking) : Booking :=
  mkBooking (_id b) (userId b) (customerId b) (serviceId b) (date b)
    (time b) (duration b) (status b) (notes b) (totalAmount b)
    (paymentStatus b) v (startDateTime b) (endDateTime b) (hasConflicts b)
    (conflictsWith b) (originalStartDateTime b) (originalEndDateTime b)
    (rescheduledAt b) (rescheduledBy b) (rescheduleReason b).
Definition with_startDateTime (v : option Z) (b : Booking) : Booking :=
  mkBooking (_id b) (userId b) (customerId b) (serviceId b) (date b)
    (time b) (duration b) (status b) (notes b) (totalAmount b)
    (paymentStatus b) (paymentMethod b) v (endDateTime b) (hasConflicts b)
    (conflictsWith b) (originalStartDateTime b) (originalEndDateTime b)
    (rescheduledAt b) (rescheduledBy b) (rescheduleReason b).
Definition with_endDateTime (v : option Z) (b : Booking) : Booking :=
  mkBooking (_id b) (userId b) (customerId b) (serviceId b) (date b)
    (time b) (duration b) (status b) (notes b) (totalAmount b)
    (paymentStatus b) (paymentMethod b) (startDateTime b) v (hasConflicts b)
    (conflictsWith b) (originalStartDateTime b) (originalEndDateTime b)
    (rescheduledAt b) (rescheduledBy b) (rescheduleReason b).
Definition with_hasConflicts (v : bool) (b : Booking) : Booking :=
  mkBooking (_id b) (userId b) (customerId b) (serviceId b) (date b)
    (time b) (duration b) (status b) (notes b) (totalAmount b)
    (paymentStatus b) (paymentMethod b) (startDateTime b) (endDateTime b) v
    (conflictsWith b) (originalStartDateTime b) (originalEndDateTime b)
    (rescheduledAt b) (rescheduledBy b) (rescheduleReason b).
Definition with_conflictsWith (v : list Z) (b : Booking) : Booking :=
  mkBooking (_id b) (userId b) (customerId b) (serviceId b) (date b)
    (time b) (duration b) (status b) (notes b) (totalAmount b)
    (paymentStatus b) (paymentMethod b) (startDateTime b) (endDateTime b)
    (hasConflicts b) v (originalStartDateTime b) (originalEndDateTime b)
    (rescheduledAt b) (rescheduledBy b) (rescheduleReason b).
Definition with_originalStartDateTime (v : option Z) (b : Booking) : Booking :=
  mkBooking (_id b) (userId b) (customerId b) (serviceId b) (date b)
    (time b) (duration b) (status b) (notes b) (totalAmount b)
    (paymentStatus b) (paymentMethod b) (startDateTime b) (endDateTime b)
    (hasConflicts b) (conflictsWith b) v (originalEndDateTime b)
    (rescheduledAt b) (rescheduledBy b) (rescheduleReason b).
Definition with_originalEndDateTime (v : option Z) (b : Booking) : Booking :=
  mkBooking (_id b) (userId b) (customerId b) (serviceId b) (date b)
    (time b) (duration b) (status b) (notes b) (totalAmount b)
    (paymentStatus b) (paymentMethod b) (startDateTime b) (endDateTime b)
    (hasConflicts b) (conflictsWith b) (originalStartDateTime b) v
    (rescheduledAt b) (rescheduledBy b) (rescheduleReason b).
Definition with_rescheduledAt (v : option Z) (b : Booking) : Booking :=
  mkBooking (_id b) (userId b) (customerId b) (serviceId b) (date b)
    (time b) (duration b) (status b) (notes b) (totalAmount b)
    (paymentStatus b) (paymentMethod b) (startDateTime b) (endDateTime b)
    (hasConflicts b) (conflictsWith b) (originalStartDateTime b)
    (originalEndDateTime b) v (rescheduledBy b) (rescheduleReason b).
Definition with_rescheduledBy (v : option string) (b : Booking) : Booking :=
  mkBooking (_id b) (userId b) (customerId b) (serviceId b) (date b)
    (time b) (duration b) (status b) (notes b) (totalAmount b)
    (paymentStatus b) (paymentMethod b) (startDateTime b) (endDateTime b)
    (hasConflicts b) (conflictsWith b) (originalStartDateTime b)
    (originalEndDateTime b) (rescheduledAt b) v (rescheduleReason b).
Definition with_rescheduleReason (v : option string) (b : Booking) : Booking :=
  mkBooking (_id b) (userId b) (customerId b) (serviceId b) (date b)
    (time b) (duration b) (status b) (notes b) (totalAmount b)
    (paymentStatus b) (paymentMethod b) (startDateTime b) (endDateTime b)
    (hasConflicts b) (conflictsWith b) (originalStartDateTime b)
    (originalEndDateTime b) (rescheduledAt b) (rescheduledBy b) v.

(** [status: { enum: [...] }] *)
Definition statusEnum : list string :=
  ["pending"; "confirmed"; "in-progress"; "completed"; "cancelled"].

(** [paymentStatus: { enum: [...] }], [paymentMethod: { enum: [...] }] *)
Definition paymentStatusEnum : list string :=
  ["pending"; "paid"; "overdue"; "cancelled"].
Definition paymentMethodEnum : list string :=
  ["cash"; "card"; "bank_transfer"; "other"].

(** [rescheduledBy: { enum: [...] }] *)
Definition rescheduledByEnum : list string := ["user"; "customer"; "system"].

(** [status: { $in: ['pending', 'confirmed', 'in-progress'] }] *)
Definition activeStatuses : list string := ["pending"; "confirmed"; "in-progress"].

Definition inList (s : string) (l : list string) : bool :=
  existsb (String.eqb s) l.

(** [time: { match: /^([01]?[0-9]|2[0-3]):[0-5][0-9]$/ }] *)
Definition timePattern : regex :=
  Seq (Alt (Seq (Opt (Class (oneOf "01"))) (Class digit))
           (Seq (chr "2") (Class (between "0" "3"))))
      (Seq (chr ":") (Seq (Class (between "0" "5")) (Class digit))).

(** Whether the "HH:MM" string of hour [h] and minute [m] passes the
    pattern and splits back into [h] and [m]. *)
Definition hmRoundTrip (h m : Z) : bool :=
  let s := padStart2 (toString h) ++ ":" ++ padStart2 (toString m) in
  test timePattern s
  && match splitHM s with
     | Some (h', m') => (h' =? h) && (m' =? m)
     | None => false
     end.

Definition isSome {A : Type} (o : option A) : bool :=
  match o with Some _ => true | None => false end.

Definition optZ_eqb (a b : option Z) : bool :=
  match a, b with
  | Some x, Some y => x =? y
  | None, None => true
  | _, _ => false
  end.

Definition optString_eqb (a b : option string) : bool :=
  match a, b with
  | Some x, Some y => String.eqb x y
  | None, None => true
  | _, _ => false
  end.

Fixpoint listZ_eqb (a b : list Z) : bool :=
  match a, b with
  | [], [] => true
  | x :: a', y :: b' => (x =? y) && listZ_eqb a' b'
  | _, _ => false
  end.

(** The schema's validators, in the order of the schema; the result lists
    the paths that fail. *)
Definition validate (b : Booking) : list string :=
  (if test timePattern (time b) then [] else ["time"])
  ++ (if 15 <=? duration b then [] else ["duration"])
  ++ (if inList (status b) statusEnum then [] else ["status"])
  ++ (match notes b with
      | Some n => if Z.of_nat (String.length n) <=? 500 then [] else ["notes"]
      | None => []
      end)
  ++ (if 0 <=? totalAmount b then [] else ["totalAmount"])
  ++ (if inList (paymentStatus b) paymentStatusEnum then []
      else ["paymentStatus"])
  ++ (if inList (paymentMethod b) paymentMethodEnum then []
      else ["paymentMethod"])
  ++ (if isSome (startDateTime b) then [] else ["startDateTime"])
  ++ (if isSome (endDateTime b) then [] else ["endDateTime"])
  ++ (match rescheduledBy b with
      | Some w => if inList w rescheduledByEnum then [] else ["rescheduledBy"]
      | None => []
      end).

(* ------------------------------------------------------------------ *)
(** ** Documents in memory and change tracking *)
(* ------------------------------------------------------------------ *)

Inductive Path : Type :=
| pDate | pTime | pDuration | pStatus
| pNotes | pPaymentStatus | pPaymentMethod
| pStartDateTime | pEndDateTime
| pHasConflicts | pConflictsWith
| pOriginalStartDateTime | pOriginalEndDateTime
| pRescheduledAt | pRescheduledBy | pRescheduleReason.

Definition Path_eqb (p q : Path) : bool :=
  match p, q with
  | pDate, pDate | pTime, pTime | pDuration, pDuration | pStatus, pStatus
  | pNotes, pNotes | pPaymentStatus, pPaymentStatus
  | pPaymentMethod, pPaymentMethod
  | pStartDateTime, pStartDateTime | pEndDateTime, pEndDateTime
  | pHasConflicts, pHasConflicts | pConflictsWith, pConflictsWith
  | pOriginalStartDateTime, pOriginalStartDateTime
  | pOriginalEndDateTime, pOriginalEndDateTime
  | pRescheduledAt, pRescheduledAt | pRescheduledBy, pRescheduledBy
  | pRescheduleReason, pRescheduleReason => true
  | _, _ => false
  end.

(** A Mongoose document: its current values, whether it was built with
    [new Booking(...)] and not yet saved, and the paths marked modified. *)
Record Doc : Type := mkDoc {
  fields : Booking;
  isNew : bool;
  modified : list Path
}.

(** [doc.isModified(path)] *)
Definition isModified (p : Path) (d : Doc) : bool :=
  existsb (Path_eqb p) (modified d).

(** [doc.path = v]. Mongoose marks the path modified when the document is
    new or the assigned value differs from the current one; [changed] is
    that comparison. *)
Definition assign (p : Path) (changed : bool) (upd : Booking -> Booking)
  (d : Doc) : Doc :=
  mkDoc (upd (fields d)) (isNew d)
        (if (isNew d || changed) && negb (isModified p d)
         then p :: modified d else modified d).

(** A [Date] changed in place ([doc.path.setHours(...)]): the value changes,
    the change tracking does not see it. *)
Definition mutate (upd : Booking -> Booking) (d : Doc) : Doc :=
  mkDoc (upd (fields d)) (isNew d) (modified d).

Definition setDate (v : Z) (d : Doc) : Doc :=
  assign pDate (negb (v =? date (fields d))) (with_date v) d.
Definition setTime (v : string) (d : Doc) : Doc :=
  assign pTime (negb (String.eqb v (time (fields d)))) (with_time v) d.
Definition setStatus (v : string) (d : Doc) : Doc :=
  assign pStatus (negb (String.eqb v (status (fields d)))) (with_status v) d.
Definition setNotes (v : option string) (d : Doc) : Doc :=
  assign pNotes (negb (optString_eqb v (notes (fields d)))) (with_notes v) d.
Definition setPaymentStatus (v : string) (d : Doc) : Doc :=
  assign pPaymentStatus (negb (String.eqb v (paymentStatus (fields d))))
         (with_paymentStatus v) d.
Definition setPaymentMethod (v : string) (d : Doc) : Doc :=
  assign pPaymentMethod (negb (String.eqb v (paymentMethod (fields d))))
         (with_paymentMethod v) d.
Definition setStartDateTime (v : option Z) (d : Doc) : Doc :=
  assign pStartDateTime (negb (optZ_eqb v (startDateTime (fields d))))
         (with_startDateTime v) d.
Definition setEndDateTime (v : option Z) (d : Doc) : Doc :=
  assign pEndDateTime (negb (optZ_eqb v (endDateTime (fields d))))
         (with_endDateTime v) d.
Definition setHasConflicts (v : bool) (d : Doc) : Doc :=
  assign pHasConflicts (negb (Bool.eqb v (hasConflicts (fields d))))
         (with_hasConflicts v) d.
Definition setConflictsWith (v : list Z) (d : Doc) : Doc :=
  assign pConflictsWith (negb (listZ_eqb v (conflictsWith (fields d))))
         (with_conflictsWith v) d.
Definition setOriginalStartDateTime (v : option Z) (d : Doc) : Doc :=
  assign pOriginalStartDateTime
         (negb (optZ_eqb v (originalStartDateTime (fields d))))
         (with_originalStartDateTime v) d.
Definition setOriginalEndDateTime (v : option Z) (d : Doc) : Doc :=
  assign pOriginalEndDateTime
         (negb (optZ_eqb v (originalEndDateTime (fields d))))
         (with_originalEndDateTime v) d.
Definition setRescheduledAt (v : option Z) (d : Doc) : Doc :=
  assign pRescheduledAt (negb (optZ_eqb v (rescheduledAt (fields d))))
         (with_rescheduledAt v) d.
Definition setRescheduledBy (v : option string) (d : Doc) : Doc :=
  assign pRescheduledBy (negb (optString_eqb v (rescheduledBy (fields d))))
         (with_rescheduledBy v) d.
Definition setRescheduleReason (v : option string) (d : Doc) : Doc :=
  assign pRescheduleReason
         (negb (optString_eqb v (rescheduleReason (fields d))))
         (with_rescheduleReason v) d.

(** A document loaded by [findOne]. *)
Definition loaded (b : Booking) : Doc := mkDoc b false [].

(** The value of one path copied from [src] into [dst]: what an update of
    the stored document does for a modified path. *)
Definition copyPath (p : Path) (src dst : Booking) : Booking :=
  match p with
  | pDate => with_date (date src) dst
  | pTime => with_time (time src) dst
  | pDuration => with_duration (duration src) dst
  | pStatus => with_status (status src) dst
  | pNotes => with_notes (notes src) dst
  | pPaymentStatus => with_paymentStatus (paymentStatus src) dst
  | pPaymentMethod => with_paymentMethod (paymentMethod src) dst
  | pStartDateTime => with_startDateTime (startDateTime src) dst
  | pEndDateTime => with_endDateTime (endDateTime src) dst
  | pHasConflicts => with_hasConflicts (hasConflicts src) dst
  | pConflictsWith => with_conflictsWith (conflictsWith src) dst
  | pOriginalStartDateTime =>
      with_originalStartDateTime (originalStartDateTime src) dst
  | pOriginalEndDateTime =>
      with_originalEndDateTime (originalEndDateTime src) dst
  | pRescheduledAt => with_rescheduledAt (rescheduledAt src) dst
  | pRescheduledBy => with_rescheduledBy (rescheduledBy src) dst
  | pRescheduleReason => with_rescheduleReason (rescheduleReason src) dst
  end.

(** The stored document after the modified paths of [d] are written. *)
Definition persist (stored : Booking) (d : Doc) : Booking :=
  fold_right (fun p acc => copyPath p (fields d) acc) stored (modified d).

(** The collection after [d] is written: a new document is inserted whole,
    an existing one has its modified paths updated. *)
Definition write (db : list Booking) (d : Doc) : list Booking :=
  if isNew d then db ++ [fields d]
  else map (fun b => if _id b =? _id (fields d) then persist b d else b) db.

(* ------------------------------------------------------------------ *)
(** ** Conflict detection *)
(* ------------------------------------------------------------------ *)

(** Query comparisons of a stored date with a bound taken from the running
    document. A bound that is unset (the document was built without the
    path) is sent as null, and no stored date compares with null. *)
Definition qLte (field bound : option Z) : bool :=
  match field, bound with Some f, Some v => f <=? v | _, _ => false end.
Definition qLt (field bound : option Z) : bool :=
  match field, bound with Some f, Some v => f <? v | _, _ => false end.
Definition qGte (field bound : option Z) : bool :=
  match field, bound with Some f, Some v => v <=? f | _, _ => false end.
Definition qGt (field bound : option Z) : bool :=
  match field, bound with Some f, Some v => v <? f | _, _ => false end.

(** The [$or] of [checkConflicts], clause by clause. *)
Definition overlapClauses (this b : Booking) : bool :=
  (qLte (startDateTime b) (startDateTime this)
   && qGt (endDateTime b) (startDateTime this))
  || (qLt (startDateTime b) (endDateTime this)
      && qGte (endDateTime b) (endDateTime this))
  || (qGte (startDateTime b) (startDateTime this)
      && qLte (endDateTime b) (endDateTime this))
  || (qLte (startDateTime b) (startDateTime this)
      && qGte (endDateTime b) (endDateTime this)).

Definition conflictQuery (this b : Booking) : bool :=
  (userId b =? userId this)
  && negb (_id b =? _id this)
  && inList (status b) activeStatuses
  && overlapClauses this b.

(** [bookingSchema.methods.checkConflicts] *)
Definition checkConflicts (this : Booking) (db : list Booking) : list Booking :=
  filter (conflictQuery this) db.

(* ------------------------------------------------------------------ *)
(** ** The [pre('save')] hook and [save] *)
(* ------------------------------------------------------------------ *)

Definition mutateStartDateTime (f : Z -> Z) (d : Doc) : Doc :=
  mutate (fun b => with_startDateTime (option_map f (startDateTime b)) b) d.
Definition mutateEndDateTime (f : Z -> Z) (d : Doc) : Doc :=
  mutate (fun b => with_endDateTime (option_map f (endDateTime b)) b) d.

(** First half of the hook: start and end recomputed from [date], [time] and
    [duration] when one of them is modified. [None] when [time] does not
    split into two numbers; such a string fails the schema's pattern too,
    so the save is refused in either middleware order. *)
Definition recomputeInterval (d : Doc) : option Doc :=
  if isModified pDate d || isModified pTime d || isModified pDuration d then
    match splitHM (time (fields d)) with
    | Some (hours, minutes) =>
        let d := setStartDateTime (Some (date (fields d))) d in
        let d := mutateStartDateTime (fun t => setHours t hours minutes) d in
        let d := setEndDateTime (startDateTime (fields d)) d in
        let d := mutateEndDateTime
                   (fun t => addMinutes t (duration (fields d))) d in
        Some d
    | None => None
    end
  else Some d.

(** Second half of the hook: the conflict snapshot. *)
Definition recordConflicts (db : list Booking) (d : Doc) : Doc :=
  if isNew d || isModified pStartDateTime d || isModified pEndDateTime d then
    let conflicts := checkConflicts (fields d) db in
    let d := setHasConflicts (0 <? Z.of_nat (List.length conflicts)) d in
    setConflictsWith (map _id conflicts) d
  else d.

Definition preSave (db : list Booking) (d : Doc) : option Doc :=
  option_map (recordConflicts db) (recomputeInterval d).

(** Mongoose runs its validation as a [pre('save')] middleware of its own
    and the schema's hook as another. Both orders are modelled; results
    below that depend on the order say so, the others hold for both. *)
Inductive MiddlewareOrder : Type := ValidateThenHook | HookThenValidate.

Inductive SaveResult : Type :=
| Saved : list Booking -> Booking -> SaveResult
| Invalid : list string -> SaveResult.

Definition commit (db : list Booking) (d : Doc) : SaveResult :=
  Saved (write db d) (fields d).

(** [doc.save()] *)
Definition save (ord : MiddlewareOrder) (db : list Booking) (d : Doc)
  : SaveResult :=
  match ord with
  | ValidateThenHook =>
      match validate (fields d) with
      | [] =>
          match preSave db d with
          | Some d' => commit db d'
          | None => Invalid ["time"]
          end
      | errs => Invalid errs
      end
  | HookThenValidate =>
      match preSave db d with
      | Some d' =>
          match validate (fields d') with
          | [] => commit db d'
          | errs => Invalid errs
          end
      | None => Invalid ["time"]
      end
  end.

(** [bookingSchema.methods.reschedule], up to the call of [save]; [now] is
    the value of [new Date()]. *)
Definition rescheduleFields (now newStartDateTime : Z)
  (reason rescheduledBy_ : string) (d : Doc) : Doc :=
  let d := setOriginalStartDateTime (startDateTime (fields d)) d in
  let d := setOriginalEndDateTime (endDateTime (fields d)) d in
  let newEndDateTime := newStartDateTime + duration (fields d) * 60000 in
  let d := setStartDateTime (Some newStartDateTime) d in
  let d := setEndDateTime (Some newEndDateTime) d in
  let d := setDate newStartDateTime d in
  let d := mutate (fun b => with_date (startOfDay (date b)) b) d in
  let d := setTime (toTimeString5 newStartDateTime) d in
  let d := setRescheduledAt (Some now) d in
  let d := setRescheduledBy (Some rescheduledBy_) d in
  setRescheduleReason (Some reason) d.

Definition reschedule (ord : MiddlewareOrder) (now : Z) (db : list Booking)
  (newStartDateTime : Z) (reason rescheduledBy_ : string) (d : Doc)
  : SaveResult :=
  save ord db (rescheduleFields now newStartDateTime reason rescheduledBy_ d).

(** [Booking.findOne({ _id, userId })] *)
Definition findOwned (db : list Booking) (id uid : Z) : option Booking :=
  find (fun b => (_id b =? id) && (userId b =? uid)) db.

(* ================================================================== *)
(** * Business hours ([backend/models/User.js]) and available slots *)
(* ================================================================== *)

(** One day of [businessHours]: [{ start: String, end: String, isOpen }].
    [start] and [end] have no default and are not required. *)
Record DayHours : Type := mkDayHours {
  start : option string;
  end_ : option string;
  isOpen : bool
}.

Inductive DayName : Type :=
| sunday | monday | tuesday | wednesday | thursday | friday | saturday.

Definition dayNames : list DayName :=
  [sunday; monday; tuesday; wednesday; thursday; friday; saturday].

(** [[...][date.getDay()]] *)
Definition dayOfWeek (date : Z) : DayName :=
  nth (Z.to_nat (getDay date)) dayNames sunday.

Record User : Type := mkUser {
  u_id : Z;
  businessHours : option (DayName -> option DayHours)
}.

(** [User.findById] *)
Definition findUser (users : list User) (id : Z) : option User :=
  find (fun u => u_id u =? id) users.

Record Slot : Type := mkSlot {
  startTime : Z;
  endTime : Z;
  timeString : string
}.

(** The interval of a booking whose two ends are set. *)
Definition intervalOf (b : Booking) : option TimeInterval :=
  match startDateTime b, endDateTime b with
  | Some s, Some e => Some (mkInterval s e)
  | _, _ => None
  end.

(** [a < b] on dates of which one may be missing. *)
Definition dateLt (a b : option Z) : bool :=
  match a, b with Some x, Some y => x <? y | _, _ => false end.

(** The query for the day's bookings. Its [sort] fixes only the order in
    which [some] visits them, which does not change what [some] returns. *)
Definition bookingsOfDay (db : list Booking) (uid date : Z) : list Booking :=
  filter (fun b =>
            (userId b =? uid)
            && qGte (startDateTime b) (Some (startOfDay date))
            && qLte (startDateTime b) (Some (endOfDay date))
            && inList (status b) activeStatuses) db.

(** [existingBookings.some(booking => ...)] for one candidate. *)
Definition slotHasConflict (existing : list Booking) (currentTime slotEndTime : Z)
  : bool :=
  existsb (fun booking =>
             dateLt (Some currentTime) (endDateTime booking)
             && dateLt (startDateTime booking) (Some slotEndTime)) existing.

(** The [while] loop; every turn moves [currentTime] 30 minutes on, so
    [fuel] turns suffice once [fuel] reaches [slotTurns]. *)
Fixpoint slotLoop (fuel : nat) (existing : list Booking)
  (duration businessEndTime currentTime : Z) : list Slot :=
  match fuel with
  | O => []
  | S fuel' =>
      if currentTime <? businessEndTime then
        let slotEndTime := currentTime + duration * 60000 in
        let hasConflict := slotHasConflict existing currentTime slotEndTime in
        (if negb hasConflict && (slotEndTime <=? businessEndTime)
         then [mkSlot currentTime slotEndTime (toTimeString5 currentTime)]
         else [])
        ++ slotLoop fuel' existing duration businessEndTime
             (addMinutes currentTime 30)
      else []
  end.

Definition slotTurns (businessEndTime currentTime : Z) : nat :=
  Z.to_nat ((businessEndTime - currentTime + 1799999) / 1800000).

(** [dayHours.start.split(':').map(Number)]: reading [split] of a missing
    string throws; a string that does not give two numbers gives [NaN]. *)
Definition splitHours (s : option string) : Exc (option (Z * Z)) :=
  match s with
  | None => Throw "TypeError: Cannot read properties of undefined"
  | Some s => Ok (splitHM s)
  end.

(** [bookingSchema.statics.getAvailableTimeSlots] *)
Definition getAvailableTimeSlots (users : list User) (db : list Booking)
  (uid date duration : Z) : Exc (list Slot) :=
  match findUser users uid with
  | None => Ok []
  | Some user =>
      match businessHours user with
      | None => Ok []
      | Some hours =>
          match hours (dayOfWeek date) with
          | None => Ok []
          | Some dayHours =>
              if negb (isOpen dayHours) then Ok []
              else
                let existingBookings := bookingsOfDay db uid date in
                s <- splitHours (start dayHours) ;;
                e <- splitHours (end_ dayHours) ;;
                match s, e with
                | Some (startHour, startMinute), Some (endHour, endMinute) =>
                    let currentTime := setHours date startHour startMinute in
                    let businessEndTime := setHours date endHour endMinute in
                    Ok (slotLoop (slotTurns businessEndTime currentTime)
                          existingBookings duration businessEndTime currentTime)
                | _, _ =>
                    (* an invalid date compares false: the loop never runs *)
                    Ok []
                end
          end
      end
  end.

(** [GET /available-slots/:date] *)
Inductive SlotsResponse : Type :=
| SlotsOk : Z -> list Slot -> SlotsResponse
| SlotsBadRequest : string -> SlotsResponse.

Definition availableSlotsRoute (users : list User) (db : list Booking)
  (uid date duration : Z) : SlotsResponse :=
  match getAvailableTimeSlots users db uid date duration with
  | Ok availableSlots => SlotsOk date availableSlots
  | Throw message => SlotsBadRequest message
  end.

(* ================================================================== *)
(** * Customers, services and the store *)
(* ================================================================== *)

(** [backend/models/Customer.js] *)
Record Customer : Type := mkCustomer {
  c_id : Z;
  c_userId : Z;
  c_name : option string;
  c_email : option string;
  c_phone : option string;
  c_address : option string;
  c_notes : option string;
  totalBookings : Z;
  lastBooking : option Z
}.

(** [backend/models/Service.js]: the paths the booking routes read. The
    schema asks for [duration >= 15] and [price >= 0]. *)
Record Service : Type := mkService {
  s_id : Z;
  s_userId : Z;
  s_duration : Z;
  s_price : Z
}.

Record Store : Type := mkStore {
  users : list User;
  services : list Service;
  customers : list Customer;
  bookings : list Booking
}.

Definition with_bookings (v : list Booking) (st : Store) : Store :=
  mkStore (users st) (services st) (customers st) v.
Definition with_customers (v : list Customer) (st : Store) : Store :=
  mkStore (users st) (services st) v (bookings st).
Definition with_users (v : list User) (st : Store) : Store :=
  mkStore v (services st) (customers st) (bookings st).

(** A new ObjectId: one that no document of the collection carries. *)
Definition freshId (ids : list Z) : Z := 1 + fold_right Z.max 0 ids.

(** [/^\w+([.-]?\w+)*@\w+([.-]?\w+)*(\.\w{2,3})+$/] *)
Definition emailPattern : regex :=
  let w := Class word in
  let dotted := Star (Seq (Opt (Class (oneOf ".-"))) (Plus w)) in
  Seq (Plus w)
      (Seq dotted
           (Seq (chr "@")
                (Seq (Plus w)
                     (Seq dotted
                          (Plus (Seq (chr ".") (Seq w (Seq w (Opt w))))))))).

Definition truthy (o : option string) : bool :=
  match o with
  | Some s => negb (String.eqb s "")
  | None => false
  end.

Definition maxLength (n : Z) (o : option string) : bool :=
  match o with
  | Some s => Z.of_nat (String.length s) <=? n
  | None => true
  end.

(** The customer schema's validators. *)
Definition validateCustomer (c : Customer) : list string :=
  (if truthy (c_name c) && maxLength 100 (c_name c) then [] else ["name"])
  ++ (match c_email c with
      | Some e => if negb (String.eqb e "") && test emailPattern e then []
                  else ["email"]
      | None => ["email"]
      end)
  ++ (if truthy (c_phone c) && maxLength 20 (c_phone c) then [] else ["phone"])
  ++ (if maxLength 200 (c_address c) then [] else ["address"])
  ++ (if maxLength 500 (c_notes c) then [] else ["notes"]).

(** [a || b] on strings that may be missing. *)
Definition orElse (a b : option string) : option string :=
  if truthy a then a else b.

(* ================================================================== *)
(** * The booking routes *)
(* ================================================================== *)

Record ConflictInfo : Type := mkConflictInfo {
  ci_id : Z;
  ci_startDateTime : option Z;
  ci_endDateTime : option Z
}.

Definition conflictInfo (b : Booking) : ConflictInfo :=
  mkConflictInfo (_id b) (startDateTime b) (endDateTime b).

Inductive Response : Type :=
| NotFound : string -> Response
| Conflict : list ConflictInfo -> Response
| SlotTaken : Response
| ValidationFailed : list string -> Response
| BadRequest : string -> Response
| Created : option Booking -> Response
| Updated : option Booking -> Response
| Rescheduled : option Booking -> option Z -> option Z -> Response.

(** [new Booking({ userId, customerId, serviceId, date, time, duration,
    totalAmount, notes, status })] with the schema's defaults; the paths
    given to the constructor are the modified ones. *)
Definition newBooking (id uid cid sid date_ : Z) (time_ : string)
  (duration_ totalAmount_ : Z) (notes_ : option string) : Doc :=
  mkDoc (mkBooking id uid cid sid date_ time_ duration_ "pending"
           (option_map trim notes_) totalAmount_ "pending" "cash"
           None None false [] None None None None None)
        true [pDate; pTime; pDuration; pNotes].

Definition findBooking (db : list Booking) (id : Z) : option Booking :=
  find (fun b => _id b =? id) db.

(** [Customer.findByIdAndUpdate(id, { $inc: { totalBookings: 1 },
    lastBooking: new Date() })] *)
Definition bumpCustomer (now id : Z) (cs : list Customer) : list Customer :=
  map (fun c =>
         if c_id c =? id then
           mkCustomer (c_id c) (c_userId c) (c_name c) (c_email c) (c_phone c)
             (c_address c) (c_notes c) (totalBookings c + 1) (Some now)
         else c) cs.

Record CreateRequest : Type := mkCreateRequest {
  rq_customerId : Z;
  rq_serviceId : Z;
  rq_date : Z;
  rq_time : string;
  rq_notes : option string
}.

(** [POST /] of [routes/bookings.js]; [uid] is the authenticated user. *)
Definition createBooking (ord : MiddlewareOrder) (now : Z) (st : Store)
  (uid : Z) (rq : CreateRequest) : Response * Store :=
  let customer :=
    find (fun c => (c_id c =? rq_customerId rq) && (c_userId c =? uid))
         (customers st) in
  let service :=
    find (fun s => (s_id s =? rq_serviceId rq) && (s_userId s =? uid))
         (services st) in
  match customer, service with
  | Some _, Some service =>
      let booking :=
        newBooking (freshId (map _id (bookings st))) uid (rq_customerId rq)
          (rq_serviceId rq) (rq_date rq) (rq_time rq) (s_duration service)
          (s_price service) (rq_notes rq) in
      (* Check for conflicts before saving *)
      match checkConflicts (fields booking) (bookings st) with
      | [] =>
          match save ord (bookings st) booking with
          | Saved db' saved =>
              let st' :=
                with_customers
                  (bumpCustomer now (rq_customerId rq) (customers st))
                  (with_bookings db' st) in
              (Created (findBooking db' (_id saved)), st')
          | Invalid paths => (ValidationFailed paths, st)
          end
      | conflicts => (Conflict (map conflictInfo conflicts), st)
      end
  | _, _ => (NotFound "Customer or Service not found", st)
  end.

Record CustomerInfo : Type := mkCustomerInfo {
  ci_name : option string;
  ci_email : option string;
  ci_phone : option string;
  ci_address : option string;
  ci_notes : option string
}.

Record PublicRequest : Type := mkPublicRequest {
  pr_businessId : Z;
  pr_serviceId : Z;
  pr_date : Z;
  pr_time : string;
  pr_customerInfo : CustomerInfo
}.

(** The customer schema's setters: [trim] on every string, [lowercase] on
    the email. *)
Definition castCustomer (id uid : Z) (name email phone address notes_ : option string)
  (total : Z) (last : option Z) : Customer :=
  mkCustomer id uid (option_map trim name)
    (option_map (fun e => trim (toLowerCase e)) email)
    (option_map trim phone) (option_map trim address) (option_map trim notes_)
    total last.

(** The "find or create customer" step of [POST /bookings]: the customer's
    id and the customers after the step, or the paths that fail. *)
Definition findOrCreateCustomer (cs : list Customer) (uid : Z)
  (email : string) (info : CustomerInfo) : (Z * list Customer) + list string :=
  match find (fun c => (c_userId c =? uid)
                       && optString_eqb (c_email c) (Some (toLowerCase email)))
             cs with
  | None =>
      let c := castCustomer (freshId (map c_id cs)) uid (ci_name info)
                 (ci_email info) (ci_phone info) (ci_address info)
                 (ci_notes info) 0 None in
      match validateCustomer c with
      | [] => inl (c_id c, (cs ++ [c])%list)
      | paths => inr paths
      end
  | Some customer =>
      let c := castCustomer (c_id customer) uid
                 (orElse (ci_name info) (c_name customer))
                 (c_email customer)
                 (orElse (ci_phone info) (c_phone customer))
                 (orElse (ci_address info) (c_address customer))
                 (if truthy (ci_notes info) then ci_notes info
                  else c_notes customer)
                 (totalBookings customer) (lastBooking customer) in
      match validateCustomer c with
      | [] =>
          inl (c_id c, map (fun x => if c_id x =? c_id c then c else x) cs)
      | paths => inr paths
      end
  end.

(** The conflict check of [POST /bookings] in [routes/public.js]:
    [Booking.findOne({ userId, date, time,
                       status: { $nin: ['cancelled', 'completed'] } })]. *)
Definition slotTaken (db : list Booking) (uid date_ : Z) (time_ : string)
  : option Booking :=
  find (fun b =>
          (userId b =? uid) && (date b =? date_) && String.eqb (time b) time_
          && negb (inList (status b) ["cancelled"; "completed"])) db.

(** [POST /bookings] of [routes/public.js] *)
Definition createPublicBooking (ord : MiddlewareOrder) (now : Z) (st : Store)
  (rq : PublicRequest) : Response * Store :=
  let business := findUser (users st) (pr_businessId rq) in
  let service :=
    find (fun s => (s_id s =? pr_serviceId rq)
                   && (s_userId s =? pr_businessId rq)) (services st) in
  match business, service with
  | Some _, Some service =>
      match slotTaken (bookings st) (pr_businessId rq) (pr_date rq)
                      (pr_time rq) with
      | Some _ => (SlotTaken, st)
      | None =>
          match ci_email (pr_customerInfo rq) with
          | None => (BadRequest "TypeError", st)
          | Some email =>
              match findOrCreateCustomer (customers st) (pr_businessId rq)
                      email (pr_customerInfo rq) with
              | inr paths => (ValidationFailed paths, st)
              | inl (cid, cs) =>
                  let st1 := with_customers cs st in
                  let booking :=
                    newBooking (freshId (map _id (bookings st)))
                      (pr_businessId rq) cid (pr_serviceId rq) (pr_date rq)
                      (pr_time rq) (s_duration service) (s_price service)
                      (ci_notes (pr_customerInfo rq)) in
                  match save ord (bookings st) booking with
                  | Saved db' saved =>
                      (Created (Some saved),
                       with_customers (bumpCustomer now cid cs)
                         (with_bookings db' st1))
                  | Invalid paths => (ValidationFailed paths, st1)
                  end
              end
          end
      end
  | _, _ => (NotFound "Business or Service not found", st)
  end.

Record UpdateRequest : Type := mkUpdateRequest {
  up_date : option Z;
  up_time : option string;
  up_status : option string;
  up_notes : option string;
  up_paymentStatus : option string;
  up_paymentMethod : option string
}.

Definition whenSet (o : option string) (f : string -> Doc -> Doc) (d : Doc)
  : Doc :=
  match o with
  | Some v => if String.eqb v "" then d else f v d
  | None => d
  end.

(** [PUT /:id] of [routes/bookings.js] *)
Definition updateBooking (ord : MiddlewareOrder) (st : Store) (uid id : Z)
  (rq : UpdateRequest) : Response * Store :=
  match findOwned (bookings st) id uid with
  | None => (NotFound "Booking not found", st)
  | Some stored =>
      let booking := loaded stored in
      let timed := isSome (up_date rq) || truthy (up_time rq) in
      let booking :=
        if timed then
          let booking :=
            setDate (match up_date rq with
                     | Some v => v
                     | None => date (fields booking)
                     end) booking in
          setTime (if truthy (up_time rq)
                   then match up_time rq with Some v => v | None => "" end
                   else time (fields booking)) booking
        else booking in
      match (if timed then checkConflicts (fields booking) (bookings st)
             else []) with
      | [] =>
          let booking := whenSet (up_status rq) setStatus booking in
          let booking :=
            match up_notes rq with
            | Some v => setNotes (Some (trim v)) booking
            | None => booking
            end in
          let booking := whenSet (up_paymentStatus rq) setPaymentStatus booking in
          let booking := whenSet (up_paymentMethod rq) setPaymentMethod booking in
          match save ord (bookings st) booking with
          | Saved db' saved =>
              (Updated (findBooking db' (_id saved)), with_bookings db' st)
          | Invalid paths => (ValidationFailed paths, st)
          end
      | conflicts => (Conflict (map conflictInfo conflicts), st)
      end
  end.

(** [PUT /:id/reschedule] of [routes/bookings.js]; the default reason is
    ['Rescheduled via calendar']. *)
Definition rescheduleBooking (ord : MiddlewareOrder) (now : Z) (st : Store)
  (uid id newStartDateTime : Z) (reason : option string) : Response * Store :=
  match findOwned (bookings st) id uid with
  | None => (NotFound "Booking not found", st)
  | Some stored =>
      let reason :=
        match reason with
        | Some r => r
        | None => "Rescheduled via calendar"
        end in
      match reschedule ord now (bookings st) newStartDateTime reason "user"
              (loaded stored) with
      | Saved db' rescheduled =>
          (Rescheduled (findBooking db' (_id rescheduled))
             (originalStartDateTime rescheduled) (startDateTime rescheduled),
           with_bookings db' st)
      | Invalid paths => (ValidationFailed paths, st)
      end
  end.

(* ================================================================== *)
(** * The rule-based recommender ([backend/services/aiService.js]) *)
(* ================================================================== *)

Module AIService.

(** What the service reads of a day of business hours and of a booking.
    A number that may be [NaN] is an [option Z]. *)
Record HoursView : Type := mkHoursView {
  hv_isOpen : bool;
  hv_open : option string;
  hv_close : option string
}.

Record BookingView : Type := mkBookingView {
  bv_time : option string;
  bv_endTime : option string
}.

(** The views of the documents the queries return. The user schema names
    the two ends of a day [start] and [end], and the booking schema has no
    path [endTime]: reading [open], [close] and [endTime] of a document
    gives [undefined]. *)
Definition hoursOfDocument (h : DayHours) : HoursView :=
  mkHoursView (isOpen h) None None.

Definition bookingOfDocument (b : Booking) : BookingView :=
  mkBookingView (Some (time b)) None.

Record TimeSlot : Type := mkTimeSlot {
  sl_time : string;
  sl_endTime : string;
  sl_minutes : Z;
  sl_endMinutes : Z
}.

(** [timeToMinutes(timeString)] *)
Definition timeToMinutes (timeString : option string) : Exc (option Z) :=
  match timeString with
  | None => Throw "TypeError: Cannot read properties of undefined"
  | Some s =>
      Ok (match splitHM s with
          | Some (hours, minutes) => Some (hours * 60 + minutes)
          | None => None
          end)
  end.

Definition hhmm (minutes : Z) : string :=
  padStart2 (toString (minutes / 60)) ++ ":" ++ padStart2 (toString (minutes mod 60)).

(** The [for] loop of [generateTimeSlots]. *)
Fixpoint slotsFrom (fuel : nat) (serviceDuration closeMinutes minutes : Z)
  : list TimeSlot :=
  match fuel with
  | O => []
  | S fuel' =>
      if minutes + serviceDuration <=? closeMinutes then
        let endMinutes := minutes + serviceDuration in
        mkTimeSlot (hhmm minutes) (hhmm endMinutes) minutes endMinutes
        :: slotsFrom fuel' serviceDuration closeMinutes (minutes + 30)
      else []
  end.

Definition slotCount (serviceDuration closeMinutes openMinutes : Z) : nat :=
  Z.to_nat ((closeMinutes - serviceDuration - openMinutes) / 30 + 1).

(** [generateTimeSlots(businessHours, serviceDuration)] *)
Definition generateTimeSlots (businessHours : HoursView) (serviceDuration : Z)
  : Exc (list TimeSlot) :=
  o <- timeToMinutes (hv_open businessHours) ;;
  c <- timeToMinutes (hv_close businessHours) ;;
  match o, c with
  | Some openMinutes, Some closeMinutes =>
      Ok (slotsFrom (slotCount serviceDuration closeMinutes openMinutes)
            serviceDuration closeMinutes openMinutes)
  | _, _ => Ok []
  end.

Record Factors : Type := mkFactors {
  availability : Z;
  customerPreference : Z;
  businessOptimal : Z;
  historicalDemand : Z;
  bufferTime : Z
}.

Record SlotScore : Type := mkSlotScore {
  available : bool;
  score : Z;
  factors : Factors;
  reason : string
}.

(** [l.some(f)] where [f] may throw. *)
Fixpoint someExc {A : Type} (f : A -> Exc bool) (l : list A) : Exc bool :=
  match l with
  | [] => Ok false
  | a :: l' => b <- f a ;; if b then Ok true else someExc f l'
  end.

Definition numLt (a b : option Z) : bool :=
  match a, b with Some x, Some y => x <? y | _, _ => false end.
Definition numEq (a b : option Z) : bool :=
  match a, b with Some x, Some y => x =? y | _, _ => false end.

(** [Object.values(factors).reduce((sum, score) => sum + score, 0)] *)
Definition totalScore (f : Factors) : Z :=
  0 + availability f + customerPreference f + businessOptimal f
  + historicalDemand f + bufferTime f.

(** [calculateSlotScore]; [customerHistory] holds the [time] of the
    customer's last completed bookings, [sameTimeBookings] is the result of
    the [countDocuments] query for a time string. *)
Definition calculateSlotScore (slot : TimeSlot) (existingBookings : list BookingView)
  (customerHistory : list string) (sameTimeBookings : string -> Z)
  (preferredTime : option string) : Exc SlotScore :=
  taken <- someExc (fun booking =>
                      bookingStart <- timeToMinutes (bv_time booking) ;;
                      bookingEnd <- timeToMinutes (bv_endTime booking) ;;
                      Ok (numLt (Some (sl_minutes slot)) bookingEnd
                          && numLt bookingStart (Some (sl_endMinutes slot))))
                   existingBookings ;;
  if taken then
    Ok (mkSlotScore false 0 (mkFactors 0 0 0 0 0) "Time slot unavailable")
  else
    let availability_ := 25 in
    let customerPreference_ :=
      if truthy preferredTime && optString_eqb (Some (sl_time slot)) preferredTime
      then 30
      else if 0 <? Z.of_nat (List.length customerHistory) then
        let timeFrequency :=
          Z.of_nat (List.length
                      (filter (fun t => String.eqb t (sl_time slot))
                              customerHistory)) in
        Z.min 25 (timeFrequency * 8)
      else 10 in
    let slotHour := sl_minutes slot / 60 in
    let businessOptimal_ :=
      if (10 <=? slotHour) && (slotHour <=? 14) then 20
      else if (9 <=? slotHour) && (slotHour <=? 16) then 15
      else 5 in
    let historicalDemand_ := Z.min 15 (sameTimeBookings (sl_time slot) * 3) in
    bufferBefore <- someExc (fun b =>
                               e <- timeToMinutes (bv_endTime b) ;;
                               Ok (numEq e (Some (sl_minutes slot - 30))))
                            existingBookings ;;
    bufferAfter <- someExc (fun b =>
                              s <- timeToMinutes (bv_time b) ;;
                              Ok (numEq s (Some (sl_endMinutes slot + 30))))
                           existingBookings ;;
    let hasBufferBefore := negb bufferBefore in
    let hasBufferAfter := negb bufferAfter in
    let bufferTime_ :=
      if hasBufferBefore && hasBufferAfter then 10
      else if hasBufferBefore || hasBufferAfter then 5
      else 0 in
    let factors_ :=
      mkFactors availability_ customerPreference_ businessOptimal_
                historicalDemand_ bufferTime_ in
    let reason_ :=
      if 20 <? customerPreference_ then "Matches your usual time preference"
      else if 15 <? businessOptimal_ then "Optimal business hours"
      else if 5 <? bufferTime_ then "Good spacing between appointments"
      else "Available slot" in
    Ok (mkSlotScore true (totalScore factors_) factors_ reason_).

Record Recommendation : Type := mkRecommendation {
  r_time : string;
  r_endTime : string;
  r_score : Z;
  r_factors : Factors;
  r_reason : string
}.

(** [recommendations.sort((a, b) => b.score - a.score)]: [Array.prototype.sort]
    is stable, so equal scores keep the order in which they were pushed. *)
Fixpoint insertByScore (x : Recommendation) (l : list Recommendation)
  : list Recommendation :=
  match l with
  | [] => [x]
  | y :: l' =>
      if r_score x <? r_score y then y :: insertByScore x l'
      else x :: l
  end.

Definition sortByScore (l : list Recommendation) : list Recommendation :=
  fold_right insertByScore [] l.

(** Descending order of score. *)
Definition byScore (a b : Recommendation) : Prop := r_score b <= r_score a.

Inductive Recommendations : Type :=
| RuleBased : list Recommendation -> Z -> Recommendations
| ClosedDay : DayName -> Recommendations
| RecommendationError : Recommendations.

(** The [for] loop over the slots. *)
Fixpoint scoreSlots (timeSlots : list TimeSlot) (existingBookings : list BookingView)
  (customerHistory : list string) (sameTimeBookings : string -> Z)
  (preferredTime : option string) : Exc (list Recommendation) :=
  match timeSlots with
  | [] => Ok []
  | slot :: rest =>
      slotScore <- calculateSlotScore slot existingBookings customerHistory
                     sameTimeBookings preferredTime ;;
      more <- scoreSlots rest existingBookings customerHistory
                sameTimeBookings preferredTime ;;
      Ok (if available slotScore
          then mkRecommendation (sl_time slot) (sl_endTime slot)
                 (score slotScore) (factors slotScore) (reason slotScore)
               :: more
          else more)
  end.

(** The body of [getRuleBasedRecommendations] once the day's hours and the
    query results are at hand. *)
Definition recommend (day : DayName) (businessHours : HoursView)
  (existingBookings : list BookingView) (customerHistory : list string)
  (sameTimeBookings : string -> Z) (serviceDuration : Z)
  (preferredTime : option string) : Recommendations :=
  if negb (hv_isOpen businessHours) then ClosedDay day
  else
    match (timeSlots <- generateTimeSlots businessHours serviceDuration ;;
           scoreSlots timeSlots existingBookings customerHistory
             sameTimeBookings preferredTime) with
    | Ok recommendations =>
        let sorted := sortByScore recommendations in
        RuleBased (firstn 5 sorted) (Z.of_nat (List.length sorted))
    | Throw _ => RecommendationError
    end.

(** Newest first, for [sort({ date: -1 })]. *)
Fixpoint insertByDate (x : Booking) (l : list Booking) : list Booking :=
  match l with
  | [] => [x]
  | y :: l' => if date x <? date y then y :: insertByDate x l' else x :: l
  end.

(** [getRuleBasedRecommendations(user, customer, service, preferredDate,
    preferredTime)] on the documents of the store. *)
Definition getRuleBasedRecommendations (db : list Booking) (user : User)
  (customerId_ serviceDuration preferredDate : Z) (preferredTime : option string)
  : Recommendations :=
  let targetDate := preferredDate in
  let day := dayOfWeek targetDate in
  match businessHours user with
  | None => RecommendationError
  | Some hours =>
      match hours day with
      | None => RecommendationError
      | Some dayHours =>
          let existingBookings :=
            filter (fun b => (userId b =? u_id user) && (date b =? targetDate)
                             && negb (inList (status b) ["cancelled"])) db in
          let customerHistory :=
            firstn 5 (fold_right insertByDate []
                        (filter (fun b => (customerId b =? customerId_)
                                          && String.eqb (status b) "completed")
                                db)) in
          let sameTimeBookings := fun t =>
            Z.of_nat (List.length
                        (filter (fun b => (userId b =? u_id user)
                                          && String.eqb (time b) t
                                          && String.eqb (status b) "completed")
                                db)) in
          recommend day (hoursOfDocument dayHours)
            (map bookingOfDocument existingBookings)
            (map time customerHistory) sameTimeBookings serviceDuration
            preferredTime
      end
  end.

(** What [calculateConfidenceScore] reads of the business patterns:
    [averageBookingsPerDay] is [recentBookings.length / 30], kept as the
    count it is computed from. *)
Record BusinessPatterns : Type := mkBusinessPatterns {
  recentBookings : Z
}.

(** [calculateConfidenceScore(bookingHistory, businessPatterns)];
    [bookingHistory] holds the [date] of the customer's bookings, newest
    first, [businessPatterns] is [None] for [null], [now] is the value of
    [Date.now()]. *)
Definition calculateConfidenceScore (now : Z) (bookingHistory : list Z)
  (businessPatterns : option BusinessPatterns) : Z :=
  let confidence := 50 in
  let confidence :=
    if 5 <=? Z.of_nat (List.length bookingHistory) then confidence + 20
    else if 2 <=? Z.of_nat (List.length bookingHistory) then confidence + 10
    else confidence in
  let confidence :=
    match businessPatterns with
    | Some patterns =>
        if 30 <? recentBookings patterns then confidence + 15 else confidence
    | None => confidence
    end in
  let confidence :=
    match bookingHistory with
    | lastBooking :: _ =>
        if now - lastBooking <? 30 * msPerDay then confidence + 10
        else confidence
    | [] => confidence
    end in
  Z.min 95 confidence.

End AIService.

(* ================================================================== *)
(** * Sample data *)
(* ================================================================== *)

Module Sample.

(** Monday 2024-01-15, as a day number. *)
Definition day : Z := 19737.

(** A stored booking of provider [uid] on [day], from [h:m], [dur] minutes
    long, as [save] leaves it: [date] at midnight, both ends set. *)
Definition booked (id uid h m dur : Z) (st : string) : Booking :=
  mkBooking id uid 100 200 (at_ day 0 0) (toTimeString5 (at_ day h m)) dur st
    None 50 "pending" "cash"
    (Some (at_ day h m)) (Some (at_ day h m + dur * 60000)) false []
    None None None None None.

(** Provider 1 is open on weekdays from 09:00 to 17:00 and closed on
    Sundays, the schema's default for [isOpen]. *)
Definition weekHours (d : DayName) : option DayHours :=
  match d with
  | sunday => Some (mkDayHours (Some "09:00") (Some "17:00") false)
  | _ => Some (mkDayHours (Some "09:00") (Some "17:00") true)
  end.

Definition provider : User := mkUser 1 (Some weekHours).

Definition customer : Customer :=
  mkCustomer 100 1 (Some "Abebe") (Some "abebe@example.com")
    (Some "0911000000") None None 3 None.

Definition service : Service := mkService 200 1 60 50.

Definition storeWith (db : list Booking) : Store :=
  mkStore [provider] [service] [customer] db.

(** 09:00-10:00 pending and 11:00-12:00 confirmed. *)
Definition twoApart : list Booking :=
  [booked 1 1 9 0 60 "pending"; booked 2 1 11 0 60 "confirmed"].

(** A booking at midnight, 00:00-01:00, and one from 01:30 to 02:30. *)
Definition atMidnight : list Booking :=
  [booked 1 1 0 0 60 "confirmed"; booked 2 1 1 30 60 "pending"].

(** The same on another day. *)
Definition bookedOn (d id uid h m dur : Z) (st : string) : Booking :=
  mkBooking id uid 100 200 (at_ d 0 0) (toTimeString5 (at_ d h m)) dur st
    None 50 "pending" "cash"
    (Some (at_ d h m)) (Some (at_ d h m + dur * 60000)) false []
    None None None None None.

(** Sunday 2024-01-14. *)
Definition sunday14 : Z := 19736.

(** Provider 3 opens every day, Sundays too, from 09:00 to 10:00. *)
Definition sundayShop : User :=
  mkUser 3 (Some (fun _ => Some (mkDayHours (Some "09:00") (Some "10:00") true))).

(** Provider 3's only Sunday hour is taken. *)
Definition sundayTaken : list Booking :=
  [bookedOn sunday14 7 3 9 0 60 "confirmed"].

(** A booking from 10:00 to 11:00. *)
Definition midMorning : list Booking := [booked 1 1 10 0 60 "confirmed"].

(** A completed booking from 09:00 to 10:00. *)
Definition doneMorning : list Booking := [booked 1 1 9 0 60 "completed"].

(** The example of the specification for recommendations: one booking
    from 12:00 to 13:00 on [day] and three completed 10:00 bookings of
    customer 100 on the Mondays before. *)
Definition lunchAndHistory : list Booking :=
  [booked 5 1 12 0 60 "confirmed";
   bookedOn 19730 4 1 10 0 60 "completed";
   bookedOn 19723 3 1 10 0 60 "completed";
   bookedOn 19716 2 1 10 0 60 "completed"].

(** The same example handed to the recommender as plain objects that do
    carry [open], [close] and [endTime]. *)
Definition plainHours : AIService.HoursView :=
  AIService.mkHoursView true (Some "09:00") (Some "17:00").
Definition plainLunch : list AIService.BookingView :=
  [AIService.mkBookingView (Some "12:00") (Some "13:00")].
Definition tenOClockThrice : list string := ["10:00"; "10:00"; "10:00"].
Definition completedAt (t : string) : Z :=
  Z.of_nat (List.length
              (filter (fun b => String.eqb (time b) t
                                && String.eqb (status b) "completed")
                      lunchAndHistory)).

(** A single booking from 09:00 to 10:00. *)
Definition oneMorning : list Booking := [booked 1 1 9 0 60 "pending"].

(** A walk-in customer asking for 09:30 on [day]. *)
Definition walkIn : PublicRequest :=
  mkPublicRequest 1 200 (at_ day 0 0) "09:30"
    (mkCustomerInfo (Some "Sara") (Some "sara@example.com")
       (Some "0911223344") None None).

(** The provider's own request for customer 100 at 09:30 on [day]. *)
Definition deskRequest : CreateRequest :=
  mkCreateRequest 100 200 (at_ day 0 0) "09:30" None.

(** The booking at midnight with its [time] set to "01:00", as [PUT /:id]
    leaves it before [save]. *)
Definition movedByAnHour : Doc :=
  setTime "01:00" (loaded (booked 1 1 0 0 60 "confirmed")).

(** The request that does so. *)
Definition toOneOClock : UpdateRequest :=
  mkUpdateRequest None (Some "01:00") None None None None.


(** Bookings 1 and 2 overlap: 09:00-10:00 and 09:30-10:30. *)
Definition overlapping : list Booking :=
  [booked 1 1 9 0 60 "pending"; booked 2 1 9 30 60 "pending"].

(** A request to move a booking to 15:00, an hour nobody has booked. *)
Definition toThreeOClock : UpdateRequest :=
  mkUpdateRequest None (Some "15:00") None None None None.

(** Provider 1's booking 1 and provider 3's booking 7, at the same hour. *)
Definition twoProviders : list Booking :=
  [booked 1 1 9 0 60 "pending"; booked 7 3 9 0 60 "confirmed"].



(** The booking [deskRequest] leaves in a store that holds [oneMorning]. *)
Definition deskBooked : Booking :=
  mkBooking 2 1 100 200 (at_ day 0 0) "09:30" 60 "pending" None 50 "pending"
    "cash" (Some (at_ day 9 30)) (Some (at_ day 10 30)) true [1]
    None None None None None.

(** Booking 1 of [twoApart] after its time is set to "15:00" and saved. *)
Definition movedToThree : Booking :=
  mkBooking 1 1 100 200 (at_ day 0 0) "15:00" 60 "pending" None 50 "pending"
    "cash" (Some (at_ day 15 0)) (Some (at_ day 16 0)) false []
    None None None None None.

(** Provider 1 with every day closed. *)
Definition alwaysClosed : User :=
  mkUser 1 (Some (fun _ => Some (mkDayHours (Some "09:00") (Some "17:00") false))).

End Sample.

(* ================================================================== *)
(** * Properties of the store *)
(* ================================================================== *)

(** Two bookings of one provider, neither cancelled, whose intervals
    overlap. *)
Definition doubleBooked (x y : Booking) : bool :=
  negb (_id x =? _id y)
  && (userId x =? userId y)
  && negb (String.eqb (status x) "cancelled")
  && negb (String.eqb (status y) "cancelled")
  && match intervalOf x, intervalOf y with
     | Some a, Some b => overlaps a b
     | _, _ => false
     end.

(** No two non-cancelled bookings of a provider overlap. *)
Definition conflictFree (db : list Booking) : bool :=
  forallb (fun x => forallb (fun y => negb (doubleBooked x y)) db) db.

(** The state machine as the specification words it: pending -> confirmed
    -> in-progress -> completed, and cancelled reachable from pending,
    confirmed and in-progress. The routes contain no such table. *)
Definition allowedTransition (from to : string) : bool :=
  (String.eqb from "pending" && String.eqb to "confirmed")
  || (String.eqb from "confirmed" && String.eqb to "in-progress")
  || (String.eqb from "in-progress" && String.eqb to "completed")
  || (inList from activeStatuses && String.eqb to "cancelled").

(** A request to [PUT /:id] that carries a status and nothing else. *)
Definition statusOnly (s : string) : UpdateRequest :=
  mkUpdateRequest None None (Some s) None None None.

(** Every stored booking has both ends set, the end after the start. *)
Definition wellFormedBooking (b : Booking) : Prop :=
  exists a, intervalOf b = Some a /\ wellFormed a.

(* ================================================================== *)
(** * Further routes of [routes/bookings.js] and [routes/public.js] *)
(* ================================================================== *)

(* ------------------------------------------------------------------ *)
(** ** [POST /check-conflicts] *)
(* ------------------------------------------------------------------ *)






(* ------------------------------------------------------------------ *)
(** ** [GET /calendar/view] *)
(* ------------------------------------------------------------------ *)

(** What an event carries of its booking; the populated names and the
    display colours are left out. *)
Record CalendarEvent : Type := mkCalendarEvent {
  ev_id : Z;
  ev_start : option Z;
  ev_end : option Z;
  ev_status : string;
  ev_totalAmount : Z;
  ev_paymentStatus : string;
  ev_notes : option string;
  ev_hasConflicts : bool
}.

Definition calendarEvent (booking : Booking) : CalendarEvent :=
  mkCalendarEvent (_id booking) (startDateTime booking) (endDateTime booking)
    (status booking) (totalAmount booking) (paymentStatus booking)
    (notes booking) (hasConflicts booking).

(** [sort({ startDateTime: 1 })] *)
Fixpoint insertByStart (x : Booking) (l : list Booking) : list Booking :=
  match l with
  | [] => [x]
  | y :: l' =>
      if dateLt (startDateTime y) (startDateTime x) then y :: insertByStart x l'
      else x :: l
  end.

Definition sortByStart (l : list Booking) : list Booking :=
  fold_right insertByStart [] l.

Inductive CalendarResponse : Type :=
| CalendarOk : list CalendarEvent -> Z -> CalendarResponse
| CalendarBadRequest : string -> CalendarResponse.

(** The query of the route. *)
Definition calendarQuery (uid startDate endDate : Z) (b : Booking) : bool :=
  (userId b =? uid)
  && qGte (startDateTime b) (Some startDate)
  && qLte (startDateTime b) (Some endDate)
  && negb (inList (status b) ["cancelled"]).

(** [startDate] and [endDate] are the parsed query parameters, [None] when
    the parameter is missing or empty. *)
Definition calendarView (db : list Booking) (uid : Z) (startDate endDate : option Z)
  : CalendarResponse :=
  match startDate, endDate with
  | Some s, Some e =>
      let bookings := sortByStart (filter (calendarQuery uid s e) db) in
      let calendarEvents := map calendarEvent bookings in
      CalendarOk calendarEvents (Z.of_nat (List.length calendarEvents))
  | _, _ => CalendarBadRequest "Start date and end date are required"
  end.

(** Ascending order of start, for dates that are set. *)
Definition byStart (a b : CalendarEvent) : Prop :=
  match ev_start a, ev_start b with
  | Some x, Some y => x <= y
  | _, _ => False
  end.

(* ------------------------------------------------------------------ *)
(** ** [DELETE /:id] *)
(* ------------------------------------------------------------------ *)

(** [Booking.findOneAndDelete(query)]: the first document that matches is
    removed and returned. *)
Fixpoint findOneAndDelete (query : Booking -> bool) (db : list Booking)
  : option Booking * list Booking :=
  match db with
  | [] => (None, [])
  | b :: db' =>
      if query b then (Some b, db')
      else let (found, rest) := findOneAndDelete query db' in
           (found, b :: rest)
  end.

Inductive DeleteResponse : Type :=
| Deleted : DeleteResponse
| DeleteNotFound : string -> DeleteResponse.

Definition deleteBooking (st : Store) (uid id : Z) : DeleteResponse * Store :=
  match findOneAndDelete (fun b => (_id b =? id) && (userId b =? uid))
                         (bookings st) with
  | (Some _, db') => (Deleted, with_bookings db' st)
  | (None, _) => (DeleteNotFound "Booking not found", st)
  end.

(* ------------------------------------------------------------------ *)
(** ** [GET /availability/:businessId] of [routes/public.js] *)
(* ------------------------------------------------------------------ *)

Definition allTimeSlots : list string :=
  ["09:00"; "09:30"; "10:00"; "10:30"; "11:00"; "11:30";
   "12:00"; "12:30"; "13:00"; "13:30"; "14:00"; "14:30";
   "15:00"; "15:30"; "16:00"; "16:30"; "17:00"; "17:30"].

Inductive AvailabilityResponse : Type :=
| AvailabilityOk : list string -> list string -> AvailabilityResponse
| AvailabilityBadRequest : string -> AvailabilityResponse.

(** [date] is the parsed query parameter, [None] when it is missing. *)
Definition publicAvailability (db : list Booking) (businessId : Z)
  (date_ : option Z) : AvailabilityResponse :=
  match date_ with
  | None => AvailabilityBadRequest "Date is required"
  | Some d =>
      let bookings :=
        filter (fun b => (userId b =? businessId) && (date b =? d)
                         && negb (inList (status b) ["cancelled"; "completed"]))
               db in
      let bookedTimes := map time bookings in
      let availableSlots :=
        filter (fun slot => negb (inList slot bookedTimes)) allTimeSlots in
      AvailabilityOk availableSlots bookedTimes
  end.

(** The customers of every provider but [uid], in stored order. *)
Definition otherCustomers (uid : Z) (cs : list Customer) : list Customer :=
  filter (fun c => negb (c_userId c =? uid)) cs.

(** The bookings of every provider but [uid], in stored order. *)
Definition othersOf (uid : Z) (db : list Booking) : list Booking :=
  filter (fun b => negb (userId b =? uid)) db.

(* ================================================================== *)
(** * Subscriptions ([backend/models/Subscription.js]), the feature check of
      [middleware/rbac.js] and [GET /plans] *)
(* ================================================================== *)

Module Subscriptions.

Record Usage : Type := mkUsage {
  bookingsThisMonth : Z;
  servicesCount : Z;
  assistantsCount : Z
}.

Record Limits : Type := mkLimits {
  maxBookingsPerMonth : Z;
  maxServices : Z;
  maxAssistants : Z;
  features : list string
}.

(** The paths of [subscriptionSchema] that the operations below read or
    write; billing, invoices, webhook events and [usage.lastReset] are left
    out. *)
Record Subscription : Type := mkSubscription {
  sub_userId : Z;
  plan : string;
  sub_status : string;
  usage : Usage;
  limits : Limits
}.

(** [plan: { enum: [...] }] *)
Definition planEnum : list string := ["free"; "pro"; "business"].

(** The [default] functions of the four paths of [limits]. *)
Definition defaultLimits (plan_ : string) : Limits :=
  mkLimits
    (if String.eqb plan_ "free" then 50
     else if String.eqb plan_ "pro" then 500
     else if String.eqb plan_ "business" then -1
     else 50)
    (if String.eqb plan_ "free" then 5
     else if String.eqb plan_ "pro" then 50
     else if String.eqb plan_ "business" then -1
     else 5)
    (if String.eqb plan_ "free" then 0
     else if String.eqb plan_ "pro" then 3
     else if String.eqb plan_ "business" then -1
     else 0)
    (if String.eqb plan_ "free" then ["basic_booking"; "customer_management"]
     else if String.eqb plan_ "pro" then
       ["basic_booking"; "customer_management"; "ai_recommendations";
        "reminders"; "basic_analytics"]
     else if String.eqb plan_ "business" then
       ["basic_booking"; "customer_management"; "ai_recommendations";
        "reminders"; "advanced_analytics"; "rbac"; "white_label"; "api_access"]
     else ["basic_booking"]).

(** The [switch] of the [pre('save')] hook; a plan outside the three cases
    leaves the limits as they are. *)
Definition planLimits (plan_ : string) (current : Limits) : Limits :=
  if String.eqb plan_ "free" then
    mkLimits 50 5 0 ["basic_booking"; "customer_management"]
  else if String.eqb plan_ "pro" then
    mkLimits 500 50 3
      ["basic_booking"; "customer_management"; "ai_recommendations";
       "reminders"; "basic_analytics"]
  else if String.eqb plan_ "business" then
    mkLimits (-1) (-1) (-1)
      ["basic_booking"; "customer_management"; "ai_recommendations";
       "reminders"; "advanced_analytics"; "rbac"; "white_label"; "api_access"]
  else current.

(** [subscriptionSchema.pre('save')]; [planModified] is
    [this.isModified('plan')]. *)
Definition preSave (planModified : bool) (s : Subscription) : Subscription :=
  if planModified then
    mkSubscription (sub_userId s) (plan s) (sub_status s) (usage s)
      (planLimits (plan s) (limits s))
  else s.

(** [subscription.hasFeature(feature)] *)
Definition hasFeature (feature : string) (s : Subscription) : bool :=
  inList feature (features (limits s)).

(** [canCreateBooking], [canCreateService], [canCreateAssistant] *)
Definition canCreateBooking (s : Subscription) : bool :=
  if maxBookingsPerMonth (limits s) =? -1 then true
  else bookingsThisMonth (usage s) <? maxBookingsPerMonth (limits s).

Definition canCreateService (s : Subscription) : bool :=
  if maxServices (limits s) =? -1 then true
  else servicesCount (usage s) <? maxServices (limits s).

Definition canCreateAssistant (s : Subscription) : bool :=
  if maxAssistants (limits s) =? -1 then true
  else assistantsCount (usage s) <? maxAssistants (limits s).

Record Price : Type := mkPrice { monthly : Z; yearly : Z }.

(** [Subscription.getPlanPricing(plan, currency = 'USD')] *)
Definition getPlanPricing (plan_ : string) (currency : option string)
  : option Price :=
  let currency := match currency with Some c => c | None => "USD" end in
  if String.eqb currency "USD" then
    if String.eqb plan_ "pro" then Some (mkPrice 29 290)
    else if String.eqb plan_ "business" then Some (mkPrice 99 990)
    else None
  else if String.eqb currency "ETB" then
    if String.eqb plan_ "pro" then Some (mkPrice 1500 15000)
    else if String.eqb plan_ "business" then Some (mkPrice 5000 50000)
    else None
  else None.

(** One entry of the answer of [GET /plans]. *)
Record PlanInfo : Type := mkPlanInfo {
  pi_name : string;
  pi_price : Z;
  pi_currency : string;
  pi_interval : string;
  pi_features : list string;
  pi_bookings : Z;
  pi_services : Z;
  pi_assistants : Z
}.

(** [getPlanPricing(plan, currency)?.monthly || fallback] *)
Definition monthlyOr (plan_ currency : string) (fallback : Z) : Z :=
  match getPlanPricing plan_ (Some currency) with
  | Some p => if monthly p =? 0 then fallback else monthly p
  | None => fallback
  end.

(** [GET /plans]: the entry of the answer under the key [plan_];
    [currency] is [req.query.currency]. *)
Definition plansRoute (currency : option string) (plan_ : string)
  : option PlanInfo :=
  let currency := if truthy currency
                  then match currency with Some c => c | None => "USD" end
                  else "USD" in
  if String.eqb plan_ "free" then
    Some (mkPlanInfo "Free" 0 currency "month"
            ["basic_booking"; "customer_management"] 50 5 0)
  else if String.eqb plan_ "pro" then
    Some (mkPlanInfo "Pro" (monthlyOr "pro" currency 29) currency "month"
            ["basic_booking"; "customer_management"; "ai_recommendations";
             "reminders"; "basic_analytics"] 500 50 3)
  else if String.eqb plan_ "business" then
    Some (mkPlanInfo "Business" (monthlyOr "business" currency 99) currency
            "month"
            ["basic_booking"; "customer_management"; "ai_recommendations";
             "reminders"; "advanced_analytics"; "rbac"; "white_label";
             "api_access"] (-1) (-1) (-1))
  else None.

(** [Subscription.findOne({ userId })] *)
Definition findSubscription (subs : list Subscription) (uid : Z)
  : option Subscription :=
  find (fun s => sub_userId s =? uid) subs.

(** The outcomes of [checkFeatureAccess(feature)]: the 401 and the three
    403 answers, or [next()] with the subscription put on the request. *)
Inductive Access : Type :=
| UserNotFound : Access
| NoSubscription : Access
| FeatureUnavailable : string -> Access
| SubscriptionInactive : string -> Access
| Next : Subscription -> Access.

Definition checkFeatureAccess (users_ : list User) (subs : list Subscription)
  (feature : string) (uid : Z) : Access :=
  match findUser users_ uid with
  | None => UserNotFound
  | Some user =>
      match findSubscription subs (u_id user) with
      | None => NoSubscription
      | Some subscription =>
          if negb (hasFeature feature subscription) then
            FeatureUnavailable (plan subscription)
          else if negb (inList (sub_status subscription) ["active"; "trial"])
          then SubscriptionInactive (sub_status subscription)
          else Next subscription
      end
  end.

(** The subscription's part of the downgrade of [POST /change-plan]:
    [subscription.plan = 'free'; subscription.status = 'active';
    subscription.save()]. The plan is marked modified when it changes. *)
Definition downgradeToFree (s : Subscription) : Subscription :=
  preSave (negb (String.eqb "free" (plan s)))
    (mkSubscription (sub_userId s) "free" "active" (usage s) (limits s)).

End Subscriptions.

(** The subscription of provider 1: the business plan, active, as the hook
    leaves it. *)
Module SubscriptionSample.
Definition businessPlan : Subscriptions.Subscription :=
  Subscriptions.mkSubscription 1 "business" "active"
    (Subscriptions.mkUsage 120 7 2)
    (Subscriptions.planLimits "business" (Subscriptions.mkLimits 0 0 0 [])).
End SubscriptionSample.


(* ================================================================== *)
(** * Roles ([rbacUtils] of [middleware/rbac.js]) *)
(* ================================================================== *)

Module Rbac.

(** [canManageUsers(userRole)] *)
Definition canManageUsers (userRole : string) : bool :=
  String.eqb userRole "admin".

(** [getAccessibleResources(userRole)] *)
Definition getAccessibleResources (userRole : string) : list string :=
  if String.eqb userRole "admin" then
    ["bookings"; "customers"; "services"; "payments"; "analytics"; "users";
     "billing"; "settings"]
  else if String.eqb userRole "assistant" then
    ["bookings"; "customers"; "services"; "analytics"]
  else [].

(** [getAllowedActions(userRole, resource)] *)
Definition getAllowedActions (userRole resource : string) : list string :=
  if String.eqb userRole "admin" then ["read"; "write"; "delete"]
  else if String.eqb userRole "assistant" then
    let restrictedResources := ["users"; "billing"; "settings"] in
    if inList resource restrictedResources then [] else ["read"; "write"]
  else [].

End Rbac.

(* ================================================================== *)
(** * Time strings *)
(* ================================================================== *)

Module TimeStrings.

Lemma append_nil (s t : string) : (s ++ t)%string = "" -> s = "" /\ t = "".
Proof. destruct s; simpl; intro H; [auto | discriminate]. Qed.

Lemma nullable_Matches (r : regex) : nullable r = true <-> Matches r "".
Proof.
  split.
  - induction r; simpl; intro H; try discriminate.
    + constructor.
    + apply andb_true_iff in H. destruct H.
      change "" with ("" ++ "")%string. constructor; auto.
    + apply orb_true_iff in H. destruct H; [apply MAltL | apply MAltR]; auto.
    + constructor.
  - intro H. remember "" as w eqn:Hw.
    induction H; simpl; try discriminate; try reflexivity.
    + apply append_nil in Hw. destruct Hw. rewrite IHMatches1, IHMatches2; auto.
    + rewrite IHMatches; auto.
    + rewrite IHMatches; auto. apply orb_true_r.
Qed.

Lemma deriv_sound (c : ascii) (r : regex) :
  forall s, Matches (deriv c r) s -> Matches r (String c s).
Proof.
  induction r; simpl; intros s H.
  - inversion H.
  - inversion H.
  - destruct (b c) eqn:E; inversion H; subst. constructor. exact E.
  - destruct (nullable r1) eqn:N.
    + inversion H; subst.
      * match goal with
        | H1 : Matches (Seq _ _) _ |- _ => inversion H1; subst
        end.
        change (String c (s0 ++ t)) with (String c s0 ++ t)%string.
        constructor; auto.
      * change (String c s) with ("" ++ String c s)%string.
        constructor; auto. apply nullable_Matches. exact N.
    + inversion H; subst.
      change (String c (s0 ++ t)) with (String c s0 ++ t)%string.
      constructor; auto.
  - inversion H; subst; [apply MAltL | apply MAltR]; auto.
  - inversion H; subst.
    change (String c (s0 ++ t)) with (String c s0 ++ t)%string.
    constructor; auto.
Qed.

Lemma deriv_complete (c : ascii) (r : regex) (w : string) :
  Matches r w -> forall s, w = String c s -> Matches (deriv c r) s.
Proof.
  induction 1; intros s' Hw; simpl.
  - discriminate.
  - inversion Hw; subst. rewrite H. constructor.
  - destruct s as [|c' s].
    + simpl in Hw. subst t.
      assert (N : nullable a = true) by (apply nullable_Matches; assumption).
      rewrite N. apply MAltR. apply IHMatches2. reflexivity.
    + simpl in Hw. inversion Hw; subst.
      assert (M : Matches (Seq (deriv c a) b) (s ++ t))
        by (constructor; auto).
      destruct (nullable a); [apply MAltL|]; exact M.
  - apply MAltL. auto.
  - apply MAltR. auto.
  - discriminate.
  - destruct s as [|c' s].
    + simpl in Hw. apply IHMatches2. exact Hw.
    + simpl in Hw. inversion Hw; subst. constructor; auto.
Qed.

(** [test] decides matching. *)
Theorem test_Matches (r : regex) (s : string) :
  test r s = true <-> Matches r s.
Proof.
  revert r. induction s as [|c s IH]; intro r; simpl.
  - apply nullable_Matches.
  - rewrite IH. split.
    + apply deriv_sound.
    + intro H. apply (deriv_complete c r (String c s)); auto.
Qed.

Lemma between_spec (lo hi c : ascii) :
  between lo hi c = true <-> code lo <= code c <= code hi.
Proof.
  unfold between. rewrite andb_true_iff, !Z.leb_le. tauto.
Qed.

Lemma digit_spec (c : ascii) : digit c = true <-> 48 <= code c <= 57.
Proof. unfold digit. rewrite between_spec. reflexivity. Qed.

Lemma digit_not_colon (c : ascii) : digit c = true -> Ascii.eqb c ":" = false.
Proof.
  intro H. destruct (Ascii.eqb_spec c ":") as [->|]; [|reflexivity].
  apply digit_spec in H. vm_compute in H. destruct H as [_ H].
  exfalso. apply H. reflexivity.
Qed.

Lemma splitAcc_colon (s cur : string) :
  splitAcc ":" (String ":" s) cur = cur :: splitAcc ":" s "".
Proof. reflexivity. Qed.

Lemma splitAcc_digit (c : ascii) (s cur : string) :
  digit c = true ->
  splitAcc ":" (String c s) cur = splitAcc ":" s (cur ++ String c "").
Proof.
  intro H. cbn [splitAcc]. rewrite (digit_not_colon c H). reflexivity.
Qed.

Lemma Number_one (c : ascii) :
  digit c = true -> Number (String c "") = Some (code c - 48).
Proof.
  intro H. unfold Number. cbn [digitsValue]. rewrite H. reflexivity.
Qed.

Lemma Number_two (c d : ascii) :
  digit c = true -> digit d = true ->
  Number (String c (String d "")) = Some (10 * (code c - 48) + (code d - 48)).
Proof.
  intros Hc Hd. unfold Number. cbn [digitsValue]. rewrite Hc, Hd. reflexivity.
Qed.

Lemma Matches_Class (f : ascii -> bool) (s : string) :
  Matches (Class f) s -> exists c, s = String c "" /\ f c = true.
Proof. intro H. inversion H; subst. eauto. Qed.

Lemma Matches_Seq (a b : regex) (s : string) :
  Matches (Seq a b) s ->
  exists u v, s = (u ++ v)%string /\ Matches a u /\ Matches b v.
Proof. intro H. inversion H; subst. eauto. Qed.

Lemma Matches_Alt (a b : regex) (s : string) :
  Matches (Alt a b) s -> Matches a s \/ Matches b s.
Proof. intro H. inversion H; subst; auto. Qed.

Lemma Matches_Eps (s : string) : Matches Eps s -> s = "".
Proof. intro H. inversion H; subst. reflexivity. Qed.

Lemma between_0_3 (c : ascii) :
  between "0" "3" c = true -> 48 <= code c <= 51.
Proof.
  intro H. apply between_spec in H.
  change (code "0") with 48 in H. change (code "3") with 51 in H. exact H.
Qed.

Lemma between_0_5 (c : ascii) :
  between "0" "5" c = true -> 48 <= code c <= 53.
Proof.
  intro H. apply between_spec in H.
  change (code "0") with 48 in H. change (code "5") with 53 in H. exact H.
Qed.

Lemma oneOf_01 (c : ascii) : oneOf "01" c = true -> 48 <= code c <= 49.
Proof.
  unfold oneOf. cbn [list_ascii_of_string existsb]. intro H.
  apply orb_true_iff in H. destruct H as [H|H].
  - apply Ascii.eqb_eq in H. subst. vm_compute. split; discriminate.
  - apply orb_true_iff in H. destruct H as [H|H]; [|discriminate].
    apply Ascii.eqb_eq in H. subst. vm_compute. split; discriminate.
Qed.

Lemma digit_of_range (c : ascii) : 48 <= code c <= 57 -> digit c = true.
Proof. apply digit_spec. Qed.

(** A string that passes the schema's pattern splits into an hour below 24
    and a minute below 60. *)
Theorem timePattern_splitHM (s : string) :
  test timePattern s = true ->
  exists h m, splitHM s = Some (h, m) /\ 0 <= h <= 23 /\ 0 <= m <= 59.
Proof.
  intro H. apply test_Matches in H. unfold timePattern, Opt, chr in H.
  apply Matches_Seq in H. destruct H as [hh [rest [-> [Hh Hr]]]].
  apply Matches_Seq in Hr. destruct Hr as [colon [mm [-> [Hc Hm]]]].
  apply Matches_Class in Hc. destruct Hc as [c0 [-> Hc0]].
  apply Ascii.eqb_eq in Hc0. subst c0.
  apply Matches_Seq in Hm. destruct Hm as [m1 [m2 [-> [Hm1 Hm2]]]].
  apply Matches_Class in Hm1. destruct Hm1 as [c1 [-> Hc1]].
  apply Matches_Class in Hm2. destruct Hm2 as [c2 [-> Hd2]].
  apply between_0_5 in Hc1.
  assert (Hd1 : digit c1 = true) by (apply digit_of_range; lia).
  assert (Hr2 := proj1 (digit_spec c2) Hd2).
  unfold splitHM, split.
  apply Matches_Alt in Hh. destruct Hh as [Hh|Hh].
  - apply Matches_Seq in Hh. destruct Hh as [o [d [-> [Ho Hd]]]].
    apply Matches_Class in Hd. destruct Hd as [d0 [-> Hd0]].
    assert (Hr0 := proj1 (digit_spec d0) Hd0).
    apply Matches_Alt in Ho. destruct Ho as [Ho|Ho].
    + apply Matches_Eps in Ho. subst o. cbn [append].
      rewrite (splitAcc_digit d0) by assumption. cbn [append].
      rewrite splitAcc_colon.
      rewrite (splitAcc_digit c1), (splitAcc_digit c2) by assumption.
      cbn [append splitAcc map].
      rewrite (Number_one d0), (Number_two c1 c2) by assumption.
      do 2 eexists. split; [reflexivity | lia].
    + apply Matches_Class in Ho. destruct Ho as [o0 [-> Ho0]].
      apply oneOf_01 in Ho0.
      assert (Hdo : digit o0 = true) by (apply digit_of_range; lia).
      cbn [append].
      rewrite (splitAcc_digit o0), (splitAcc_digit d0) by assumption.
      cbn [append]. rewrite splitAcc_colon.
      rewrite (splitAcc_digit c1), (splitAcc_digit c2) by assumption.
      cbn [append splitAcc map].
      rewrite (Number_two o0 d0), (Number_two c1 c2) by assumption.
      do 2 eexists. split; [reflexivity | lia].
  - apply Matches_Seq in Hh. destruct Hh as [two [d [-> [Ht Hd]]]].
    apply Matches_Class in Ht. destruct Ht as [t0 [-> Ht0]].
    apply Ascii.eqb_eq in Ht0. subst t0.
    apply Matches_Class in Hd. destruct Hd as [d0 [-> Hd0]].
    apply between_0_3 in Hd0.
    assert (Hdd : digit d0 = true) by (apply digit_of_range; lia).
    cbn [append].
    rewrite (splitAcc_digit "2"), (splitAcc_digit d0) by (assumption || reflexivity).
    cbn [append]. rewrite splitAcc_colon.
    rewrite (splitAcc_digit c1), (splitAcc_digit c2) by assumption.
    cbn [append splitAcc map].
    rewrite (Number_two "2" d0), (Number_two c1 c2)
      by (assumption || reflexivity).
    change (code "2") with 50.
    do 2 eexists. split; [reflexivity | lia].
Qed.

Lemma hmRoundTrip_table :
  forallb (fun h => forallb (fun m => hmRoundTrip (Z.of_nat h) (Z.of_nat m))
                            (seq 0 60)) (seq 0 24) = true.
Proof. vm_compute. reflexivity. Qed.

Lemma hmRoundTrip_all (h m : Z) :
  0 <= h < 24 -> 0 <= m < 60 -> hmRoundTrip h m = true.
Proof.
  intros Hh Hm. assert (T := hmRoundTrip_table).
  rewrite forallb_forall in T.
  specialize (T (Z.to_nat h)). rewrite in_seq in T.
  specialize (T ltac:(lia)). rewrite forallb_forall in T.
  specialize (T (Z.to_nat m)). rewrite in_seq in T.
  specialize (T ltac:(lia)). rewrite !Z2Nat.id in T by lia. exact T.
Qed.

Lemma getHours_range (t : Z) : 0 <= getHours t < 24.
Proof.
  unfold getHours, msPerDay, msPerHour.
  assert (0 <= t mod 86400000 < 86400000) by (apply Z.mod_pos_bound; lia).
  split.
  - apply Z.div_pos; lia.
  - apply Z.div_lt_upper_bound; lia.
Qed.

Lemma getMinutes_range (t : Z) : 0 <= getMinutes t < 60.
Proof.
  unfold getMinutes, msPerHour, msPerMinute.
  assert (0 <= t mod 3600000 < 3600000) by (apply Z.mod_pos_bound; lia).
  split.
  - apply Z.div_pos; lia.
  - apply Z.div_lt_upper_bound; lia.
Qed.

(** [toTimeString().slice(0, 5)] always passes the schema's pattern and
    splits back into the hour and the minute of the date. *)
Theorem toTimeString5_valid (t : Z) :
  test timePattern (toTimeString5 t) = true
  /\ splitHM (toTimeString5 t) = Some (getHours t, getMinutes t).
Proof.
  assert (H := hmRoundTrip_all (getHours t) (getMinutes t)
                 (getHours_range t) (getMinutes_range t)).
  unfold hmRoundTrip in H. fold (toTimeString5 t) in H.
  apply andb_true_iff in H. destruct H as [H1 H2]. split; [exact H1|].
  destruct (splitHM (toTimeString5 t)) as [[h' m']|]; [|discriminate].
  apply andb_true_iff in H2. destruct H2 as [A B].
  apply Z.eqb_eq in A. apply Z.eqb_eq in B. subst. reflexivity.
Qed.

(** Setting the hour and the minute of a date on its own day drops the
    seconds and milliseconds. *)
Lemma setHours_own_time (t : Z) :
  setHours (startOfDay t) (getHours t) (getMinutes t) = t - t mod 60000.
Proof.
  unfold setHours, startOfDay, getHours, getMinutes, msPerDay, msPerHour,
    msPerMinute.
  Z.div_mod_to_equations. lia.
Qed.

End TimeStrings.

(* ================================================================== *)
(** * Lists and lookups *)
(* ================================================================== *)

Lemma app_nil_both {A : Type} (l1 l2 : list A) :
  (l1 ++ l2)%list = [] -> l1 = [] /\ l2 = [].
Proof. destruct l1; simpl; intro H; [auto | discriminate]. Qed.

Lemma inList_In (s : string) (l : list string) :
  inList s l = true <-> In s l.
Proof.
  unfold inList. rewrite existsb_exists. split.
  - intros [x [Hin Heq]]. apply String.eqb_eq in Heq. subst. exact Hin.
  - intro Hin. exists s. split; [exact Hin | apply String.eqb_refl].
Qed.

Lemma NoDup_ids_eq (db : list Booking) (x y : Booking) :
  NoDup (map _id db) -> In x db -> In y db -> _id x = _id y -> x = y.
Proof.
  induction db as [|z db IH]; simpl; [contradiction|].
  intros Hnd Hx Hy Heq. inversion Hnd as [|? ? Hnotin Hnd']; subst.
  destruct Hx as [->|Hx]; destruct Hy as [->|Hy]; auto.
  - exfalso. apply Hnotin. rewrite Heq. apply in_map. exact Hy.
  - exfalso. apply Hnotin. rewrite <- Heq. apply in_map. exact Hx.
Qed.

Lemma find_map_replace (db : list Booking) (id : Z) (b' x : Booking) :
  In x db -> _id x = id -> _id b' = id ->
  find (fun b => _id b =? id)
       (map (fun b => if _id b =? id then b' else b) db) = Some b'.
Proof.
  intros Hin Hx Hb'. induction db as [|y db IH]; [contradiction|].
  simpl. destruct (_id y =? id) eqn:E.
  - rewrite Hb', Z.eqb_refl. reflexivity.
  - rewrite E. destruct Hin as [->|Hin].
    + rewrite Hx, Z.eqb_refl in E. discriminate.
    + auto.
Qed.

Lemma findOwned_Some (db : list Booking) (id uid : Z) (b : Booking) :
  findOwned db id uid = Some b -> In b db /\ _id b = id /\ userId b = uid.
Proof.
  unfold findOwned. intro H. apply find_some in H. destruct H as [Hin H].
  apply andb_true_iff in H. destruct H as [H1 H2].
  apply Z.eqb_eq in H1. apply Z.eqb_eq in H2. auto.
Qed.

Lemma with_status_same (b : Booking) : with_status (status b) b = b.
Proof. destruct b; reflexivity. Qed.

(* ================================================================== *)
(** * The interval model and the conflict query *)
(* ================================================================== *)

Lemma overlaps_spec (a b : TimeInterval) :
  overlaps a b = true <-> lo a < hi b /\ lo b < hi a.
Proof.
  unfold overlaps. rewrite andb_true_iff, !Z.ltb_lt. tauto.
Qed.

Lemma overlaps_sym (a b : TimeInterval) : overlaps a b = overlaps b a.
Proof. unfold overlaps. apply andb_comm. Qed.

Lemma overlaps_refl (a : TimeInterval) : wellFormed a -> overlaps a a = true.
Proof.
  unfold wellFormed. intro H. apply overlaps_spec. lia.
Qed.

(** Touching intervals do not overlap. *)
Lemma overlaps_touching (a b : TimeInterval) :
  hi a = lo b \/ hi b = lo a -> wellFormed a -> wellFormed b ->
  overlaps a b = false.
Proof.
  unfold wellFormed, overlaps. intros H Wa Wb.
  apply andb_false_iff. rewrite !Z.ltb_ge. lia.
Qed.

Lemma intervalOf_Some (b : Booking) (a : TimeInterval) :
  intervalOf b = Some a ->
  startDateTime b = Some (lo a) /\ endDateTime b = Some (hi a).
Proof.
  unfold intervalOf.
  destruct (startDateTime b) as [s|]; destruct (endDateTime b) as [e|];
    intro H; inversion H; subst; simpl; auto.
Qed.

Ltac bool_to_prop :=
  rewrite ?orb_true_iff, ?andb_true_iff, ?Z.leb_le, ?Z.ltb_lt in *.

(** The query's clauses compute the half-open test when both intervals are
    well formed. *)
Lemma overlapClauses_eq_overlaps (this b : Booking) (a e : TimeInterval) :
  intervalOf this = Some a ->
  intervalOf b = Some e ->
  wellFormed a ->
  wellFormed e ->
  overlapClauses this b = overlaps a e.
Proof.
  intros Ha He Wa We.
  apply intervalOf_Some in Ha. destruct Ha as [Hs1 He1].
  apply intervalOf_Some in He. destruct He as [Hs2 He2].
  unfold wellFormed in *.
  unfold overlapClauses, qLte, qLt, qGte, qGt, overlaps.
  rewrite Hs1, He1, Hs2, He2.
  destruct (Z.ltb_spec (lo a) (hi e)); destruct (Z.ltb_spec (lo e) (hi a));
    destruct (Z.leb_spec (lo e) (lo a)); destruct (Z.leb_spec (lo a) (lo e));
    destruct (Z.leb_spec (hi a) (hi e)); destruct (Z.leb_spec (hi e) (hi a));
    simpl; try reflexivity; lia.
Qed.

(** C4. For a proposal [this] and a stored booking [b] whose intervals are
    well formed (start before end), the four-clause disjunction of the
    conflict query (starts during, ends during, contains, is contained,
    with the query's own strict and non-strict comparisons) holds exactly
    when the half-open predicate [a.start < b.end AND b.start < a.end]
    holds. *)
Theorem overlapClauses_iff_overlaps (this b : Booking) (a e : TimeInterval) :
  intervalOf this = Some a ->
  intervalOf b = Some e ->
  wellFormed a ->
  wellFormed e ->
  overlapClauses this b = true <-> lo a < hi e /\ lo e < hi a.
Proof.
  intros Ha He Wa We.
  rewrite (overlapClauses_eq_overlaps this b a e Ha He Wa We).
  apply overlaps_spec.
Qed.

Lemma overlapClauses_iff_overlaps_witness :
  overlapClauses (Sample.booked 1 1 9 0 60 "pending")
                 (Sample.booked 2 1 9 30 60 "pending") = true
  <-> at_ Sample.day 9 0 < at_ Sample.day 10 30
      /\ at_ Sample.day 9 30 < at_ Sample.day 10 0.
Proof.
  apply (overlapClauses_iff_overlaps
           (Sample.booked 1 1 9 0 60 "pending")
           (Sample.booked 2 1 9 30 60 "pending")
           (mkInterval (at_ Sample.day 9 0) (at_ Sample.day 10 0))
           (mkInterval (at_ Sample.day 9 30) (at_ Sample.day 10 30))).
  - reflexivity.
  - reflexivity.
  - unfold wellFormed. vm_compute. reflexivity.
  - unfold wellFormed. vm_compute. reflexivity.
Defined.

(** Without well-formedness the two differ: an empty proposal equal to an
    empty booking matches the third clause and overlaps nothing. *)
Example overlapClauses_degenerate :
  let b := with_endDateTime (Some 5) (with_startDateTime (Some 5)
             (Sample.booked 1 1 9 0 60 "pending")) in
  overlapClauses b b = true /\ overlaps (mkInterval 5 5) (mkInterval 5 5) = false.
Proof. vm_compute. split; reflexivity. Qed.

Lemma conflictQuery_snapshot_irrelevant (this b : Booking) (h : bool) (c : list Z) :
  conflictQuery (with_conflictsWith c (with_hasConflicts h this)) b
  = conflictQuery this b.
Proof. reflexivity. Qed.

(** A cancelled or completed booking is never reported as a conflict. *)
Lemma conflictQuery_skips_inactive (this b : Booking) :
  status b = "cancelled" \/ status b = "completed" ->
  conflictQuery this b = false.
Proof.
  intros [H|H]; unfold conflictQuery; rewrite H; cbn [inList activeStatuses];
    rewrite andb_false_r; reflexivity.
Qed.

Lemma checkConflicts_snapshot_irrelevant (this : Booking) (h : bool)
  (c : list Z) (db : list Booking) :
  checkConflicts (with_conflictsWith c (with_hasConflicts h this)) db
  = checkConflicts this db.
Proof. reflexivity. Qed.

(** X1: what [checkConflicts] returns for a document with a well-formed
    interval, in a store of well-formed bookings: exactly the provider's
    other pending, confirmed or in-progress bookings whose interval
    overlaps it. *)
Lemma checkConflicts_iff_overlaps (this : Booking) (db : list Booking)
  (a : TimeInterval) :
  intervalOf this = Some a ->
  wellFormed a ->
  Forall wellFormedBooking db ->
  forall x,
    In x (checkConflicts this db) <->
    In x db /\ userId x = userId this /\ _id x <> _id this
    /\ inList (status x) activeStatuses = true
    /\ exists e, intervalOf x = Some e /\ overlaps a e = true.
Proof.
  intros Ha Wa Hdb x. unfold checkConflicts. rewrite filter_In.
  split.
  - intros [Hin Hq]. rewrite Forall_forall in Hdb.
    destruct (Hdb x Hin) as [e [He We]].
    unfold conflictQuery in Hq.
    apply andb_true_iff in Hq. destruct Hq as [Hq Hc].
    apply andb_true_iff in Hq. destruct Hq as [Hq Hs].
    apply andb_true_iff in Hq. destruct Hq as [Hu Hi].
    apply Z.eqb_eq in Hu. apply negb_true_iff in Hi. apply Z.eqb_neq in Hi.
    repeat split; auto.
    exists e. split; auto.
    rewrite <- (overlapClauses_eq_overlaps this x a e); auto.
  - intros [Hin [Hu [Hi [Hs [e [He Ho]]]]]]. split; auto.
    rewrite Forall_forall in Hdb.
    destruct (Hdb x Hin) as [e' [He' We]].
    rewrite He in He'. inversion He'; subst e'.
    unfold conflictQuery.
    apply Z.eqb_eq in Hu. apply Z.eqb_neq in Hi. rewrite Hu, Hi, Hs. simpl.
    rewrite (overlapClauses_eq_overlaps this x a e); auto.
Qed.

(** A document built by [new Booking(...)] has no interval yet: the query
    of [checkConflicts] selects nothing for it. *)
Lemma checkConflicts_newBooking (db : list Booking) (id uid cid sid date_ : Z)
  (time_ : string) (duration_ totalAmount_ : Z) (notes_ : option string) :
  checkConflicts
    (fields (newBooking id uid cid sid date_ time_ duration_ totalAmount_
               notes_)) db = [].
Proof.
  assert (H : forall b,
             conflictQuery
               (fields (newBooking id uid cid sid date_ time_ duration_
                          totalAmount_ notes_)) b = false).
  { intro b. unfold conflictQuery, overlapClauses, qLte, qLt, qGte, qGt.
    cbn [newBooking fields startDateTime endDateTime].
    destruct (startDateTime b); destruct (endDateTime b);
      rewrite ?andb_false_r; reflexivity. }
  unfold checkConflicts.
  induction db as [|b db IH]; [reflexivity|].
  cbn [filter]. rewrite H. exact IH.
Qed.

(* ================================================================== *)
(** * The [pre('save')] hook and [save] *)
(* ================================================================== *)

Lemma recomputeInterval_isNew (d d' : Doc) :
  recomputeInterval d = Some d' -> isNew d' = isNew d.
Proof.
  unfold recomputeInterval.
  destruct (isModified pDate d || isModified pTime d || isModified pDuration d).
  - destruct (splitHM (time (fields d))) as [[h m]|]; [|discriminate].
    intro H. inversion H. reflexivity.
  - intro H. inversion H. reflexivity.
Qed.

(** The first half of the hook either leaves the values alone or replaces
    the two ends by the ones computed from [date], [time] and [duration]. *)
Lemma recomputeInterval_fields (d : Doc) (h m : Z) :
  splitHM (time (fields d)) = Some (h, m) ->
  exists d',
    recomputeInterval d = Some d'
    /\ isNew d' = isNew d
    /\ (fields d' = fields d
        \/ fields d'
           = with_endDateTime
               (Some (addMinutes (setHours (date (fields d)) h m)
                                 (duration (fields d))))
               (with_startDateTime (Some (setHours (date (fields d)) h m))
                                   (fields d))).
Proof.
  intro Hs. unfold recomputeInterval.
  destruct (isModified pDate d || isModified pTime d || isModified pDuration d).
  - rewrite Hs. eexists. split; [reflexivity|]. split; [reflexivity|].
    right. reflexivity.
  - exists d. auto.
Qed.

(** The second half of the hook changes at most the snapshot. *)
Lemma recordConflicts_fields (db : list Booking) (d : Doc) :
  isNew (recordConflicts db d) = isNew d
  /\ exists h c,
       fields (recordConflicts db d)
       = with_conflictsWith c (with_hasConflicts h (fields d)).
Proof.
  unfold recordConflicts.
  destruct (isNew d || isModified pStartDateTime d || isModified pEndDateTime d).
  - split; [reflexivity|]. do 2 eexists. reflexivity.
  - split; [reflexivity|].
    exists (hasConflicts (fields d)), (conflictsWith (fields d)).
    destruct (fields d). reflexivity.
Qed.

(** When the second half of the hook runs, the snapshot is exact. *)
Lemma recordConflicts_exact (db : list Booking) (d : Doc) :
  isNew d || isModified pStartDateTime d || isModified pEndDateTime d = true ->
  let b := fields (recordConflicts db d) in
  conflictsWith b = map _id (checkConflicts b db)
  /\ hasConflicts b = negb (Nat.eqb (List.length (conflictsWith b)) 0)
  /\ intervalOf b = intervalOf (fields d).
Proof.
  intros H b. subst b. unfold recordConflicts. rewrite H.
  cbn [fields setConflictsWith setHasConflicts assign].
  rewrite checkConflicts_snapshot_irrelevant.
  split; [reflexivity|]. split; [|reflexivity].
  cbn [conflictsWith with_conflictsWith with_hasConflicts hasConflicts].
  rewrite length_map.
  destruct (checkConflicts (fields d) db); reflexivity.
Qed.

(** When the hook's test fails, the snapshot is left as it was. *)
Lemma recordConflicts_skipped (db : list Booking) (d : Doc) :
  isNew d || isModified pStartDateTime d || isModified pEndDateTime d = false ->
  recordConflicts db d = d.
Proof.
  intro H. unfold recordConflicts. rewrite H. reflexivity.
Qed.

Lemma validate_snapshot_irrelevant (b : Booking) (h : bool) (c : list Z) :
  validate (with_conflictsWith c (with_hasConflicts h b)) = validate b.
Proof. reflexivity. Qed.

Lemma validate_needs_start (b : Booking) :
  startDateTime b = None -> validate b <> [].
Proof.
  intros Hs H. unfold validate in H. rewrite Hs in H. cbn [isSome] in H.
  repeat match goal with
         | H : (_ ++ _)%list = [] |- _ =>
             apply app_nil_both in H; destruct H
         end.
  discriminate.
Qed.

(** The validators never look at the stored status of a document whose
    status is replaced. *)
Lemma validate_with_status (b : Booking) (s : string) :
  validate b = [] ->
  validate (with_status s b)
  = if inList s statusEnum then [] else ["status"].
Proof.
  unfold validate.
  cbn [with_status time duration status notes totalAmount paymentStatus
       paymentMethod startDateTime endDateTime rescheduledBy].
  intro H.
  repeat match goal with
         | H : (_ ++ _)%list = [] |- _ =>
             apply app_nil_both in H; destruct H
         end.
  repeat match goal with
         | H : ?x = [] |- context [?x] => rewrite H
         end.
  destruct (inList s statusEnum); reflexivity.
Qed.

(** [save] of a loaded document whose status alone was assigned. *)
Lemma save_setStatus (ord : MiddlewareOrder) (db : list Booking)
  (stored : Booking) (s : string) :
  validate stored = [] ->
  save ord db (setStatus s (loaded stored))
  = if inList s statusEnum
    then Saved (map (fun b => if _id b =? _id stored
                              then (if String.eqb s (status stored) then b
                                    else with_status s b)
                              else b) db)
               (with_status s stored)
    else Invalid ["status"].
Proof.
  intro Hv.
  unfold setStatus, assign, loaded, save, preSave, recomputeInterval,
    recordConflicts, commit, write.
  cbn [fields isNew modified isModified existsb orb andb negb].
  rewrite (validate_with_status stored s Hv).
  destruct (String.eqb s (status stored)) eqn:E;
    cbn [negb andb orb existsb Path_eqb isModified modified fields isNew
         option_map];
    destruct ord; destruct (inList s statusEnum) eqn:Hs;
    cbn [option_map fields isNew modified persist fold_right copyPath];
    try rewrite (validate_with_status stored s Hv), Hs;
    try reflexivity.
Qed.

(** X5: a new booking that is saved carries the exact snapshot of its
    conflicts: [conflictsWith] lists the ids [checkConflicts] returns for
    the saved interval and [hasConflicts] tells whether there are any. *)
Lemma save_new_snapshot (ord : MiddlewareOrder) (db db' : list Booking)
  (d : Doc) (b : Booking) :
  isNew d = true ->
  save ord db d = Saved db' b ->
  conflictsWith b = map _id (checkConflicts b db)
  /\ hasConflicts b = negb (Nat.eqb (List.length (conflictsWith b)) 0).
Proof.
  intros Hn Hs.
  assert (Hp : exists d1, recomputeInterval d = Some d1
                          /\ b = fields (recordConflicts db d1)).
  { unfold save, preSave, commit in Hs.
    destruct ord.
    - destruct (validate (fields d)); [|discriminate].
      destruct (recomputeInterval d) as [d1|]; [|discriminate].
      simpl in Hs. inversion Hs. eauto.
    - destruct (recomputeInterval d) as [d1|]; [|discriminate].
      simpl in Hs.
      destruct (validate (fields (recordConflicts db d1))); [|discriminate].
      inversion Hs. eauto. }
  destruct Hp as [d1 [Hr ->]].
  apply recomputeInterval_isNew in Hr.
  assert (Hc : isNew d1 || isModified pStartDateTime d1
               || isModified pEndDateTime d1 = true)
    by (rewrite Hr, Hn; reflexivity).
  destruct (recordConflicts_exact db d1 Hc) as [H1 [H2 _]]. auto.
Qed.

Lemma Path_eqb_refl (p : Path) : Path_eqb p p = true.
Proof. destruct p; reflexivity. Qed.

Lemma isModified_assign_changed (p : Path) (upd : Booking -> Booking) (d : Doc) :
  isModified p (assign p true upd d) = true.
Proof.
  unfold assign, isModified. cbn [modified].
  rewrite orb_true_r. cbn [andb].
  destruct (existsb (Path_eqb p) (modified d)) eqn:E; cbn [negb].
  - exact E.
  - cbn [existsb]. rewrite Path_eqb_refl. reflexivity.
Qed.

Lemma isModified_assign_kept (p q : Path) (c : bool) (upd : Booking -> Booking)
  (d : Doc) :
  isModified q d = true -> isModified q (assign p c upd d) = true.
Proof.
  unfold assign, isModified. cbn [modified]. intro H.
  destruct ((isNew d || c) && negb (existsb (Path_eqb p) (modified d)));
    [|exact H].
  cbn [existsb]. rewrite H. apply orb_true_r.
Qed.

(** X6: for a stored booking, when [date], [time] or [duration] is
    modified and the booking's [date] is not the very instant it used to
    start at, the saved snapshot of its conflicts is exact. *)
Lemma save_changed_snapshot (ord : MiddlewareOrder) (db db' : list Booking)
  (d : Doc) (b : Booking) :
  isModified pDate d || isModified pTime d || isModified pDuration d = true ->
  startDateTime (fields d) <> Some (date (fields d)) ->
  save ord db d = Saved db' b ->
  conflictsWith b = map _id (checkConflicts b db)
  /\ hasConflicts b = negb (Nat.eqb (List.length (conflictsWith b)) 0).
Proof.
  intros Hm Hne Hs.
  assert (Hp : exists d1, recomputeInterval d = Some d1
                          /\ b = fields (recordConflicts db d1)).
  { unfold save, preSave, commit in Hs.
    destruct ord.
    - destruct (validate (fields d)); [|discriminate].
      destruct (recomputeInterval d) as [d1|]; [|discriminate].
      simpl in Hs. inversion Hs. eauto.
    - destruct (recomputeInterval d) as [d1|]; [|discriminate].
      simpl in Hs.
      destruct (validate (fields (recordConflicts db d1))); [|discriminate].
      inversion Hs. eauto. }
  destruct Hp as [d1 [Hr ->]].
  assert (Hc : isModified pStartDateTime d1 = true).
  { unfold recomputeInterval in Hr. rewrite Hm in Hr.
    destruct (splitHM (time (fields d))) as [[h m]|]; [|discriminate].
    inversion Hr. unfold mutateEndDateTime, mutateStartDateTime, mutate.
    unfold isModified at 1. cbn [modified]. fold (isModified pStartDateTime).
    unfold setEndDateTime. apply isModified_assign_kept.
    unfold isModified. cbn [modified]. fold (isModified pStartDateTime).
    unfold setStartDateTime.
    assert (Hch : negb (optZ_eqb (Some (date (fields d)))
                          (startDateTime (fields d))) = true).
    { destruct (startDateTime (fields d)) as [s|]; [|reflexivity].
      cbn [optZ_eqb]. apply negb_true_iff. apply Z.eqb_neq.
      intro E. apply Hne. rewrite E. reflexivity. }
    rewrite Hch. apply isModified_assign_changed. }
  assert (Hg : isNew d1 || isModified pStartDateTime d1
               || isModified pEndDateTime d1 = true).
  { rewrite Hc. rewrite orb_true_r. reflexivity. }
  destruct (recordConflicts_exact db d1 Hg) as [H1 [H2 _]]. auto.
Qed.

(** C10. The snapshot is not refreshed on every save that follows a change
    of [time]. The stored booking sits at 00:00-01:00 with [date] at the
    same midnight; its [time] is set to "01:00" and it is saved. The hook
    recomputes the interval to 01:00-02:00, which overlaps the provider's
    pending 01:30-02:30 booking, but neither [startDateTime] nor
    [endDateTime] is marked modified (each is assigned the value it already
    had and then changed in place), so the conflict query is not run:
    the saved booking keeps [hasConflicts = false] and an empty
    [conflictsWith], while the query on it finds booking 2. The route
    [PUT /:id] answers with that stale snapshot. *)
Theorem save_keeps_stale_snapshot (ord : MiddlewareOrder) :
  isModified pTime Sample.movedByAnHour = true
  /\ (exists db' b,
        save ord Sample.atMidnight Sample.movedByAnHour = Saved db' b
        /\ intervalOf b
           = Some (mkInterval (at_ Sample.day 1 0) (at_ Sample.day 2 0))
        /\ checkConflicts b Sample.atMidnight
           = [Sample.booked 2 1 1 30 60 "pending"]
        /\ hasConflicts b = false
        /\ conflictsWith b = [])
  /\ (exists b st',
        updateBooking ord (Sample.storeWith Sample.atMidnight) 1 1
          Sample.toOneOClock = (Updated (Some b), st')
        /\ time b = "01:00"
        /\ hasConflicts b = false
        /\ conflictsWith b = []).
Proof.
  split; [reflexivity|].
  split.
  - destruct ord;
      (do 2 eexists; split; [vm_compute; reflexivity|]);
      vm_compute; repeat split; reflexivity.
  - destruct ord;
      (do 2 eexists; split; [vm_compute; reflexivity|]);
      vm_compute; repeat split; reflexivity.
Qed.

(* ================================================================== *)
(** * Reschedule and the no-overlap invariant *)
(* ================================================================== *)

(** The values of the document when [reschedule] calls [save]. *)
Lemma rescheduleFields_fields (now newStart : Z) (reason who : string)
  (stored : Booking) :
  fields (rescheduleFields now newStart reason who (loaded stored))
  = mkBooking (_id stored) (userId stored) (customerId stored)
      (serviceId stored) (startOfDay newStart) (toTimeString5 newStart)
      (duration stored) (status stored) (notes stored) (totalAmount stored)
      (paymentStatus stored) (paymentMethod stored)
      (Some newStart) (Some (newStart + duration stored * 60000))
      (hasConflicts stored) (conflictsWith stored)
      (startDateTime stored) (endDateTime stored)
      (Some now) (Some who) (Some reason).
Proof. reflexivity. Qed.

Lemma rescheduleFields_isNew (now newStart : Z) (reason who : string)
  (stored : Booking) :
  isNew (rescheduleFields now newStart reason who (loaded stored)) = false.
Proof. reflexivity. Qed.

(** The document [reschedule] saves passes the validators when the stored
    one did. *)
Lemma validate_rescheduleFields (now newStart : Z) (reason : string)
  (stored : Booking) :
  validate stored = [] ->
  validate (fields (rescheduleFields now newStart reason "user"
                      (loaded stored))) = [].
Proof.
  intro H. rewrite rescheduleFields_fields. unfold validate in *.
  cbn [time duration status notes totalAmount paymentStatus paymentMethod
       startDateTime endDateTime rescheduledBy isSome].
  rewrite (proj1 (TimeStrings.toTimeString5_valid newStart)).
  repeat match goal with
         | H : (_ ++ _)%list = [] |- _ =>
             apply app_nil_both in H; destruct H
         end.
  repeat match goal with
         | H : ?x = [] |- context [?x] => rewrite H
         end.
  reflexivity.
Qed.

(** X7: for a stored, valid booking and a new start on a whole minute,
    [reschedule] succeeds and the saved document carries the previous
    interval as the original one, the new interval computed from the
    unchanged duration, [date] and [time] derived from the new start, the
    metadata and the unchanged status. Whether the new interval is free
    plays no part. *)
Theorem reschedule_effect (ord : MiddlewareOrder) (now : Z) (db : list Booking)
  (newStart : Z) (reason : string) (stored : Booking) :
  validate stored = [] ->
  newStart mod 60000 = 0 ->
  exists db' b,
    reschedule ord now db newStart reason "user" (loaded stored) = Saved db' b
    /\ originalStartDateTime b = startDateTime stored
    /\ originalEndDateTime b = endDateTime stored
    /\ startDateTime b = Some newStart
    /\ endDateTime b = Some (newStart + duration stored * 60000)
    /\ date b = startOfDay newStart
    /\ time b = toTimeString5 newStart
    /\ duration b = duration stored
    /\ status b = status stored
    /\ rescheduledAt b = Some now
    /\ rescheduledBy b = Some "user"
    /\ rescheduleReason b = Some reason.
Proof.
  intros Hv Hmin.
  pose (d0 := rescheduleFields now newStart reason "user" (loaded stored)).
  assert (Hf := rescheduleFields_fields now newStart reason "user" stored).
  assert (Hv0 := validate_rescheduleFields now newStart reason stored Hv).
  fold d0 in Hf, Hv0.
  assert (Hsplit : splitHM (time (fields d0))
                   = Some (getHours newStart, getMinutes newStart)).
  { rewrite Hf. cbn [time]. apply TimeStrings.toTimeString5_valid. }
  destruct (recomputeInterval_fields d0 _ _ Hsplit) as [d1 [Hr [Hn1 Hf1]]].
  assert (Hsame : fields d1 = fields d0).
  { destruct Hf1 as [E|E]; [exact E|]. rewrite E, Hf.
    cbn [date duration with_startDateTime with_endDateTime
         _id userId customerId serviceId time status notes totalAmount
         paymentStatus paymentMethod startDateTime endDateTime hasConflicts
         conflictsWith originalStartDateTime originalEndDateTime
         rescheduledAt rescheduledBy rescheduleReason].
    rewrite TimeStrings.setHours_own_time, Hmin.
    unfold addMinutes, msPerMinute. rewrite Z.sub_0_r. reflexivity. }
  destruct (recordConflicts_fields db d1) as [Hn2 [h [c Hf2]]].
  assert (Hpre : preSave db d0 = Some (recordConflicts db d1)).
  { unfold preSave. rewrite Hr. reflexivity. }
  assert (Hv2 : validate (fields (recordConflicts db d1)) = []).
  { rewrite Hf2, validate_snapshot_irrelevant, Hsame. exact Hv0. }
  exists (write db (recordConflicts db d1)), (fields (recordConflicts db d1)).
  split.
  - unfold reschedule. fold d0. unfold save.
    destruct ord; rewrite ?Hv0, Hpre, ?Hv2; reflexivity.
  - rewrite Hf2, Hsame, Hf. repeat split; reflexivity.
Qed.

Lemma reschedule_effect_witness :
  exists db' b,
    reschedule HookThenValidate 7 Sample.twoApart (at_ Sample.day 9 30)
      "moved" "user" (loaded (Sample.booked 2 1 11 0 60 "confirmed"))
    = Saved db' b
    /\ originalStartDateTime b
       = startDateTime (Sample.booked 2 1 11 0 60 "confirmed")
    /\ originalEndDateTime b
       = endDateTime (Sample.booked 2 1 11 0 60 "confirmed")
    /\ startDateTime b = Some (at_ Sample.day 9 30)
    /\ endDateTime b
       = Some (at_ Sample.day 9 30
               + duration (Sample.booked 2 1 11 0 60 "confirmed") * 60000)
    /\ date b = startOfDay (at_ Sample.day 9 30)
    /\ time b = toTimeString5 (at_ Sample.day 9 30)
    /\ duration b = duration (Sample.booked 2 1 11 0 60 "confirmed")
    /\ status b = status (Sample.booked 2 1 11 0 60 "confirmed")
    /\ rescheduledAt b = Some 7
    /\ rescheduledBy b = Some "user"
    /\ rescheduleReason b = Some "moved".
Proof.
  apply (reschedule_effect HookThenValidate 7 Sample.twoApart
           (at_ Sample.day 9 30) "moved"
           (Sample.booked 2 1 11 0 60 "confirmed")).
  - vm_compute. reflexivity.
  - vm_compute. reflexivity.
Defined.

(** C2. Reschedule does not reject a move onto an occupied interval. The
    11:00 booking moved to 09:30 overlaps the pending 09:00-10:00 booking
    of the same provider; the route answers with the rescheduled booking
    and the stored booking has changed: it carries the new interval, the
    original interval 11:00-12:00, the metadata and its old status. *)
Theorem reschedule_accepts_conflicting_move (ord : MiddlewareOrder) :
  let st := Sample.storeWith Sample.twoApart in
  let moved := mkInterval (at_ Sample.day 9 30) (at_ Sample.day 10 30) in
  (exists other a,
      In other (bookings st) /\ _id other <> 2 /\ userId other = 1
      /\ status other = "pending"
      /\ intervalOf other = Some a /\ overlaps moved a = true)
  /\ exists b st',
      rescheduleBooking ord 7 st 1 2 (at_ Sample.day 9 30) (Some "moved")
      = (Rescheduled (Some b) (Some (at_ Sample.day 11 0))
           (Some (at_ Sample.day 9 30)), st')
      /\ findBooking (bookings st') 2 = Some b
      /\ findBooking (bookings st) 2 <> Some b
      /\ intervalOf b = Some moved
      /\ originalStartDateTime b = Some (at_ Sample.day 11 0)
      /\ originalEndDateTime b = Some (at_ Sample.day 12 0)
      /\ rescheduledAt b = Some 7
      /\ rescheduledBy b = Some "user"
      /\ rescheduleReason b = Some "moved"
      /\ status b = "confirmed"
      /\ hasConflicts b = true.
Proof.
  split.
  - exists (Sample.booked 1 1 9 0 60 "pending"). eexists.
    repeat split; try reflexivity.
    + simpl. auto.
    + discriminate.
  - destruct ord; vm_compute; do 2 eexists;
      repeat split; try reflexivity; discriminate.
Qed.

(** C1. The invariant "after a successful Create or Reschedule no two
    non-cancelled bookings of a provider overlap" does not hold of the
    code. Whatever the middleware order, rescheduling the 11:00 booking to
    09:30 next to a 09:00-10:00 booking succeeds, is flagged
    [hasConflicts] and leaves the store double-booked; and when the hook
    runs before validation a public creation at 09:30 is accepted next to
    the same 09:00-10:00 booking. *)
Theorem create_and_reschedule_double_book :
  conflictFree Sample.twoApart = true
  /\ (forall ord, exists b st',
        rescheduleBooking ord 0 (Sample.storeWith Sample.twoApart) 1 2
          (at_ Sample.day 9 30) None
        = (Rescheduled (Some b) (Some (at_ Sample.day 11 0))
             (Some (at_ Sample.day 9 30)), st')
        /\ hasConflicts b = true
        /\ conflictsWith b = [1]
        /\ conflictFree (bookings st') = false)
  /\ conflictFree Sample.oneMorning = true
  /\ (exists b st',
        createPublicBooking HookThenValidate 0
          (Sample.storeWith Sample.oneMorning) Sample.walkIn
        = (Created (Some b), st')
        /\ intervalOf b
           = Some (mkInterval (at_ Sample.day 9 30) (at_ Sample.day 10 30))
        /\ conflictFree (bookings st') = false).
Proof.
  split; [vm_compute; reflexivity|].
  split.
  - intros []; vm_compute; do 2 eexists; repeat split; reflexivity.
  - split; [vm_compute; reflexivity|].
    vm_compute; do 2 eexists; repeat split; reflexivity.
Qed.

(* ================================================================== *)
(** * Creation ([POST /] and the public [POST /bookings]) *)
(* ================================================================== *)


(** The public route answers with a conflict in no case either: its check
    finds at most a booking with the same [date] and [time], and then the
    answer is [SlotTaken], which carries no ids. *)
Lemma createPublicBooking_never_conflict (ord : MiddlewareOrder) (now : Z)
  (st : Store) (rq : PublicRequest) (cs : list ConflictInfo) :
  fst (createPublicBooking ord now st rq) <> Conflict cs.
Proof.
  unfold createPublicBooking.
  destruct (findUser (users st) (pr_businessId rq)); [|simpl; discriminate].
  destruct (find _ (services st)); [|simpl; discriminate].
  destruct (slotTaken _ _ _ _); [simpl; discriminate|].
  destruct (ci_email (pr_customerInfo rq)); [|simpl; discriminate].
  destruct (findOrCreateCustomer _ _ _ _) as [[cid cs']|paths];
    [|simpl; discriminate].
  destruct (save ord (bookings st) _); simpl; discriminate.
Qed.

(** X8: when validation runs before the schema's hook, no creation
    succeeds on either route: [startDateTime] and [endDateTime] are
    required and only the hook fills them in. *)
Lemma creation_needs_hook_first (now : Z) (st : Store) (uid : Z)
  (rq : CreateRequest) (prq : PublicRequest) (b : option Booking) :
  fst (createBooking ValidateThenHook now st uid rq) <> Created b
  /\ fst (createPublicBooking ValidateThenHook now st prq) <> Created b.
Proof.
  split.
  - unfold createBooking.
    destruct (find _ (customers st)); [|simpl; discriminate].
    destruct (find _ (services st)); [|simpl; discriminate].
    destruct (checkConflicts _ _); [|simpl; discriminate].
    unfold save.
    match goal with
    | |- context [validate ?x] =>
        destruct (validate x) eqn:E;
        [exfalso; revert E; apply validate_needs_start; reflexivity|]
    end.
    simpl. discriminate.
  - unfold createPublicBooking.
    destruct (findUser _ _); [|simpl; discriminate].
    destruct (find _ (services st)); [|simpl; discriminate].
    destruct (slotTaken _ _ _ _); [simpl; discriminate|].
    destruct (ci_email _); [|simpl; discriminate].
    destruct (findOrCreateCustomer _ _ _ _) as [[cid cs']|paths];
      [|simpl; discriminate].
    unfold save.
    match goal with
    | |- context [validate ?x] =>
        destruct (validate x) eqn:E;
        [exfalso; revert E; apply validate_needs_start; reflexivity|]
    end.
    simpl. discriminate.
Qed.

(** What the public route's own check finds: a booking of the provider
    with the same [date] and the same [time] string that is neither
    cancelled nor completed. *)
Lemma slotTaken_Some (db : list Booking) (uid date_ : Z) (time_ : string)
  (b : Booking) :
  slotTaken db uid date_ time_ = Some b ->
  In b db /\ userId b = uid /\ date b = date_ /\ time b = time_
  /\ status b <> "cancelled" /\ status b <> "completed".
Proof.
  unfold slotTaken. intro H. apply find_some in H. destruct H as [Hin H].
  repeat (apply andb_true_iff in H; destruct H as [H ?]).
  apply Z.eqb_eq in H. 
  repeat match goal with
         | H : (_ =? _) = true |- _ => apply Z.eqb_eq in H
         | H : String.eqb _ _ = true |- _ => apply String.eqb_eq in H
         | H : negb _ = true |- _ => apply negb_true_iff in H
         end.
  repeat split; auto.
  - intro E. rewrite E in *. discriminate.
  - intro E. rewrite E in *. discriminate.
Qed.

(** C3. Creation does not reject a request that overlaps an active
    booking. Against a pending 09:00-10:00 booking of the provider, a
    request for 09:30 (60 minutes) overlaps booking 1, so the claim asks
    for a conflict error naming booking 1 and no write. Instead, when the
    hook runs before validation, both routes store the overlapping booking
    with status pending, flagged [hasConflicts], and count it for the
    customer; when validation runs first both routes reject it for the
    interval ends the hook has not yet filled in, and the public route has
    already stored the new customer. *)
Theorem creation_accepts_overlap :
  let st := Sample.storeWith Sample.oneMorning in
  let asked := mkInterval (at_ Sample.day 9 30) (at_ Sample.day 10 30) in
  (* the request overlaps the stored booking *)
  (exists a, intervalOf (Sample.booked 1 1 9 0 60 "pending") = Some a
             /\ overlaps asked a = true)
  (* authenticated route *)
  /\ (exists b st',
        createBooking HookThenValidate 0 st 1 Sample.deskRequest
        = (Created (Some b), st')
        /\ intervalOf b = Some asked /\ status b = "pending"
        /\ hasConflicts b = true /\ conflictsWith b = [1]
        /\ List.length (bookings st') = 2%nat
        /\ map totalBookings (customers st') = [4])
  /\ createBooking ValidateThenHook 0 st 1 Sample.deskRequest
     = (ValidationFailed ["startDateTime"; "endDateTime"], st)
  (* public route *)
  /\ (exists b st',
        createPublicBooking HookThenValidate 0 st Sample.walkIn
        = (Created (Some b), st')
        /\ intervalOf b = Some asked /\ status b = "pending"
        /\ hasConflicts b = true /\ conflictsWith b = [1]
        /\ List.length (bookings st') = 2%nat
        /\ map totalBookings (customers st') = [3; 1])
  /\ (exists st',
        createPublicBooking ValidateThenHook 0 st Sample.walkIn
        = (ValidationFailed ["startDateTime"; "endDateTime"], st')
        /\ bookings st' = bookings st
        /\ List.length (customers st') = 2%nat).
Proof.
  intros st asked. subst st asked.
  split; [eexists; split; reflexivity|].
  split; [vm_compute; do 2 eexists; repeat split; reflexivity|].
  split; [vm_compute; reflexivity|].
  split; [vm_compute; do 2 eexists; repeat split; reflexivity|].
  vm_compute; eexists; repeat split; reflexivity.
Qed.

(** C9, as the code has it. Neither creation route compares the requested
    date with the current time: the response and the stored bookings are
    the same whatever the clock reads. Only the customer's [lastBooking]
    stamp depends on it. *)
Theorem creation_ignores_clock (ord : MiddlewareOrder) (now now' : Z)
  (st : Store) (uid : Z) (rq : CreateRequest) (prq : PublicRequest) :
  fst (createBooking ord now st uid rq) = fst (createBooking ord now' st uid rq)
  /\ bookings (snd (createBooking ord now st uid rq))
     = bookings (snd (createBooking ord now' st uid rq))
  /\ fst (createPublicBooking ord now st prq)
     = fst (createPublicBooking ord now' st prq)
  /\ bookings (snd (createPublicBooking ord now st prq))
     = bookings (snd (createPublicBooking ord now' st prq)).
Proof.
  unfold createBooking, createPublicBooking.
  repeat split.
  - destruct (find _ (customers st)); [|reflexivity].
    destruct (find _ (services st)); [|reflexivity].
    destruct (checkConflicts _ _); [|reflexivity].
    destruct (save ord (bookings st) _); reflexivity.
  - destruct (find _ (customers st)); [|reflexivity].
    destruct (find _ (services st)); [|reflexivity].
    destruct (checkConflicts _ _); [|reflexivity].
    destruct (save ord (bookings st) _); reflexivity.
  - destruct (findUser _ _); [|reflexivity].
    destruct (find _ (services st)); [|reflexivity].
    destruct (slotTaken _ _ _ _); [reflexivity|].
    destruct (ci_email _); [|reflexivity].
    destruct (findOrCreateCustomer _ _ _ _) as [[cid cs']|paths];
      [|reflexivity].
    destruct (save ord (bookings st) _); reflexivity.
  - destruct (findUser _ _); [|reflexivity].
    destruct (find _ (services st)); [|reflexivity].
    destruct (slotTaken _ _ _ _); [reflexivity|].
    destruct (ci_email _); [|reflexivity].
    destruct (findOrCreateCustomer _ _ _ _) as [[cid cs']|paths];
      [|reflexivity].
    destruct (save ord (bookings st) _); reflexivity.
Qed.

(** C9, as stated, fails. The request is for 2024-01-15 and the clock reads
    a day in 2026: when the hook runs before validation both routes create
    the booking; when validation runs first both reject it, naming the
    interval ends and not the date, as they do for any date. *)
Lemma creation_accepts_past_date :
  let now := at_ 20759 12 0 in
  let st := Sample.storeWith [] in
  rq_date Sample.deskRequest < now
  /\ pr_date Sample.walkIn < now
  /\ (exists b st',
        createBooking HookThenValidate now st 1 Sample.deskRequest
        = (Created (Some b), st') /\ date b = at_ Sample.day 0 0)
  /\ (exists b st',
        createPublicBooking HookThenValidate now st Sample.walkIn
        = (Created (Some b), st') /\ date b = at_ Sample.day 0 0)
  /\ fst (createBooking ValidateThenHook now st 1 Sample.deskRequest)
     = ValidationFailed ["startDateTime"; "endDateTime"]
  /\ fst (createPublicBooking ValidateThenHook now st Sample.walkIn)
     = ValidationFailed ["startDateTime"; "endDateTime"].
Proof.
  intros now st. subst now st.
  split; [vm_compute; reflexivity|].
  split; [vm_compute; reflexivity|].
  split; [vm_compute; do 2 eexists; split; reflexivity|].
  split; [vm_compute; do 2 eexists; split; reflexivity|].
  split; vm_compute; reflexivity.
Qed.

(* ================================================================== *)
(** * Status updates ([PUT /:id]) *)
(* ================================================================== *)

(** C5, as the code has it. A status update applies no transition table:
    for a stored, valid booking in any status, a request that carries one
    of the five statuses is accepted and the stored status becomes the
    requested one; a request that carries any other non-empty status is
    rejected by the schema's [enum] validator and the store is unchanged. *)
Theorem update_status_any_transition (ord : MiddlewareOrder) (st : Store)
  (uid id : Z) (stored : Booking) (s : string) :
  NoDup (map _id (bookings st)) ->
  findOwned (bookings st) id uid = Some stored ->
  validate stored = [] ->
  s <> "" ->
  (In s statusEnum ->
   exists st',
     updateBooking ord st uid id (statusOnly s)
     = (Updated (Some (with_status s stored)), st')
     /\ findOwned (bookings st') id uid = Some (with_status s stored))
  /\ (~ In s statusEnum ->
      updateBooking ord st uid id (statusOnly s)
      = (ValidationFailed ["status"], st)).
Proof.
  intros Hnd Hfind Hv Hne.
  destruct (findOwned_Some _ _ _ _ Hfind) as [Hin [Hid Huid]].
  assert (Hs : String.eqb s "" = false) by (apply String.eqb_neq; exact Hne).
  unfold updateBooking. rewrite Hfind.
  cbn [statusOnly up_date up_time up_status up_notes up_paymentStatus
       up_paymentMethod isSome truthy orb whenSet].
  rewrite Hs. rewrite (save_setStatus ord (bookings st) stored s Hv).
  split.
  - intro Hen. apply inList_In in Hen. rewrite Hen.
    cbn [_id with_status].
    assert (Hmap :
      map (fun b => if _id b =? _id stored
                    then (if String.eqb s (status stored) then b
                          else with_status s b)
                    else b) (bookings st)
      = map (fun b => if _id b =? id then with_status s stored else b)
            (bookings st)).
    { apply map_ext_in. intros x Hx. rewrite Hid.
      destruct (_id x =? id) eqn:E; [|reflexivity].
      apply Z.eqb_eq in E.
      assert (x = stored)
        by (apply (NoDup_ids_eq (bookings st)); auto; congruence).
      subst x.
      destruct (String.eqb s (status stored)) eqn:E2; [|reflexivity].
      apply String.eqb_eq in E2. subst s. symmetry. apply with_status_same. }
    rewrite Hmap. eexists. split.
    + unfold findBooking. rewrite Hid.
      rewrite (find_map_replace (bookings st) id (with_status s stored) stored);
        auto.
    + cbn [bookings with_bookings]. unfold findOwned.
      clear Hmap Hfind Hnd. induction (bookings st) as [|y db IH];
        [contradiction|].
      simpl. destruct (_id y =? id) eqn:E.
      * cbn [_id userId with_status]. rewrite Hid, Huid, !Z.eqb_refl.
        reflexivity.
      * rewrite E. simpl. destruct Hin as [->|Hin].
        -- rewrite Hid, Z.eqb_refl in E. discriminate.
        -- auto.
  - intro Hnot.
    destruct (inList s statusEnum) eqn:E; [|reflexivity].
    apply inList_In in E. contradiction.
Qed.

Lemma update_status_any_transition_witness :
  (In "pending" statusEnum ->
   exists st',
     updateBooking ValidateThenHook
       (Sample.storeWith [Sample.booked 1 1 9 0 60 "completed"]) 1 1
       (statusOnly "pending")
     = (Updated (Some (with_status "pending"
                         (Sample.booked 1 1 9 0 60 "completed"))), st')
     /\ findOwned (bookings st') 1 1
        = Some (with_status "pending" (Sample.booked 1 1 9 0 60 "completed")))
  /\ (~ In "pending" statusEnum ->
      updateBooking ValidateThenHook
        (Sample.storeWith [Sample.booked 1 1 9 0 60 "completed"]) 1 1
        (statusOnly "pending")
      = (ValidationFailed ["status"],
         Sample.storeWith [Sample.booked 1 1 9 0 60 "completed"])).
Proof.
  apply (update_status_any_transition ValidateThenHook
           (Sample.storeWith [Sample.booked 1 1 9 0 60 "completed"]) 1 1
           (Sample.booked 1 1 9 0 60 "completed") "pending").
  - simpl. constructor; [simpl; tauto | constructor].
  - reflexivity.
  - vm_compute. reflexivity.
  - discriminate.
Defined.

(** C5, as stated, fails: a completed booking is moved back to pending and
    a cancelled one to in-progress, transitions the state machine of the
    specification excludes. *)
Lemma update_leaves_terminal_states :
  allowedTransition "completed" "pending" = false
  /\ allowedTransition "cancelled" "in-progress" = false
  /\ (exists b st',
        updateBooking ValidateThenHook
          (Sample.storeWith [Sample.booked 1 1 9 0 60 "completed"]) 1 1
          (statusOnly "pending") = (Updated (Some b), st')
        /\ status b = "pending"
        /\ option_map status (findBooking (bookings st') 1) = Some "pending")
  /\ (exists b st',
        updateBooking HookThenValidate
          (Sample.storeWith [Sample.booked 1 1 9 0 60 "cancelled"]) 1 1
          (statusOnly "in-progress") = (Updated (Some b), st')
        /\ status b = "in-progress"
        /\ option_map status (findBooking (bookings st') 1)
           = Some "in-progress").
Proof.
  repeat split; try reflexivity;
    vm_compute; do 2 eexists; repeat split; reflexivity.
Qed.

(* ================================================================== *)
(** * Available slots *)
(* ================================================================== *)

Lemma slotTurns_done (close cur : Z) :
  close <= cur -> slotTurns close cur = 0%nat.
Proof.
  intro H. unfold slotTurns.
  assert ((close - cur + 1799999) / 1800000 <= 0).
  { apply Z.lt_succ_r. apply Z.div_lt_upper_bound; lia. }
  lia.
Qed.

Lemma slotTurns_step (close cur : Z) :
  cur < close ->
  slotTurns close cur = S (slotTurns close (addMinutes cur 30)).
Proof.
  intro H. unfold slotTurns, addMinutes, msPerMinute.
  replace (close - cur + 1799999)
    with ((close - (cur + 30 * 60000) + 1799999) + 1 * 1800000) by lia.
  rewrite Z.div_add by lia.
  assert (0 <= (close - (cur + 30 * 60000) + 1799999) / 1800000)
    by (apply Z.div_pos; lia).
  lia.
Qed.

(** The loop ends: past [slotTurns] turns, more fuel changes nothing. *)
Lemma slotLoop_enough (existing : list Booking) (duration close : Z) :
  forall fuel cur,
    (slotTurns close cur <= fuel)%nat ->
    slotLoop fuel existing duration close cur
    = slotLoop (slotTurns close cur) existing duration close cur.
Proof.
  induction fuel as [|fuel IH]; intros cur Hle.
  - replace (slotTurns close cur) with 0%nat by lia. reflexivity.
  - destruct (Z.ltb_spec cur close) as [Hlt|Hge].
    + rewrite (slotTurns_step close cur Hlt) in *.
      cbn [slotLoop]. apply Z.ltb_lt in Hlt. rewrite Hlt.
      f_equal. apply IH. lia.
    + rewrite (slotTurns_done close cur Hge).
      cbn [slotLoop]. apply Z.ltb_ge in Hge. rewrite Hge. reflexivity.
Qed.

Lemma slotTurns_bound (close cur : Z) (k : nat) :
  (k < slotTurns close cur)%nat <-> cur + Z.of_nat k * 1800000 < close.
Proof.
  unfold slotTurns. split.
  - intro H.
    assert (Hq : Z.of_nat k + 1 <= (close - cur + 1799999) / 1800000) by lia.
    assert (Hm := Z.mul_div_le (close - cur + 1799999) 1800000 ltac:(lia)).
    nia.
  - intro H.
    assert (Hq : Z.of_nat k + 1 <= (close - cur + 1799999) / 1800000).
    { apply Z.div_le_lower_bound; lia. }
    lia.
Qed.

(** One candidate has a conflict exactly when it overlaps, half-open, one
    of the day's bookings. *)
Lemma slotHasConflict_spec (existing : list Booking) (cur slotEnd : Z) :
  slotHasConflict existing cur slotEnd = true <->
  exists b e, In b existing /\ intervalOf b = Some e
              /\ overlaps (mkInterval cur slotEnd) e = true.
Proof.
  unfold slotHasConflict. rewrite existsb_exists. split.
  - intros [b [Hin H]]. apply andb_true_iff in H. destruct H as [H1 H2].
    unfold dateLt in *. unfold intervalOf.
    destruct (startDateTime b) as [s|] eqn:Es; [|discriminate].
    destruct (endDateTime b) as [e|] eqn:Ee; [|discriminate].
    exists b, (mkInterval s e). rewrite Es, Ee. repeat split; auto.
    unfold overlaps. simpl. rewrite H1, H2. reflexivity.
  - intros [b [e [Hin [Hi Ho]]]]. exists b. split; [exact Hin|].
    apply intervalOf_Some in Hi. destruct Hi as [Hs He].
    rewrite Hs, He. unfold overlaps in Ho. simpl in *. exact Ho.
Qed.

(** The slots the loop returns from [cur] on: the candidates at 30-minute
    steps that start before [close], end by [close] and have no conflict. *)
Lemma slotLoop_In (existing : list Booking) (duration close : Z) (slot : Slot) :
  forall fuel cur,
    In slot (slotLoop fuel existing duration close cur) <->
    exists k, (k < fuel)%nat
      /\ startTime slot = cur + Z.of_nat k * 1800000
      /\ startTime slot < close
      /\ endTime slot = startTime slot + duration * 60000
      /\ endTime slot <= close
      /\ timeString slot = toTimeString5 (startTime slot)
      /\ slotHasConflict existing (startTime slot) (endTime slot) = false.
Proof.
  induction fuel as [|fuel IH]; intro cur.
  - simpl. split; [contradiction | intros [k [Hk _]]; lia].
  - cbn [slotLoop]. destruct (Z.ltb_spec cur close) as [Hlt|Hge].
    + rewrite in_app_iff, IH. split.
      * intros [Hhere|[k [Hk [Hs Hrest]]]].
        -- destruct (slotHasConflict existing cur (cur + duration * 60000))
             eqn:Hc; simpl in Hhere;
             [contradiction|].
           destruct (Z.leb_spec (cur + duration * 60000) close);
             simpl in Hhere; [|contradiction].
           destruct Hhere as [<-|[]]. exists 0%nat. simpl.
           repeat split; auto; lia.
        -- exists (S k). repeat split; try tauto; try lia.
           unfold addMinutes, msPerMinute in Hs. lia.
      * intros [k [Hk [Hs [Hlt' [He [Hle [Hts Hc]]]]]]].
        destruct k as [|k].
        -- left. simpl in Hs. rewrite Z.add_0_r in Hs.
           rewrite <- Hs, <- He, Hc. simpl.
           apply Z.leb_le in Hle. rewrite Hle. simpl. left.
           destruct slot as [s e t]. simpl in *. subst. reflexivity.
        -- right. exists k. repeat split; auto; try lia.
           unfold addMinutes, msPerMinute. lia.
    + split; [contradiction|].
      intros [k [Hk [Hs [Hlt' _]]]]. lia.
Qed.

(** The day's bookings: the provider's pending, confirmed and in-progress
    bookings that start on the day. *)
Lemma bookingsOfDay_In (db : list Booking) (uid date_ : Z) (b : Booking) :
  In b (bookingsOfDay db uid date_) <->
  In b db /\ userId b = uid
  /\ (exists s, startDateTime b = Some s
                /\ startOfDay date_ <= s <= endOfDay date_)
  /\ In (status b) activeStatuses.
Proof.
  unfold bookingsOfDay. rewrite filter_In.
  rewrite !andb_true_iff, Z.eqb_eq, inList_In.
  unfold qGte, qLte.
  destruct (startDateTime b) as [s|].
  - rewrite !Z.leb_le. split.
    + intros [Hin [[[Hu H1] H2] Hs]]. repeat split; auto.
      exists s. split; [reflexivity | lia].
    + intros [Hin [Hu [[s' [Hs' Hr]] Hs]]]. inversion Hs'; subst s'.
      repeat split; auto; lia.
  - split.
    + intros [_ [[[_ H] _] _]]. discriminate.
    + intros [_ [_ [[s' [Hs' _]] _]]]. discriminate.
Qed.

(** C7, as the code has it. On an open day whose hours read "H:M", the
    operation returns, and the slots it returns are exactly the candidates
    that start a whole number of 30-minute steps after opening, start
    before closing, last [duration] minutes, end at or before closing and
    overlap (half-open) none of the provider's pending, confirmed or
    in-progress bookings that start on that date. Completed bookings, like
    cancelled ones, are not looked at. *)
Theorem available_slots_exact (users_ : list User) (db : list Booking)
  (uid date_ duration_ : Z) (user : User) (hours : DayName -> option DayHours)
  (dayHours : DayHours) (s e : string) (sh sm eh em : Z) :
  findUser users_ uid = Some user ->
  businessHours user = Some hours ->
  hours (dayOfWeek date_) = Some dayHours ->
  isOpen dayHours = true ->
  start dayHours = Some s ->
  end_ dayHours = Some e ->
  splitHM s = Some (sh, sm) ->
  splitHM e = Some (eh, em) ->
  exists slots,
    getAvailableTimeSlots users_ db uid date_ duration_ = Ok slots
    /\ forall slot,
         In slot slots <->
         (exists k, 0 <= k
                    /\ startTime slot = setHours date_ sh sm + k * 1800000)
         /\ startTime slot < setHours date_ eh em
         /\ endTime slot = startTime slot + duration_ * 60000
         /\ endTime slot <= setHours date_ eh em
         /\ timeString slot = toTimeString5 (startTime slot)
         /\ (forall b a,
               In b db -> userId b = uid -> In (status b) activeStatuses ->
               intervalOf b = Some a ->
               startOfDay date_ <= lo a <= endOfDay date_ ->
               overlaps (mkInterval (startTime slot) (endTime slot)) a = false).
Proof.
  intros Hu Hb Hd Ho Hs He Hps Hpe.
  unfold getAvailableTimeSlots.
  rewrite Hu, Hb, Hd, Ho, Hs, He. cbn [negb splitHours bindExc].
  rewrite Hps, Hpe.
  eexists. split; [reflexivity|].
  intro slot. rewrite slotLoop_In. split.
  - intros [k [Hk [Hst [Hlt [Hen [Hle [Hts Hc]]]]]]].
    repeat split; auto.
    + exists (Z.of_nat k). split; [lia | exact Hst].
    + intros b a Hin Hub Hact Hi Hday.
      destruct (overlaps _ a) eqn:Hov; [|reflexivity].
      assert (Hex : slotHasConflict (bookingsOfDay db uid date_)
                      (startTime slot) (endTime slot) = true).
      { apply slotHasConflict_spec. exists b, a. repeat split; auto.
        apply bookingsOfDay_In. repeat split; auto.
        exists (lo a). split; [|exact Hday].
        apply intervalOf_Some in Hi. tauto. }
      congruence.
  - intros [[k [Hk Hst]] [Hlt [Hen [Hle [Hts Hfree]]]]].
    exists (Z.to_nat k). rewrite Z2Nat.id by exact Hk.
    repeat split; auto.
    + apply slotTurns_bound. rewrite Z2Nat.id by exact Hk. lia.
    + destruct (slotHasConflict _ _ _) eqn:Hc; [|reflexivity].
      apply slotHasConflict_spec in Hc.
      destruct Hc as [b [a [Hin [Hi Hov]]]].
      apply bookingsOfDay_In in Hin.
      destruct Hin as [Hin [Hub [[s0 [Hs0 Hday]] Hact]]].
      rewrite (Hfree b a Hin Hub Hact Hi) in Hov; [discriminate|].
      apply intervalOf_Some in Hi. destruct Hi as [Hi _].
      rewrite Hs0 in Hi. inversion Hi; subst. exact Hday.
Qed.

Lemma available_slots_exact_witness :
  exists slots,
    getAvailableTimeSlots [Sample.provider] Sample.midMorning 1
      (at_ Sample.day 0 0) 60 = Ok slots
    /\ forall slot,
         In slot slots <->
         (exists k, 0 <= k
                    /\ startTime slot
                       = setHours (at_ Sample.day 0 0) 9 0 + k * 1800000)
         /\ startTime slot < setHours (at_ Sample.day 0 0) 17 0
         /\ endTime slot = startTime slot + 60 * 60000
         /\ endTime slot <= setHours (at_ Sample.day 0 0) 17 0
         /\ timeString slot = toTimeString5 (startTime slot)
         /\ (forall b a,
               In b Sample.midMorning -> userId b = 1 ->
               In (status b) activeStatuses ->
               intervalOf b = Some a ->
               startOfDay (at_ Sample.day 0 0) <= lo a
               <= endOfDay (at_ Sample.day 0 0) ->
               overlaps (mkInterval (startTime slot) (endTime slot)) a = false).
Proof.
  apply (available_slots_exact [Sample.provider] Sample.midMorning 1
           (at_ Sample.day 0 0) 60 Sample.provider Sample.weekHours
           (mkDayHours (Some "09:00") (Some "17:00") true) "09:00" "17:00");
    reflexivity.
Defined.

(** The boundaries on a day with one booking from 10:00 to 11:00 and
    60-minute slots: 09:00 (ends when the booking starts), 11:00 (starts
    when it ends) and 16:00 (ends at closing) are returned; 09:30, 10:00,
    10:30 and 16:30 are not. *)
Example available_slots_boundaries :
  match getAvailableTimeSlots [Sample.provider] Sample.midMorning 1
          (at_ Sample.day 0 0) 60 with
  | Ok slots => map timeString slots
  | Throw _ => []
  end
  = ["09:00"; "11:00"; "11:30"; "12:00"; "12:30"; "13:00"; "13:30";
     "14:00"; "14:30"; "15:00"; "15:30"; "16:00"].
Proof. vm_compute. reflexivity. Qed.

(** C7, as stated, fails for "non-cancelled": a completed booking is not
    cancelled, and the 09:00 slot is returned although it coincides with the
    provider's completed 09:00-10:00 booking of that date. *)
Lemma available_slot_over_completed_booking :
  exists slots slot b a,
    getAvailableTimeSlots [Sample.provider] Sample.doneMorning 1
      (at_ Sample.day 0 0) 60 = Ok slots
    /\ In slot slots
    /\ In b Sample.doneMorning
    /\ userId b = 1
    /\ status b <> "cancelled"
    /\ intervalOf b = Some a
    /\ startOfDay (at_ Sample.day 0 0) <= lo a <= endOfDay (at_ Sample.day 0 0)
    /\ overlaps (mkInterval (startTime slot) (endTime slot)) a = true.
Proof.
  eexists. exists (mkSlot (at_ Sample.day 9 0) (at_ Sample.day 10 0) "09:00").
  exists (Sample.booked 1 1 9 0 60 "completed"). eexists.
  split; [vm_compute; reflexivity|].
  split; [left; reflexivity|].
  split; [left; reflexivity|].
  split; [reflexivity|].
  split; [discriminate|].
  split; [reflexivity|].
  split; [vm_compute; split; discriminate | reflexivity].
Qed.

(** C6, as the code has it. On a day marked [isOpen: false] the operation
    returns the empty list and the route answers with that list: the same
    answer as for an open day without a free slot. *)
Theorem closed_day_returns_empty_list (users_ : list User) (db : list Booking)
  (uid date_ duration_ : Z) (user : User) (hours : DayName -> option DayHours)
  (dayHours : DayHours) :
  findUser users_ uid = Some user ->
  businessHours user = Some hours ->
  hours (dayOfWeek date_) = Some dayHours ->
  isOpen dayHours = false ->
  getAvailableTimeSlots users_ db uid date_ duration_ = Ok []
  /\ availableSlotsRoute users_ db uid date_ duration_ = SlotsOk date_ [].
Proof.
  intros Hu Hb Hd Ho.
  unfold availableSlotsRoute, getAvailableTimeSlots.
  rewrite Hu, Hb, Hd, Ho. split; reflexivity.
Qed.

Lemma closed_day_returns_empty_list_witness :
  getAvailableTimeSlots [Sample.provider; Sample.sundayShop] Sample.sundayTaken
    1 (at_ Sample.sunday14 0 0) 60 = Ok []
  /\ availableSlotsRoute [Sample.provider; Sample.sundayShop] Sample.sundayTaken
       1 (at_ Sample.sunday14 0 0) 60 = SlotsOk (at_ Sample.sunday14 0 0) [].
Proof.
  apply (closed_day_returns_empty_list [Sample.provider; Sample.sundayShop]
           Sample.sundayTaken 1 (at_ Sample.sunday14 0 0) 60 Sample.provider
           Sample.weekHours (mkDayHours (Some "09:00") (Some "17:00") false));
    reflexivity.
Defined.

(** C6, as stated, fails: on Sunday 2024-01-14 provider 1 is closed and
    provider 3 is open with its only hour taken, and the two get the same
    answer. *)
Lemma closed_day_same_as_fully_booked :
  (exists h, Sample.weekHours (dayOfWeek (at_ Sample.sunday14 0 0)) = Some h
             /\ isOpen h = false)
  /\ (exists h, businessHours Sample.sundayShop
                = Some (fun _ => Some h) /\ isOpen h = true)
  /\ availableSlotsRoute [Sample.provider; Sample.sundayShop] Sample.sundayTaken
       1 (at_ Sample.sunday14 0 0) 60
     = availableSlotsRoute [Sample.provider; Sample.sundayShop]
         Sample.sundayTaken 3 (at_ Sample.sunday14 0 0) 60.
Proof.
  split; [eexists; split; reflexivity|].
  split; [eexists; split; reflexivity|].
  vm_compute. reflexivity.
Qed.

(* ================================================================== *)
(** * Recommendations *)
(* ================================================================== *)

Module AIServiceFacts.
Import AIService.

Lemma slotCount_done (serviceDuration closeMinutes minutes : Z) :
  closeMinutes < minutes + serviceDuration ->
  slotCount serviceDuration closeMinutes minutes = 0%nat.
Proof.
  intro H. unfold slotCount.
  assert ((closeMinutes - serviceDuration - minutes) / 30 < 0)
    by (apply Z.div_lt_upper_bound; lia).
  lia.
Qed.

Lemma slotCount_step (serviceDuration closeMinutes minutes : Z) :
  minutes + serviceDuration <= closeMinutes ->
  slotCount serviceDuration closeMinutes minutes
  = S (slotCount serviceDuration closeMinutes (minutes + 30)).
Proof.
  intro H. unfold slotCount.
  replace (closeMinutes - serviceDuration - minutes)
    with ((closeMinutes - serviceDuration - (minutes + 30)) + 1 * 30) by lia.
  rewrite Z.div_add by lia.
  assert (-1 <= (closeMinutes - serviceDuration - (minutes + 30)) / 30)
    by (apply Z.div_le_lower_bound; lia).
  lia.
Qed.

(** The [for] loop ends: past [slotCount] turns, more fuel changes
    nothing. *)
Lemma slotsFrom_enough (serviceDuration closeMinutes : Z) :
  forall fuel minutes,
    (slotCount serviceDuration closeMinutes minutes <= fuel)%nat ->
    slotsFrom fuel serviceDuration closeMinutes minutes
    = slotsFrom (slotCount serviceDuration closeMinutes minutes)
        serviceDuration closeMinutes minutes.
Proof.
  induction fuel as [|fuel IH]; intros minutes Hle.
  - replace (slotCount serviceDuration closeMinutes minutes) with 0%nat by lia.
    reflexivity.
  - destruct (Z.leb_spec (minutes + serviceDuration) closeMinutes) as [Hok|Hno].
    + rewrite (slotCount_step _ _ _ Hok) in *.
      cbn [slotsFrom]. apply Z.leb_le in Hok. rewrite Hok.
      f_equal. apply IH. lia.
    + rewrite (slotCount_done _ _ _ Hno).
      cbn [slotsFrom]. apply Z.leb_gt in Hno. rewrite Hno. reflexivity.
Qed.

(** Every generated slot ends by closing time: a slot that would run past
    it is no candidate. *)
Lemma slotsFrom_inside (serviceDuration closeMinutes : Z) (slot : TimeSlot) :
  forall fuel minutes,
    In slot (slotsFrom fuel serviceDuration closeMinutes minutes) ->
    minutes <= sl_minutes slot
    /\ sl_endMinutes slot = sl_minutes slot + serviceDuration
    /\ sl_endMinutes slot <= closeMinutes.
Proof.
  induction fuel as [|fuel IH]; intros minutes Hin; [contradiction|].
  cbn [slotsFrom] in Hin.
  destruct (Z.leb_spec (minutes + serviceDuration) closeMinutes);
    [|contradiction].
  destruct Hin as [<-|Hin].
  - simpl. lia.
  - apply IH in Hin. lia.
Qed.

Lemma insertByScore_In (x y : Recommendation) (l : list Recommendation) :
  In y (insertByScore x l) <-> y = x \/ In y l.
Proof.
  induction l as [|z l IH]; simpl.
  - intuition auto.
  - destruct (r_score x <? r_score z); simpl; rewrite ?IH; intuition auto.
Qed.

Lemma insertByScore_sorted (x : Recommendation) (l : list Recommendation) :
  StronglySorted byScore l -> StronglySorted byScore (insertByScore x l).
Proof.
  induction 1 as [|z l Hs IH Hall]; simpl.
  - constructor; constructor.
  - destruct (Z.ltb_spec (r_score x) (r_score z)).
    + constructor; [exact IH|].
      rewrite Forall_forall in *. intros y Hy.
      apply insertByScore_In in Hy. destruct Hy as [->|Hy].
      * unfold byScore. lia.
      * auto.
    + constructor; [constructor; assumption|].
      constructor; [unfold byScore; lia|].
      rewrite Forall_forall in *. intros y Hy.
      specialize (Hall y Hy). unfold byScore in *. lia.
Qed.

(** The ranking is in descending order of score. *)
Lemma sortByScore_sorted (l : list Recommendation) :
  StronglySorted byScore (sortByScore l).
Proof.
  induction l as [|x l IH]; simpl; [constructor|].
  apply insertByScore_sorted. exact IH.
Qed.

Lemma insertByScore_filter (s : Z) (x : Recommendation)
  (l : list Recommendation) :
  StronglySorted byScore l ->
  filter (fun r => r_score r =? s) (insertByScore x l)
  = if r_score x =? s then x :: filter (fun r => r_score r =? s) l
    else filter (fun r => r_score r =? s) l.
Proof.
  induction 1 as [|z l Hs IH Hall]; simpl.
  - destruct (r_score x =? s); reflexivity.
  - destruct (Z.ltb_spec (r_score x) (r_score z)); simpl.
    + rewrite IH.
      destruct (Z.eqb_spec (r_score x) s); destruct (Z.eqb_spec (r_score z) s);
        try reflexivity; lia.
    + reflexivity.
Qed.

(** The ranking is stable: recommendations of equal score keep the order in
    which the slots were generated, earliest first. *)
Lemma sortByScore_stable (s : Z) (l : list Recommendation) :
  filter (fun r => r_score r =? s) (sortByScore l)
  = filter (fun r => r_score r =? s) l.
Proof.
  induction l as [|x l IH]; simpl; [reflexivity|].
  rewrite insertByScore_filter by apply sortByScore_sorted.
  rewrite IH. reflexivity.
Qed.

(** X28: whatever is returned is at most five recommendations in descending
    order of score. *)
Lemma recommend_ranked (day : DayName) (businessHours : HoursView)
  (existingBookings : list BookingView) (customerHistory : list string)
  (sameTimeBookings : string -> Z) (serviceDuration : Z)
  (preferredTime : option string) (recs : list Recommendation) (n : Z) :
  recommend day businessHours existingBookings customerHistory
    sameTimeBookings serviceDuration preferredTime = RuleBased recs n ->
  (List.length recs <= 5)%nat /\ StronglySorted byScore recs.
Proof.
  unfold recommend. destruct (negb (hv_isOpen businessHours)); [discriminate|].
  destruct (bindExc _ _) as [all|]; [|discriminate].
  cbv zeta. remember (firstn 5 (sortByScore all)) as top eqn:Htop.
  intro H. injection H as Hr Hn. subst recs. clear Hn. subst top. split.
  - rewrite length_firstn. lia.
  - assert (Hs := sortByScore_sorted all).
    revert Hs. generalize (sortByScore all). generalize 5%nat.
    intro k. induction k as [|k IH]; intros l Hs; simpl; [constructor|].
    destruct l as [|r l]; [constructor|].
    inversion Hs as [|? ? Hs' Hall]; subst.
    constructor; [apply IH; assumption|].
    rewrite Forall_forall in *. intros y Hy.
    apply Hall. revert Hy. clear. revert l.
    induction k as [|k IH]; intros l Hy; simpl in Hy; [contradiction|].
    destruct l; [contradiction|]. destruct Hy as [->|Hy]; simpl; auto.
Qed.

(** X29: on the documents of the store the recommender produces no ranking at
    all: on an open day [generateTimeSlots] reads [open] of a day of
    business hours, which the user schema does not have, and throws. *)
Lemma getRuleBasedRecommendations_never_ranks (db : list Booking) (user : User)
  (customerId_ serviceDuration preferredDate : Z) (preferredTime : option string) :
  getRuleBasedRecommendations db user customerId_ serviceDuration
    preferredDate preferredTime = RecommendationError
  \/ getRuleBasedRecommendations db user customerId_ serviceDuration
       preferredDate preferredTime = ClosedDay (dayOfWeek preferredDate).
Proof.
  unfold getRuleBasedRecommendations.
  destruct (businessHours user) as [hours|]; [|left; reflexivity].
  destruct (hours (dayOfWeek preferredDate)) as [dayHours|];
    [|left; reflexivity].
  unfold recommend, hoursOfDocument. cbn [hv_isOpen].
  destruct (isOpen dayHours); [left|right]; reflexivity.
Qed.

(** C8. On the example of the specification (open 09:00-17:00, one booking
    12:00-13:00, a 60-minute service, three earlier 10:00 bookings of the
    customer) the recommender returns its error result with no
    recommendation, so 10:00 is not ranked at all. It does so also when the
    hours carry [open] and [close], because the overlap gate reads
    [endTime] of a booking document. Handed plain objects that carry
    [open], [close] and [endTime] the same code ranks 10:00 first, leaves
    12:00 out, and never proposes 16:30, whose hour would end after
    closing. *)
Theorem recommendations_on_spec_example :
  getRuleBasedRecommendations Sample.lunchAndHistory Sample.provider 100 60
    (at_ Sample.day 0 0) None = RecommendationError
  /\ recommend monday Sample.plainHours
       (map bookingOfDocument [Sample.booked 5 1 12 0 60 "confirmed"])
       Sample.tenOClockThrice Sample.completedAt 60 None
     = RecommendationError
  /\ (exists recs,
        recommend monday Sample.plainHours Sample.plainLunch
          Sample.tenOClockThrice Sample.completedAt 60 None
        = RuleBased recs 12
        /\ map (fun r => (r_time r, r_score r)) recs
           = [("10:00", 88); ("11:00", 55); ("13:00", 55); ("14:00", 55);
              ("14:30", 55)])
  /\ (exists slots,
        generateTimeSlots Sample.plainHours 60 = Ok slots
        /\ ~ In "16:30" (map sl_time slots)
        /\ In "12:00" (map sl_time slots)).
Proof.
  split; [vm_compute; reflexivity|].
  split; [vm_compute; reflexivity|].
  split; [vm_compute; eexists; split; reflexivity|].
  eexists. split; [vm_compute; reflexivity|].
  split.
  - simpl. intros H.
    repeat (destruct H as [H|H]; [discriminate H|]). exact H.
  - simpl. do 6 right. left. reflexivity.
Qed.

End AIServiceFacts.

(* ================================================================== *)
(** * The conflict check as the routes use it *)
(* ================================================================== *)



(** The query reads four paths of the running document and no other. *)
Lemma checkConflicts_reads (this this' : Booking) (db : list Booking) :
  _id this' = _id this -> userId this' = userId this ->
  startDateTime this' = startDateTime this ->
  endDateTime this' = endDateTime this ->
  checkConflicts this' db = checkConflicts this db.
Proof.
  intros Hi Hu Hs He. unfold checkConflicts.
  apply filter_ext. intro b.
  unfold conflictQuery, overlapClauses. rewrite Hi, Hu, Hs, He. reflexivity.
Qed.



(** X3: when [PUT /:id] is given a date or a time, the conflicts it looks
    for are those of the interval the booking has in the store, not of the
    interval asked for: the route assigns [date] and [time], and
    [startDateTime] and [endDateTime] follow only in the save hook. A
    request is refused exactly when the stored interval has conflicts, and
    the answer lists those. *)
Theorem update_checks_stored_interval (ord : MiddlewareOrder) (st : Store)
  (uid id : Z) (rq : UpdateRequest) (stored : Booking) :
  findOwned (bookings st) id uid = Some stored ->
  isSome (up_date rq) || truthy (up_time rq) = true ->
  (checkConflicts stored (bookings st) <> [] ->
   updateBooking ord st uid id rq
   = (Conflict (map conflictInfo (checkConflicts stored (bookings st))), st))
  /\ (checkConflicts stored (bookings st) = [] ->
      forall cs, fst (updateBooking ord st uid id rq) <> Conflict cs).
Proof.
  intros Hf Ht. unfold updateBooking. rewrite Hf. cbv zeta. rewrite Ht.
  match goal with
  | |- context [checkConflicts (fields ?d) (bookings st)] =>
      rewrite (checkConflicts_reads stored (fields d) (bookings st))
        by reflexivity
  end.
  destruct (checkConflicts stored (bookings st)) as [|c cs'] eqn:Hc.
  - split; [intro H; contradiction H; reflexivity|].
    intros _ cs.
    match goal with
    | |- context [save ?o ?db ?d] => destruct (save o db d)
    end; simpl; discriminate.
  - split; [intros _; reflexivity | intro H; discriminate H].
Qed.

Lemma update_checks_stored_interval_witness :
  (checkConflicts (Sample.booked 1 1 9 0 60 "pending") Sample.overlapping
   <> [] ->
   updateBooking HookThenValidate (Sample.storeWith Sample.overlapping) 1 1
     Sample.toThreeOClock
   = (Conflict (map conflictInfo
                  (checkConflicts (Sample.booked 1 1 9 0 60 "pending")
                     Sample.overlapping)),
      Sample.storeWith Sample.overlapping))
  /\ (checkConflicts (Sample.booked 1 1 9 0 60 "pending") Sample.overlapping
      = [] ->
      forall cs,
        fst (updateBooking HookThenValidate
               (Sample.storeWith Sample.overlapping) 1 1 Sample.toThreeOClock)
        <> Conflict cs).
Proof.
  apply (update_checks_stored_interval HookThenValidate
           (Sample.storeWith Sample.overlapping) 1 1 Sample.toThreeOClock
           (Sample.booked 1 1 9 0 60 "pending")); reflexivity.
Defined.

(* ================================================================== *)
(** * Moving a booking with [PUT /:id] *)
(* ================================================================== *)

Lemma listZ_eqb_eq (a b : list Z) : listZ_eqb a b = true -> a = b.
Proof.
  revert b. induction a as [|x a IH]; intros [|y b]; simpl;
    try discriminate; [reflexivity|].
  intro H. apply andb_true_iff in H. destruct H as [H1 H2].
  apply Z.eqb_eq in H1. apply IH in H2. congruence.
Qed.

Lemma validate_reads (b b' : Booking) :
  time b' = time b -> duration b' = duration b -> status b' = status b ->
  notes b' = notes b -> totalAmount b' = totalAmount b ->
  paymentStatus b' = paymentStatus b -> paymentMethod b' = paymentMethod b ->
  isSome (startDateTime b') = isSome (startDateTime b) ->
  isSome (endDateTime b') = isSome (endDateTime b) ->
  rescheduledBy b' = rescheduledBy b ->
  validate b' = validate b.
Proof.
  intros H1 H2 H3 H4 H5 H6 H7 H8 H9 H10. unfold validate.
  rewrite H1, H2, H3, H4, H5, H6, H7, H8, H9, H10. reflexivity.
Qed.

Lemma validate_new_time (b : Booking) (t : string) :
  validate b = [] -> test timePattern t = true ->
  validate (with_time t b) = [].
Proof.
  unfold validate.
  cbn [with_time time duration status notes totalAmount paymentStatus
       paymentMethod startDateTime endDateTime rescheduledBy].
  intros H Ht. rewrite Ht.
  apply app_nil_both in H. destruct H as [_ H]. exact H.
Qed.

Lemma preSave_moved (db : list Booking) (stored : Booking) (newDate : Z)
  (t : string) (h m : Z) :
  splitHM t = Some (h, m) ->
  newDate <> date stored \/ t <> time stored ->
  startDateTime stored <> Some newDate ->
  endDateTime stored <> Some (setHours newDate h m) ->
  exists d',
    preSave db (setTime t (setDate newDate (loaded stored))) = Some d'
    /\ isNew d' = false
    /\ persist stored d' = fields d'
    /\ fields d'
       = with_conflictsWith
           (map _id (checkConflicts (fields d') db))
           (with_hasConflicts
              (0 <? Z.of_nat (List.length (checkConflicts (fields d') db)))
              (with_endDateTime
                 (Some (setHours newDate h m + duration stored * 60000))
                 (with_startDateTime (Some (setHours newDate h m))
                    (with_time t (with_date newDate stored))))).
Proof.
  intros Hs Hch Hst Hen.
  assert (Hs1 : optZ_eqb (Some newDate) (startDateTime stored) = false).
  { destruct (startDateTime stored) as [x|]; simpl; [|reflexivity].
    apply Z.eqb_neq. congruence. }
  assert (Hs2 : optZ_eqb (Some (setHours newDate h m)) (endDateTime stored)
                = false).
  { destruct (endDateTime stored) as [x|]; simpl; [|reflexivity].
    apply Z.eqb_neq. congruence. }
  assert (Hmod : negb (newDate =? date stored)
                 || negb (String.eqb t (time stored)) = true).
  { destruct Hch as [H|H].
    - apply Z.eqb_neq in H. rewrite H. reflexivity.
    - apply String.eqb_neq in H. rewrite H. apply orb_true_r. }
  unfold setTime, setDate, loaded, assign.
  cbn [fields isNew modified orb andb negb isModified existsb with_date time
       date].
  destruct (newDate =? date stored) eqn:Ed;
    destruct (String.eqb t (time stored)) eqn:Et;
    try discriminate Hmod;
    cbn [negb andb existsb Path_eqb orb];
    unfold preSave, recomputeInterval;
    cbn [isModified modified existsb Path_eqb orb fields time with_time];
    rewrite Hs; cbv zeta;
    unfold setStartDateTime, setEndDateTime, mutateStartDateTime,
      mutateEndDateTime, assign, mutate;
    cbn [fields isNew modified orb andb negb isModified existsb Path_eqb
         startDateTime endDateTime with_date with_time with_startDateTime
         with_endDateTime option_map duration date];
    rewrite Hs1; cbn [negb andb existsb Path_eqb orb];
    rewrite Hs2; cbn [negb andb existsb Path_eqb orb];
    unfold recordConflicts, setHasConflicts, setConflictsWith, assign;
    cbn [fields isNew modified orb andb negb isModified existsb Path_eqb
         hasConflicts conflictsWith with_date with_time with_startDateTime
         with_endDateTime with_hasConflicts with_conflictsWith];
    match goal with
       | |- context [checkConflicts ?x db] => set (cs := checkConflicts x db)
       end;
    destruct (Bool.eqb (0 <? Z.of_nat (List.length cs)) (hasConflicts stored))
      eqn:Eh;
    destruct (listZ_eqb (map _id cs) (conflictsWith stored)) eqn:Ec;
    cbn [negb andb existsb Path_eqb orb];
    (eexists; split; [reflexivity|]; split; [reflexivity|]);
    cbn [fields modified persist fold_right copyPath];
    try apply Bool.eqb_prop in Eh; try apply listZ_eqb_eq in Ec;
    try apply Z.eqb_eq in Ed; try apply String.eqb_eq in Et;
    (split;
     [ clearbody cs; destruct stored; cbn in *; subst; reflexivity
     | replace (checkConflicts _ db) with cs
         by (apply checkConflicts_reads; reflexivity);
       reflexivity ]).
Qed.

Lemma validate_ends_set (b : Booking) :
  validate b = [] ->
  isSome (startDateTime b) = true /\ isSome (endDateTime b) = true.
Proof.
  unfold validate. intro H.
  repeat match goal with
         | H : (_ ++ _)%list = [] |- _ =>
             apply app_nil_both in H; destruct H
         end.
  destruct (isSome (startDateTime b)); [|discriminate].
  destruct (isSome (endDateTime b)); [|discriminate]. auto.
Qed.

Lemma write_replaces (db : list Booking) (d : Doc) (stored : Booking) :
  NoDup (map _id db) -> In stored db -> _id (fields d) = _id stored ->
  isNew d = false -> persist stored d = fields d ->
  write db d
  = map (fun x => if _id x =? _id stored then fields d else x) db.
Proof.
  intros Hnd Hin Hid Hn Hp. unfold write. rewrite Hn. apply map_ext_in.
  intros x Hx. rewrite Hid. destruct (_id x =? _id stored) eqn:E; [|reflexivity].
  apply Z.eqb_eq in E.
  assert (x = stored) by (apply (NoDup_ids_eq db); assumption).
  subst x. exact Hp.
Qed.

Lemma findOwned_replaced (db : list Booking) (id uid : Z) (b' stored : Booking) :
  In stored db -> _id stored = id -> _id b' = id -> userId b' = uid ->
  findOwned (map (fun x => if _id x =? id then b' else x) db) id uid = Some b'.
Proof.
  intros Hin Hs Hi Hu. unfold findOwned.
  induction db as [|y db IH]; [contradiction|].
  simpl. destruct (_id y =? id) eqn:E.
  - rewrite Hi, Hu, !Z.eqb_refl. reflexivity.
  - rewrite E. simpl. destruct Hin as [->|Hin].
    + rewrite Hs, Z.eqb_refl in E. discriminate.
    + auto.
Qed.

(** X4: [PUT /:id] with a new date and time moves the booking, whether or
    not the new interval is free. For a valid stored booking whose stored
    interval has no conflicts, a time that passes the pattern and a date or
    time that differs from the stored one, the answer is success and the
    stored booking afterwards has the new [date] and [time], the interval
    that starts at that time on that date and lasts the unchanged duration,
    and the exact snapshot of the conflicts of the new interval. The
    request is not refused when that snapshot is not empty. (The two
    hypotheses on the stored ends keep aside the case in which the change
    tracking misses the in-place change of a date.) *)
Theorem update_moves_booking (ord : MiddlewareOrder) (st : Store) (uid id : Z)
  (stored : Booking) (newDate : Z) (t : string) (h m : Z) :
  NoDup (map _id (bookings st)) ->
  findOwned (bookings st) id uid = Some stored ->
  validate stored = [] ->
  checkConflicts stored (bookings st) = [] ->
  test timePattern t = true ->
  splitHM t = Some (h, m) ->
  newDate <> date stored \/ t <> time stored ->
  startDateTime stored <> Some newDate ->
  endDateTime stored <> Some (setHours newDate h m) ->
  exists b st',
    updateBooking ord st uid id
      (mkUpdateRequest (Some newDate) (Some t) None None None None)
    = (Updated (Some b), st')
    /\ findOwned (bookings st') id uid = Some b
    /\ date b = newDate /\ time b = t
    /\ intervalOf b
       = Some (mkInterval (setHours newDate h m)
                 (setHours newDate h m + duration stored * 60000))
    /\ duration b = duration stored /\ status b = status stored
    /\ conflictsWith b = map _id (checkConflicts b (bookings st))
    /\ hasConflicts b = negb (Nat.eqb (List.length (conflictsWith b)) 0).
Proof.
  intros Hnd Hf Hv Hc Ht Hs Hch Hst Hen.
  destruct (findOwned_Some _ _ _ _ Hf) as [Hin [Hid Hu]].
  assert (Hne : String.eqb t "" = false).
  { destruct t; [discriminate Ht | reflexivity]. }
  destruct (preSave_moved (bookings st) stored newDate t h m Hs Hch Hst Hen)
    as [d' [Hp [Hn [Hpe Hfd]]]].
  destruct (validate_ends_set stored Hv) as [Vs Ve].
  assert (Hsave : save ord (bookings st)
                    (setTime t (setDate newDate (loaded stored)))
                  = Saved (write (bookings st) d') (fields d')).
  { unfold save. rewrite Hp. destruct ord.
    - replace (validate (fields (setTime t (setDate newDate (loaded stored)))))
        with (validate (with_time t stored))
        by (apply validate_reads; reflexivity).
      rewrite (validate_new_time stored t Hv Ht). reflexivity.
    - replace (validate (fields d')) with (validate (with_time t stored)).
      + rewrite (validate_new_time stored t Hv Ht). reflexivity.
      + rewrite Hfd. apply validate_reads; try reflexivity.
        * cbn. exact Vs.
        * cbn. exact Ve. }
  unfold updateBooking. rewrite Hf.
  cbn [up_date up_time up_status up_notes up_paymentStatus up_paymentMethod
       isSome truthy orb whenSet].
  rewrite Hne. cbn [negb].
  replace (checkConflicts
             (fields (setTime t (setDate newDate (loaded stored))))
             (bookings st))
    with (checkConflicts stored (bookings st))
    by (apply checkConflicts_reads; reflexivity).
  rewrite Hc, Hsave.
  assert (Hi' : _id (fields d') = id) by (rewrite Hfd; exact Hid).
  assert (Hu' : userId (fields d') = uid) by (rewrite Hfd; exact Hu).
  rewrite (write_replaces (bookings st) d' stored Hnd Hin) by congruence.
  rewrite Hid. do 2 eexists. split.
  - unfold findBooking. rewrite Hi'.
    rewrite (find_map_replace (bookings st) id (fields d') stored);
      auto.
  - cbn [bookings with_bookings].
    split; [apply (findOwned_replaced _ _ _ _ stored); assumption|].
    set (cs := checkConflicts (fields d') (bookings st)) in *.
    repeat split; try (rewrite Hfd; reflexivity).
    rewrite Hfd. cbn [hasConflicts conflictsWith with_conflictsWith
                      with_hasConflicts].
    rewrite length_map. destruct cs; reflexivity.
Qed.

Lemma update_moves_booking_witness :
  exists b st',
    updateBooking HookThenValidate (Sample.storeWith Sample.twoApart) 1 1
      (mkUpdateRequest (Some (at_ Sample.day 0 0)) (Some "10:30") None None
         None None)
    = (Updated (Some b), st')
    /\ findOwned (bookings st') 1 1 = Some b
    /\ date b = at_ Sample.day 0 0 /\ time b = "10:30"
    /\ intervalOf b
       = Some (mkInterval (setHours (at_ Sample.day 0 0) 10 30)
                 (setHours (at_ Sample.day 0 0) 10 30
                  + duration (Sample.booked 1 1 9 0 60 "pending") * 60000))
    /\ duration b = duration (Sample.booked 1 1 9 0 60 "pending")
    /\ status b = status (Sample.booked 1 1 9 0 60 "pending")
    /\ conflictsWith b
       = map _id (checkConflicts b (bookings (Sample.storeWith Sample.twoApart)))
    /\ hasConflicts b = negb (Nat.eqb (List.length (conflictsWith b)) 0).
Proof.
  apply (update_moves_booking HookThenValidate
           (Sample.storeWith Sample.twoApart) 1 1
           (Sample.booked 1 1 9 0 60 "pending") (at_ Sample.day 0 0) "10:30"
           10 30); try reflexivity.
  - simpl. repeat constructor; simpl; intuition discriminate.
  - right. discriminate.
  - vm_compute. discriminate.
  - vm_compute. discriminate.
Defined.

(* ================================================================== *)
(** * The calendar view *)
(* ================================================================== *)

Lemma insertByStart_perm (x : Booking) (l : list Booking) :
  Permutation (insertByStart x l) (x :: l).
Proof.
  induction l as [|y l IH]; simpl; [reflexivity|].
  destruct (dateLt (startDateTime y) (startDateTime x)); [|reflexivity].
  rewrite IH. apply perm_swap.
Qed.

Lemma sortByStart_perm (l : list Booking) : Permutation (sortByStart l) l.
Proof.
  induction l as [|x l IH]; simpl; [reflexivity|].
  rewrite insertByStart_perm. constructor. exact IH.
Qed.

Lemma insertByStart_sorted (x : Booking) (l : list Booking) :
  isSome (startDateTime x) = true ->
  Forall (fun b => isSome (startDateTime b) = true) l ->
  StronglySorted (fun a b => byStart (calendarEvent a) (calendarEvent b)) l ->
  StronglySorted (fun a b => byStart (calendarEvent a) (calendarEvent b))
                 (insertByStart x l).
Proof.
  intros Hx Hl Hs. induction Hs as [|y l Hs IH Hy]; simpl.
  - repeat constructor.
  - inversion Hl as [|? ? Hy0 Hl0]; subst.
    destruct (startDateTime x) as [tx|] eqn:Ex; [|discriminate].
    destruct (startDateTime y) as [ty|] eqn:Ey; [|discriminate].
    simpl. destruct (ty <? tx) eqn:C.
    + constructor; [apply IH; assumption|].
      apply (Permutation_Forall (Permutation_sym (insertByStart_perm x l))).
      constructor; [|exact Hy].
      unfold byStart; simpl. rewrite Ex, Ey. apply Z.ltb_lt in C. lia.
    + constructor; [constructor; assumption|].
      apply Z.ltb_ge in C.
      constructor.
      * unfold byStart; simpl. rewrite Ex, Ey. exact C.
      * eapply Forall_impl; [|exact Hy]. intros z Hz.
        unfold byStart in *; simpl in *. rewrite Ex. rewrite Ey in Hz.
        destruct (startDateTime z); [lia | contradiction].
Qed.

Lemma sortByStart_sorted (l : list Booking) :
  Forall (fun b => isSome (startDateTime b) = true) l ->
  StronglySorted (fun a b => byStart (calendarEvent a) (calendarEvent b))
                 (sortByStart l).
Proof.
  induction 1 as [|x l Hx Hl IH]; simpl; [constructor|].
  apply insertByStart_sorted; [exact Hx| |exact IH].
  apply (Permutation_Forall (Permutation_sym (sortByStart_perm l))). exact Hl.
Qed.

Lemma StronglySorted_map {A B : Type} (f : A -> B) (R : B -> B -> Prop)
  (l : list A) :
  StronglySorted (fun a b => R (f a) (f b)) l -> StronglySorted R (map f l).
Proof.
  induction 1 as [|x l Hs IH Hx]; simpl; constructor; [exact IH|].
  apply Forall_map. exact Hx.
Qed.

Lemma calendarQuery_spec (uid s e : Z) (b : Booking) :
  calendarQuery uid s e b = true <->
  userId b = uid /\ status b <> "cancelled"
  /\ exists t, startDateTime b = Some t /\ s <= t <= e.
Proof.
  unfold calendarQuery, qGte, qLte, inList. simpl.
  rewrite !andb_true_iff, negb_true_iff, orb_false_r, Z.eqb_eq.
  rewrite <- not_true_iff_false, String.eqb_eq.
  destruct (startDateTime b) as [t|].
  - rewrite Z.leb_le, Z.leb_le. split.
    + intros [[[A B] C] D]. repeat split; try assumption. exists t. auto.
    + intros [A [D [t' [E [B C]]]]]. inversion E; subst. auto.
  - split.
    + intros [[[_ B] _] _]. discriminate.
    + intros [_ [_ [t [E _]]]]. discriminate.
Qed.

(** X14: [GET /calendar/view] answers with one event for every booking of
    the provider that is not cancelled and starts inside the range, the ends
    included, and with no other; the events come in ascending order of
    start and [count] is their number. *)
Theorem calendarView_range_in_order (db : list Booking) (uid s e : Z) :
  exists events,
    calendarView db uid (Some s) (Some e)
    = CalendarOk events (Z.of_nat (List.length events))
    /\ Permutation events
         (map calendarEvent (filter (calendarQuery uid s e) db))
    /\ StronglySorted byStart events
    /\ forall ev,
         In ev events <->
         exists b, In b db /\ ev = calendarEvent b /\ userId b = uid
                   /\ status b <> "cancelled"
                   /\ exists t, startDateTime b = Some t /\ s <= t <= e.
Proof.
  eexists. split; [reflexivity|]. split; [|split].
  - apply Permutation_map, sortByStart_perm.
  - apply StronglySorted_map, sortByStart_sorted.
    apply Forall_forall. intros b Hb. apply filter_In in Hb.
    destruct Hb as [_ Hq]. apply calendarQuery_spec in Hq.
    destruct Hq as [_ [_ [t [E _]]]]. rewrite E. reflexivity.
  - intro ev. rewrite in_map_iff. split.
    + intros [b [E Hb]].
      apply (Permutation_in _ (sortByStart_perm _)) in Hb.
      apply filter_In in Hb. destruct Hb as [Hb Hq].
      apply calendarQuery_spec in Hq. exists b. intuition.
    + intros [b [Hb [E Hq]]]. exists b. split; [symmetry; exact E|].
      apply (Permutation_in _ (Permutation_sym (sortByStart_perm _))).
      apply filter_In. split; [exact Hb|]. apply calendarQuery_spec. exact Hq.
Qed.

(* ================================================================== *)
(** * Deletion, unique ids and the providers' separation *)
(* ================================================================== *)

Lemma findOneAndDelete_fst (q : Booking -> bool) (db : list Booking) :
  fst (findOneAndDelete q db) = find q db.
Proof.
  induction db as [|b db IH]; simpl; [reflexivity|].
  destruct (q b); [reflexivity|].
  destruct (findOneAndDelete q db). exact IH.
Qed.

Lemma findOneAndDelete_none (q : Booking -> bool) (db : list Booking) :
  find q db = None -> snd (findOneAndDelete q db) = db.
Proof.
  induction db as [|b db IH]; simpl; [reflexivity|].
  destruct (q b); [discriminate|]. intro H.
  destruct (findOneAndDelete q db). simpl in *. rewrite IH by exact H.
  reflexivity.
Qed.

Lemma findOneAndDelete_split (q : Booking -> bool) (db : list Booking)
  (b : Booking) :
  find q db = Some b ->
  exists l1 l2, db = (l1 ++ b :: l2)%list
                /\ snd (findOneAndDelete q db) = (l1 ++ l2)%list
                /\ q b = true.
Proof.
  induction db as [|x db IH]; simpl; [discriminate|].
  destruct (q x) eqn:Q.
  - intro H. inversion H; subst. exists [], db. auto.
  - intro H. destruct (IH H) as [l1 [l2 [E [S Qb]]]].
    exists (x :: l1), l2. destruct (findOneAndDelete q db).
    simpl in *. subst. auto.
Qed.

(** X15: [DELETE /:id] removes the caller's booking with that id and
    nothing else; for an id that is not the caller's it answers "not found"
    and leaves the store as it is. *)
Theorem deleteBooking_removes_exactly (st : Store) (uid id : Z) :
  NoDup (map _id (bookings st)) ->
  (forall b, findOwned (bookings st) id uid = Some b ->
     exists st',
       deleteBooking st uid id = (Deleted, st')
       /\ (forall x, In x (bookings st') <-> In x (bookings st) /\ _id x <> id)
       /\ S (List.length (bookings st')) = List.length (bookings st)
       /\ customers st' = customers st /\ users st' = users st
       /\ services st' = services st)
  /\ (findOwned (bookings st) id uid = None ->
      deleteBooking st uid id = (DeleteNotFound "Booking not found", st)).
Proof.
  intro Hnd. unfold deleteBooking, findOwned.
  set (q := fun b => (_id b =? id) && (userId b =? uid)).
  assert (Hf := findOneAndDelete_fst q (bookings st)).
  split.
  - intros b Hb.
    destruct (findOneAndDelete_split q (bookings st) b Hb)
      as [l1 [l2 [E [S Qb]]]].
    destruct (findOneAndDelete q (bookings st)) as [found rest].
    simpl in Hf, S. rewrite Hf, Hb. subst rest.
    eexists. split; [reflexivity|]. simpl.
    unfold q in Qb. apply andb_true_iff in Qb. destruct Qb as [Qi _].
    apply Z.eqb_eq in Qi.
    rewrite E in Hnd |- *. rewrite map_app in Hnd. simpl in Hnd.
    apply NoDup_remove in Hnd. destruct Hnd as [_ Hnot].
    rewrite <- map_app in Hnot.
    split; [|split; [|repeat split]].
    + intro x. split.
      * intro Hx. apply in_app_or in Hx. split.
        -- apply in_or_app. simpl. tauto.
        -- intro Ex. apply Hnot. rewrite Qi, <- Ex. apply in_map.
           apply in_or_app. exact Hx.
      * intros [Hx Hne]. apply in_app_or in Hx. apply in_or_app.
        destruct Hx as [Hx|[Hx|Hx]]; [left; exact Hx | | right; exact Hx].
        subst x. contradiction.
    + rewrite !length_app. simpl. lia.
  - intro Hn.
    assert (Hs := findOneAndDelete_none q (bookings st) Hn).
    destruct (findOneAndDelete q (bookings st)) as [found rest].
    simpl in Hf. rewrite Hf, Hn. reflexivity.
Qed.

Lemma deleteBooking_removes_exactly_witness :
  (forall b, findOwned (bookings (Sample.storeWith Sample.twoApart)) 2 1
             = Some b ->
     exists st',
       deleteBooking (Sample.storeWith Sample.twoApart) 1 2 = (Deleted, st')
       /\ (forall x, In x (bookings st')
                     <-> In x (bookings (Sample.storeWith Sample.twoApart))
                         /\ _id x <> 2)
       /\ S (List.length (bookings st'))
          = List.length (bookings (Sample.storeWith Sample.twoApart))
       /\ customers st' = customers (Sample.storeWith Sample.twoApart)
       /\ users st' = users (Sample.storeWith Sample.twoApart)
       /\ services st' = services (Sample.storeWith Sample.twoApart))
  /\ (findOwned (bookings (Sample.storeWith Sample.twoApart)) 2 1 = None ->
      deleteBooking (Sample.storeWith Sample.twoApart) 1 2
      = (DeleteNotFound "Booking not found", Sample.storeWith Sample.twoApart)).
Proof.
  apply (deleteBooking_removes_exactly (Sample.storeWith Sample.twoApart) 1 2).
  simpl. repeat constructor; simpl; intuition discriminate.
Defined.

Lemma persist_key (stored : Booking) (d : Doc) :
  _id (persist stored d) = _id stored
  /\ userId (persist stored d) = userId stored.
Proof.
  unfold persist. induction (modified d) as [|p l IH]; simpl; [auto|].
  destruct p; simpl; exact IH.
Qed.

Lemma write_new (db : list Booking) (d : Doc) :
  isNew d = true -> write db d = (db ++ [fields d])%list.
Proof. intro H. unfold write. rewrite H. reflexivity. Qed.

Lemma write_ids (db : list Booking) (d : Doc) :
  isNew d = false -> map _id (write db d) = map _id db.
Proof.
  intro H. unfold write. rewrite H. rewrite map_map. apply map_ext.
  intro b. destruct (_id b =? _id (fields d)); [|reflexivity].
  apply persist_key.
Qed.

Lemma write_others (db : list Booking) (d : Doc) (uid : Z) (stored : Booking) :
  NoDup (map _id db) -> In stored db -> _id (fields d) = _id stored ->
  userId stored = uid -> isNew d = false ->
  othersOf uid (write db d) = othersOf uid db.
Proof.
  intros Hnd Hin Hid Hu Hn. unfold write. rewrite Hn. unfold othersOf.
  assert (Hall : forall b, In b db ->
            negb (userId (if _id b =? _id (fields d) then persist b d else b)
                  =? uid) = negb (userId b =? uid)
            /\ (negb (userId b =? uid) = true ->
                (if _id b =? _id (fields d) then persist b d else b) = b)).
  { intros b Hb. destruct (_id b =? _id (fields d)) eqn:E; [|auto].
    apply Z.eqb_eq in E. rewrite Hid in E.
    assert (b = stored) by (apply (NoDup_ids_eq db); assumption). subst b.
    rewrite (proj2 (persist_key stored d)), Hu, Z.eqb_refl. simpl.
    split; [reflexivity | discriminate]. }
  clear Hnd Hin. induction db as [|b db IH]; [reflexivity|].
  cbn [map filter].
  destruct (Hall b (or_introl eq_refl)) as [H1 H2]. rewrite H1.
  rewrite IH by (intros x Hx; apply Hall; right; exact Hx).
  destruct (negb (userId b =? uid)) eqn:E; [|reflexivity].
  rewrite (H2 eq_refl). reflexivity.
Qed.

Lemma recomputeInterval_key (d d' : Doc) :
  recomputeInterval d = Some d' ->
  _id (fields d') = _id (fields d) /\ userId (fields d') = userId (fields d).
Proof.
  unfold recomputeInterval.
  destruct (isModified pDate d || isModified pTime d || isModified pDuration d).
  - destruct (splitHM (time (fields d))) as [[h m]|]; [|discriminate].
    intro H. inversion H. split; reflexivity.
  - intro H. inversion H. split; reflexivity.
Qed.

Lemma preSave_key (db : list Booking) (d d' : Doc) :
  preSave db d = Some d' ->
  _id (fields d') = _id (fields d) /\ userId (fields d') = userId (fields d)
  /\ isNew d' = isNew d.
Proof.
  unfold preSave. destruct (recomputeInterval d) as [d1|] eqn:E; [|discriminate].
  simpl. intro H. inversion H.
  destruct (recomputeInterval_key d d1 E) as [K1 K2].
  apply recomputeInterval_isNew in E.
  destruct (recordConflicts_fields db d1) as [N [h [c F]]].
  rewrite N, F. simpl. rewrite K1, K2, E. auto.
Qed.

Lemma save_Saved (ord : MiddlewareOrder) (db db' : list Booking) (d : Doc)
  (b : Booking) :
  save ord db d = Saved db' b ->
  exists d', preSave db d = Some d' /\ db' = write db d' /\ b = fields d'
             /\ validate (match ord with
                          | ValidateThenHook => fields d
                          | HookThenValidate => fields d'
                          end) = [].
Proof.
  unfold save, commit. destruct ord.
  - destruct (validate (fields d)) eqn:V; [|discriminate].
    destruct (preSave db d) as [d'|]; [|discriminate].
    intro H. inversion H. exists d'. auto.
  - destruct (preSave db d) as [d'|]; [|discriminate].
    destruct (validate (fields d')) eqn:V; [|discriminate].
    intro H. inversion H. exists d'. auto.
Qed.

Lemma freshId_above (ids : list Z) (x : Z) : In x ids -> x < freshId ids.
Proof.
  unfold freshId. induction ids as [|y ids IH]; [contradiction|].
  cbn [fold_right In]. intros [->|H]; [lia|]. specialize (IH H). lia.
Qed.

Lemma freshId_notin (ids : list Z) : ~ In (freshId ids) ids.
Proof. intro H. apply freshId_above in H. lia. Qed.

Lemma othersOf_app_own (uid : Z) (db : list Booking) (b : Booking) :
  userId b = uid -> othersOf uid (db ++ [b]) = othersOf uid db.
Proof.
  intro H. unfold othersOf. rewrite filter_app. simpl.
  rewrite H, Z.eqb_refl. simpl. apply app_nil_r.
Qed.

(** What a save changes of the collection: a new document is appended, an
    existing one keeps the ids in place and the other providers' bookings
    as they are. *)
Lemma save_new_appends (ord : MiddlewareOrder) (db db' : list Booking)
  (d : Doc) (b : Booking) :
  isNew d = true -> save ord db d = Saved db' b ->
  db' = (db ++ [b])%list /\ _id b = _id (fields d)
  /\ userId b = userId (fields d).
Proof.
  intros Hn Hs. apply save_Saved in Hs.
  destruct Hs as [d' [Hp [-> [-> _]]]].
  destruct (preSave_key db d d' Hp) as [K1 [K2 K3]].
  rewrite write_new by congruence. auto.
Qed.

Lemma save_existing_keeps (ord : MiddlewareOrder) (db db' : list Booking)
  (d : Doc) (b stored : Booking) :
  NoDup (map _id db) -> In stored db -> _id (fields d) = _id stored ->
  isNew d = false -> save ord db d = Saved db' b ->
  map _id db' = map _id db
  /\ othersOf (userId stored) db' = othersOf (userId stored) db.
Proof.
  intros Hnd Hin Hid Hn Hs. apply save_Saved in Hs.
  destruct Hs as [d' [Hp [-> [-> _]]]].
  destruct (preSave_key db d d' Hp) as [K1 [K2 K3]].
  split.
  - apply write_ids. congruence.
  - apply (write_others db d' (userId stored) stored); congruence.
Qed.

(** The document [PUT /:id] hands to [save]. *)
Lemma updateBooking_cases (ord : MiddlewareOrder) (st : Store) (uid id : Z)
  (rq : UpdateRequest) (stored : Booking) :
  findOwned (bookings st) id uid = Some stored ->
  snd (updateBooking ord st uid id rq) = st
  \/ exists d db' b,
       _id (fields d) = _id stored /\ isNew d = false
       /\ save ord (bookings st) d = Saved db' b
       /\ snd (updateBooking ord st uid id rq) = with_bookings db' st.
Proof.
  intro Hf. unfold updateBooking. rewrite Hf. cbv zeta.
  match goal with
  | |- context [match ?c with [] => _ | _ :: _ => _ end] => destruct c
  end; [|left; reflexivity].
  match goal with
  | |- context [save ?o ?db ?d] =>
      assert (K : _id (fields d) = _id stored /\ isNew d = false);
      [|destruct (save o db d) as [db' b|] eqn:S]
  end.
  - unfold whenSet.
    repeat match goal with
           | |- context [match ?x with _ => _ end] => destruct x
           end; split; reflexivity.
  - right. destruct K. eauto 8.
  - left. reflexivity.
Qed.

Lemma deleteBooking_cases (st : Store) (uid id : Z) :
  snd (deleteBooking st uid id) = st
  \/ exists l1 b l2,
       bookings st = (l1 ++ b :: l2)%list
       /\ bookings (snd (deleteBooking st uid id)) = (l1 ++ l2)%list
       /\ _id b = id /\ userId b = uid.
Proof.
  unfold deleteBooking.
  set (q := fun b => (_id b =? id) && (userId b =? uid)).
  assert (Hf := findOneAndDelete_fst q (bookings st)).
  destruct (find q (bookings st)) as [b|] eqn:F.
  - destruct (findOneAndDelete_split q (bookings st) b F)
      as [l1 [l2 [E [S Qb]]]].
    destruct (findOneAndDelete q (bookings st)) as [found rest].
    simpl in Hf, S. rewrite Hf. subst rest. right.
    unfold q in Qb. apply andb_true_iff in Qb. destruct Qb as [Qi Qu].
    apply Z.eqb_eq in Qi. apply Z.eqb_eq in Qu.
    exists l1, b, l2. auto.
  - destruct (findOneAndDelete q (bookings st)) as [found rest].
    simpl in Hf. rewrite Hf. left. reflexivity.
Qed.

(** X16: unique ids are an invariant of the store: every route that writes
    bookings leaves the ids distinct when they were. *)
Theorem routes_keep_ids_unique (ord : MiddlewareOrder) (now : Z) (st : Store)
  (uid id : Z) (urq : UpdateRequest) (newStart : Z) (reason : option string)
  (crq : CreateRequest) (prq : PublicRequest) :
  NoDup (map _id (bookings st)) ->
  NoDup (map _id (bookings (snd (createBooking ord now st uid crq))))
  /\ NoDup (map _id (bookings (snd (createPublicBooking ord now st prq))))
  /\ NoDup (map _id (bookings (snd (updateBooking ord st uid id urq))))
  /\ NoDup (map _id (bookings
                       (snd (rescheduleBooking ord now st uid id newStart
                               reason))))
  /\ NoDup (map _id (bookings (snd (deleteBooking st uid id)))).
Proof.
  intro Hnd.
  assert (Hnew : forall d db' b,
            _id (fields d) = freshId (map _id (bookings st)) ->
            isNew d = true ->
            save ord (bookings st) d = Saved db' b -> NoDup (map _id db')).
  { intros d db' b Hid Hn Hs.
    destruct (save_new_appends ord _ _ d b Hn Hs) as [-> [Hb _]].
    rewrite map_app. simpl.
    apply NoDup_app_remove_l with (l := []). simpl.
    apply (Permutation_NoDup (l := _id b :: map _id (bookings st))).
    - apply Permutation_cons_append.
    - constructor; [|exact Hnd]. rewrite Hb, Hid. apply freshId_notin. }
  repeat split.
  - unfold createBooking.
    destruct (find _ (customers st)); [|exact Hnd].
    destruct (find _ (services st)); [|exact Hnd].
    rewrite checkConflicts_newBooking.
    destruct (save ord (bookings st) _) as [db' b|] eqn:S; [|exact Hnd].
    simpl. eapply Hnew; [| |exact S]; reflexivity.
  - unfold createPublicBooking.
    destruct (findUser _ _); [|exact Hnd].
    destruct (find _ (services st)); [|exact Hnd].
    destruct (slotTaken _ _ _ _); [exact Hnd|].
    destruct (ci_email _); [|exact Hnd].
    destruct (findOrCreateCustomer _ _ _ _) as [[cid cs]|]; [|exact Hnd].
    destruct (save ord (bookings st) _) as [db' b|] eqn:S; [|exact Hnd].
    simpl. eapply Hnew; [| |exact S]; reflexivity.
  - destruct (findOwned (bookings st) id uid) as [stored|] eqn:Hf.
    + destruct (updateBooking_cases ord st uid id urq stored Hf)
        as [->|[d [db' [b [K1 [K2 [S ->]]]]]]]; [exact Hnd|].
      apply findOwned_Some in Hf. destruct Hf as [Hin _].
      destruct (save_existing_keeps ord _ _ d b stored Hnd Hin K1 K2 S)
        as [E _].
      simpl. rewrite E. exact Hnd.
    + unfold updateBooking. rewrite Hf. exact Hnd.
  - unfold rescheduleBooking, reschedule.
    destruct (findOwned (bookings st) id uid) as [stored|] eqn:Hf;
      [|exact Hnd].
    destruct (save ord (bookings st) _) as [db' b|] eqn:S; [|exact Hnd].
    apply findOwned_Some in Hf. destruct Hf as [Hin _].
    apply (save_existing_keeps ord _ _ _ b stored Hnd Hin) in S.
    + simpl. rewrite (proj1 S). exact Hnd.
    + rewrite rescheduleFields_fields. reflexivity.
    + apply rescheduleFields_isNew.
  - destruct (deleteBooking_cases st uid id)
      as [->|[l1 [b [l2 [E1 [E2 _]]]]]]; [exact Hnd|].
    rewrite E2. rewrite E1 in Hnd. rewrite map_app in *. simpl in Hnd.
    apply NoDup_remove_1 in Hnd. exact Hnd.
Qed.

Lemma routes_keep_ids_unique_witness :
  NoDup (map _id (bookings
                    (snd (createBooking HookThenValidate 0
                            (Sample.storeWith Sample.oneMorning) 1
                            Sample.deskRequest))))
  /\ NoDup (map _id (bookings
                       (snd (createPublicBooking HookThenValidate 0
                               (Sample.storeWith Sample.oneMorning)
                               Sample.walkIn))))
  /\ NoDup (map _id (bookings
                       (snd (updateBooking HookThenValidate
                               (Sample.storeWith Sample.oneMorning) 1 1
                               Sample.toThreeOClock))))
  /\ NoDup (map _id (bookings
                       (snd (rescheduleBooking HookThenValidate 0
                               (Sample.storeWith Sample.oneMorning) 1 1
                               (at_ Sample.day 15 0) None))))
  /\ NoDup (map _id (bookings
                       (snd (deleteBooking
                               (Sample.storeWith Sample.oneMorning) 1 1)))).
Proof.
  apply (routes_keep_ids_unique HookThenValidate 0
           (Sample.storeWith Sample.oneMorning) 1 1 Sample.toThreeOClock
           (at_ Sample.day 15 0) None Sample.deskRequest Sample.walkIn).
  simpl. repeat constructor; simpl; intuition discriminate.
Defined.

(** X17: no route that writes bookings on behalf of one provider touches a
    booking of another provider: creation, update, rescheduling and
    deletion leave the other providers' bookings as they are and in
    place. *)
Theorem routes_leave_other_providers (ord : MiddlewareOrder) (now : Z)
  (st : Store) (uid id : Z) (urq : UpdateRequest) (newStart : Z)
  (reason : option string) (crq : CreateRequest) (prq : PublicRequest) :
  NoDup (map _id (bookings st)) ->
  othersOf uid (bookings (snd (createBooking ord now st uid crq)))
  = othersOf uid (bookings st)
  /\ othersOf (pr_businessId prq)
       (bookings (snd (createPublicBooking ord now st prq)))
     = othersOf (pr_businessId prq) (bookings st)
  /\ othersOf uid (bookings (snd (updateBooking ord st uid id urq)))
     = othersOf uid (bookings st)
  /\ othersOf uid
       (bookings (snd (rescheduleBooking ord now st uid id newStart reason)))
     = othersOf uid (bookings st)
  /\ othersOf uid (bookings (snd (deleteBooking st uid id)))
     = othersOf uid (bookings st).
Proof.
  intro Hnd.
  assert (Hnew : forall u d db' b,
            userId (fields d) = u -> isNew d = true ->
            save ord (bookings st) d = Saved db' b ->
            othersOf u db' = othersOf u (bookings st)).
  { intros u d db' b Hu Hn Hs.
    destruct (save_new_appends ord _ _ d b Hn Hs) as [-> [_ Hb]].
    apply othersOf_app_own. congruence. }
  repeat split.
  - unfold createBooking.
    destruct (find _ (customers st)); [|reflexivity].
    destruct (find _ (services st)); [|reflexivity].
    rewrite checkConflicts_newBooking.
    destruct (save ord (bookings st) _) as [db' b|] eqn:S; [|reflexivity].
    simpl. eapply Hnew; [| |exact S]; reflexivity.
  - unfold createPublicBooking.
    destruct (findUser _ _); [|reflexivity].
    destruct (find _ (services st)); [|reflexivity].
    destruct (slotTaken _ _ _ _); [reflexivity|].
    destruct (ci_email _); [|reflexivity].
    destruct (findOrCreateCustomer _ _ _ _) as [[cid cs]|]; [|reflexivity].
    destruct (save ord (bookings st) _) as [db' b|] eqn:S; [|reflexivity].
    simpl. eapply Hnew; [| |exact S]; reflexivity.
  - destruct (findOwned (bookings st) id uid) as [stored|] eqn:Hf.
    + destruct (updateBooking_cases ord st uid id urq stored Hf)
        as [->|[d [db' [b [K1 [K2 [S ->]]]]]]]; [reflexivity|].
      apply findOwned_Some in Hf. destruct Hf as [Hin [_ Hu]].
      destruct (save_existing_keeps ord _ _ d b stored Hnd Hin K1 K2 S)
        as [_ E].
      simpl. rewrite <- Hu. exact E.
    + unfold updateBooking. rewrite Hf. reflexivity.
  - unfold rescheduleBooking, reschedule.
    destruct (findOwned (bookings st) id uid) as [stored|] eqn:Hf;
      [|reflexivity].
    destruct (save ord (bookings st) _) as [db' b|] eqn:S; [|reflexivity].
    apply findOwned_Some in Hf. destruct Hf as [Hin [_ Hu]].
    apply (save_existing_keeps ord _ _ _ b stored Hnd Hin) in S.
    + simpl. rewrite <- Hu. exact (proj2 S).
    + rewrite rescheduleFields_fields. reflexivity.
    + apply rescheduleFields_isNew.
  - destruct (deleteBooking_cases st uid id)
      as [->|[l1 [b [l2 [E1 [E2 [_ Hu]]]]]]]; [reflexivity|].
    rewrite E2, E1. unfold othersOf. rewrite !filter_app. simpl.
    rewrite Hu, Z.eqb_refl. reflexivity.
Qed.

Lemma routes_leave_other_providers_witness :
  othersOf 1 (bookings (snd (createBooking HookThenValidate 0
                               (Sample.storeWith Sample.twoProviders) 1
                               Sample.deskRequest)))
  = othersOf 1 (bookings (Sample.storeWith Sample.twoProviders))
  /\ othersOf (pr_businessId Sample.walkIn)
       (bookings (snd (createPublicBooking HookThenValidate 0
                         (Sample.storeWith Sample.twoProviders)
                         Sample.walkIn)))
     = othersOf (pr_businessId Sample.walkIn)
         (bookings (Sample.storeWith Sample.twoProviders))
  /\ othersOf 1 (bookings (snd (updateBooking HookThenValidate
                                  (Sample.storeWith Sample.twoProviders) 1 7
                                  Sample.toThreeOClock)))
     = othersOf 1 (bookings (Sample.storeWith Sample.twoProviders))
  /\ othersOf 1
       (bookings (snd (rescheduleBooking HookThenValidate 0
                         (Sample.storeWith Sample.twoProviders) 1 7
                         (at_ Sample.day 15 0) None)))
     = othersOf 1 (bookings (Sample.storeWith Sample.twoProviders))
  /\ othersOf 1 (bookings (snd (deleteBooking
                                  (Sample.storeWith Sample.twoProviders) 1 7)))
     = othersOf 1 (bookings (Sample.storeWith Sample.twoProviders)).
Proof.
  apply (routes_leave_other_providers HookThenValidate 0
           (Sample.storeWith Sample.twoProviders) 1 7 Sample.toThreeOClock
           (at_ Sample.day 15 0) None Sample.deskRequest Sample.walkIn).
  simpl. repeat constructor; simpl; intuition discriminate.
Defined.

(* ================================================================== *)
(** * Customers under the creation routes *)
(* ================================================================== *)

Lemma NoDup_cids_eq (cs : list Customer) (x y : Customer) :
  NoDup (map c_id cs) -> In x cs -> In y cs -> c_id x = c_id y -> x = y.
Proof.
  induction cs as [|c cs IH]; [contradiction|].
  simpl. intros Hnd Hx Hy E. inversion Hnd as [|? ? Hnot Hnd']; subst.
  destruct Hx as [->|Hx], Hy as [->|Hy]; auto.
  - exfalso. apply Hnot. rewrite E. apply in_map. exact Hy.
  - exfalso. apply Hnot. rewrite <- E. apply in_map. exact Hx.
Qed.

Lemma replace_customer (cs : list Customer) (uid : Z) (old new : Customer) :
  NoDup (map c_id cs) -> In old cs -> c_id new = c_id old ->
  c_userId old = uid -> c_userId new = uid ->
  map c_id (map (fun x => if c_id x =? c_id old then new else x) cs)
  = map c_id cs
  /\ otherCustomers uid
       (map (fun x => if c_id x =? c_id old then new else x) cs)
     = otherCustomers uid cs.
Proof.
  intros Hnd Hin Hid Ho Hn.
  assert (Hall : forall x, In x cs -> c_id x = c_id old -> x = old)
    by (intros x Hx E; apply (NoDup_cids_eq cs); assumption).
  clear Hnd Hin. unfold otherCustomers.
  induction cs as [|c cs IH]; [split; reflexivity|].
  destruct IH as [IH1 IH2]; [intros x Hx; apply Hall; right; exact Hx|].
  cbn [map filter]. rewrite IH1, IH2.
  destruct (c_id c =? c_id old) eqn:E.
  - apply Z.eqb_eq in E.
    assert (c = old) by (apply Hall; [left; reflexivity | exact E]). subst c.
    rewrite Hid, Hn, Ho, Z.eqb_refl. split; reflexivity.
  - split; reflexivity.
Qed.

Lemma bumpCustomer_keeps (now id uid : Z) (cs : list Customer) (c : Customer) :
  NoDup (map c_id cs) -> In c cs -> c_id c = id -> c_userId c = uid ->
  map c_id (bumpCustomer now id cs) = map c_id cs
  /\ otherCustomers uid (bumpCustomer now id cs) = otherCustomers uid cs.
Proof.
  intros Hnd Hin Hid Hu. unfold bumpCustomer.
  set (c' := mkCustomer (c_id c) (c_userId c) (c_name c) (c_email c)
               (c_phone c) (c_address c) (c_notes c) (totalBookings c + 1)
               (Some now)).
  assert (E : map (fun x => if c_id x =? id
                            then mkCustomer (c_id x) (c_userId x) (c_name x)
                                   (c_email x) (c_phone x) (c_address x)
                                   (c_notes x) (totalBookings x + 1)
                                   (Some now)
                            else x) cs
              = map (fun x => if c_id x =? c_id c then c' else x) cs).
  { apply map_ext_in. intros x Hx. rewrite Hid.
    destruct (c_id x =? id) eqn:Ex; [|reflexivity].
    apply Z.eqb_eq in Ex.
    assert (x = c) by (apply (NoDup_cids_eq cs); auto; congruence).
    subst x. reflexivity. }
  rewrite E. apply replace_customer; auto.
Qed.

Lemma otherCustomers_app_own (uid : Z) (cs : list Customer) (c : Customer) :
  c_userId c = uid -> otherCustomers uid (cs ++ [c]) = otherCustomers uid cs.
Proof.
  intro H. unfold otherCustomers. rewrite filter_app. simpl.
  rewrite H, Z.eqb_refl. simpl. apply app_nil_r.
Qed.

Lemma findOrCreateCustomer_keeps (cs cs' : list Customer) (uid cid : Z)
  (email : string) (info : CustomerInfo) :
  NoDup (map c_id cs) ->
  findOrCreateCustomer cs uid email info = inl (cid, cs') ->
  NoDup (map c_id cs')
  /\ otherCustomers uid cs' = otherCustomers uid cs
  /\ exists c, In c cs' /\ c_id c = cid /\ c_userId c = uid.
Proof.
  intros Hnd. unfold findOrCreateCustomer.
  destruct (find _ cs) as [customer|] eqn:F.
  - apply find_some in F. destruct F as [Hin Hq].
    apply andb_true_iff in Hq. destruct Hq as [Hu _]. apply Z.eqb_eq in Hu.
    destruct (validateCustomer _); [|discriminate].
    intro H. inversion H; subst cid cs'. clear H.
    cbn [c_id castCustomer].
    match goal with
    | |- context [map (fun x => if _ then ?n else x) cs] => set (new := n)
    end.
    destruct (replace_customer cs uid customer new Hnd Hin eq_refl Hu eq_refl)
      as [E1 E2].
    rewrite E1, E2. repeat split; try assumption.
    exists new. repeat split.
    apply in_map_iff. exists customer. rewrite Z.eqb_refl. auto.
  - destruct (validateCustomer _); [|discriminate].
    intro H. inversion H; subst cid cs'. clear H.
    cbn [c_id c_userId castCustomer]. repeat split.
    + rewrite map_app. simpl.
      apply (Permutation_NoDup (l := freshId (map c_id cs) :: map c_id cs)).
      * apply Permutation_cons_append.
      * constructor; [apply freshId_notin | exact Hnd].
    + apply otherCustomers_app_own. reflexivity.
    + eexists. split; [apply in_or_app; right; left; reflexivity|].
      split; reflexivity.
Qed.

(** X18: customers under the two creation routes, in a store whose
    customers have distinct ids: whatever the answer, the customers of
    every other provider are left as they are and in place, and the ids
    stay distinct. The public route adds at most one customer. *)
Theorem creation_keeps_customers_apart (ord : MiddlewareOrder) (now : Z)
  (st : Store) (uid : Z) (crq : CreateRequest) (prq : PublicRequest) :
  NoDup (map c_id (customers st)) ->
  (otherCustomers uid (customers (snd (createBooking ord now st uid crq)))
   = otherCustomers uid (customers st)
   /\ map c_id (customers (snd (createBooking ord now st uid crq)))
      = map c_id (customers st))
  /\ (otherCustomers (pr_businessId prq)
        (customers (snd (createPublicBooking ord now st prq)))
      = otherCustomers (pr_businessId prq) (customers st)
      /\ NoDup (map c_id (customers (snd (createPublicBooking ord now st prq))))
      /\ (List.length (customers (snd (createPublicBooking ord now st prq)))
          <= S (List.length (customers st)))%nat).
Proof.
  intro Hnd. split.
  - unfold createBooking.
    destruct (find _ (customers st)) as [c|] eqn:F; [|split; reflexivity].
    destruct (find _ (services st)); [|split; reflexivity].
    rewrite checkConflicts_newBooking.
    destruct (save ord (bookings st) _); [|split; reflexivity].
    cbn [snd customers with_customers with_bookings].
    apply find_some in F. destruct F as [Hin Hq].
    apply andb_true_iff in Hq. destruct Hq as [Hi Hu].
    apply Z.eqb_eq in Hi. apply Z.eqb_eq in Hu.
    destruct (bumpCustomer_keeps now (rq_customerId crq) uid (customers st) c
                Hnd Hin Hi Hu) as [E1 E2].
    rewrite E1, E2. split; reflexivity.
  - unfold createPublicBooking.
    destruct (findUser _ _); [|repeat split; auto].
    destruct (find _ (services st)); [|repeat split; auto].
    destruct (slotTaken _ _ _ _); [repeat split; auto|].
    destruct (ci_email _) as [email|]; [|repeat split; auto].
    destruct (findOrCreateCustomer _ _ _ _) as [[cid cs]|] eqn:F;
      [|repeat split; auto].
    assert (Hlen : (List.length cs <= S (List.length (customers st)))%nat).
    { unfold findOrCreateCustomer in F.
      destruct (find _ (customers st)); destruct (validateCustomer _);
        try discriminate; inversion F; subst.
      - rewrite length_map. auto.
      - rewrite length_app. simpl. lia. }
    destruct (findOrCreateCustomer_keeps _ _ _ _ _ _ Hnd F)
      as [Hnd' [Ho [c [Hin [Hi Hu]]]]].
    destruct (save ord (bookings st) _);
      cbn [snd customers with_customers with_bookings].
    + destruct (bumpCustomer_keeps now cid (pr_businessId prq) cs c
                  Hnd' Hin Hi Hu) as [E1 E2].
      rewrite E1, E2. repeat split; try assumption.
      unfold bumpCustomer. rewrite length_map. exact Hlen.
    + repeat split; assumption.
Qed.

Lemma creation_keeps_customers_apart_witness :
  (otherCustomers 1
     (customers (snd (createBooking HookThenValidate 0
                        (Sample.storeWith Sample.oneMorning) 1
                        Sample.deskRequest)))
   = otherCustomers 1 (customers (Sample.storeWith Sample.oneMorning))
   /\ map c_id (customers (snd (createBooking HookThenValidate 0
                                  (Sample.storeWith Sample.oneMorning) 1
                                  Sample.deskRequest)))
      = map c_id (customers (Sample.storeWith Sample.oneMorning)))
  /\ (otherCustomers (pr_businessId Sample.walkIn)
        (customers (snd (createPublicBooking HookThenValidate 0
                           (Sample.storeWith Sample.oneMorning)
                           Sample.walkIn)))
      = otherCustomers (pr_businessId Sample.walkIn)
          (customers (Sample.storeWith Sample.oneMorning))
      /\ NoDup (map c_id (customers
                            (snd (createPublicBooking HookThenValidate 0
                                    (Sample.storeWith Sample.oneMorning)
                                    Sample.walkIn))))
      /\ (List.length (customers
                         (snd (createPublicBooking HookThenValidate 0
                                 (Sample.storeWith Sample.oneMorning)
                                 Sample.walkIn)))
          <= S (List.length (customers (Sample.storeWith Sample.oneMorning))))%nat).
Proof.
  apply (creation_keeps_customers_apart HookThenValidate 0
           (Sample.storeWith Sample.oneMorning) 1 Sample.deskRequest
           Sample.walkIn).
  simpl. repeat constructor; simpl; intuition discriminate.
Defined.

(* ================================================================== *)
(** * Public availability *)
(* ================================================================== *)

Lemma bookedTimes_slotTaken (db : list Booking) (uid d : Z) (t : string) :
  In t (map time
          (filter (fun b => (userId b =? uid) && (date b =? d)
                            && negb (inList (status b)
                                       ["cancelled"; "completed"])) db))
  <-> slotTaken db uid d t <> None.
Proof.
  unfold slotTaken. rewrite in_map_iff. split.
  - intros [b [E Hb]]. apply filter_In in Hb. destruct Hb as [Hb Hq].
    intro Hn. apply (find_none _ _ Hn) in Hb.
    apply andb_true_iff in Hq. destruct Hq as [Hq1 Hq2].
    apply andb_true_iff in Hq1. destruct Hq1 as [Hu Hd].
    rewrite Hu, Hd, Hq2, E, String.eqb_refl in Hb. discriminate.
  - destruct (find _ db) as [b|] eqn:F; [|intro H; contradiction H; reflexivity].
    intros _. apply find_some in F. destruct F as [Hb Hq].
    apply andb_true_iff in Hq. destruct Hq as [Hq1 Hq2].
    apply andb_true_iff in Hq1. destruct Hq1 as [Hq1 Ht].
    apply String.eqb_eq in Ht.
    exists b. split; [exact Ht|]. apply filter_In. split; [exact Hb|].
    rewrite Hq1, Hq2. reflexivity.
Qed.

(** X19: [GET /availability/:businessId] and the public [POST /bookings]
    agree on what is taken: a time is listed as booked exactly when the
    creation route's check finds a booking for it, the available slots are
    the fixed half-hour grid from 09:00 to 17:30 less the booked times, a
    request for an available slot is never answered "time slot already
    booked", and a request for a booked time is never stored. *)
Theorem publicAvailability_agrees_with_booking (st : Store) (bid d : Z) :
  exists availableSlots bookedSlots,
    publicAvailability (bookings st) bid (Some d)
    = AvailabilityOk availableSlots bookedSlots
    /\ (forall t, In t bookedSlots
                  <-> slotTaken (bookings st) bid d t <> None)
    /\ (forall t, In t availableSlots
                  <-> In t allTimeSlots /\ ~ In t bookedSlots)
    /\ (forall ord now rq,
          pr_businessId rq = bid -> pr_date rq = d ->
          (In (pr_time rq) availableSlots ->
           fst (createPublicBooking ord now st rq) <> SlotTaken)
          /\ (In (pr_time rq) bookedSlots ->
              snd (createPublicBooking ord now st rq) = st
              /\ (fst (createPublicBooking ord now st rq) = SlotTaken
                  \/ fst (createPublicBooking ord now st rq)
                     = NotFound "Business or Service not found"))).
Proof.
  do 2 eexists. split; [reflexivity|]. split; [|split].
  - intro t. apply bookedTimes_slotTaken.
  - intro t. rewrite filter_In, negb_true_iff, <- not_true_iff_false, inList_In.
    reflexivity.
  - intros ord now rq <- <-. split.
    + intro Hin. apply filter_In in Hin. destruct Hin as [_ Hn].
      rewrite negb_true_iff, <- not_true_iff_false, inList_In in Hn.
      rewrite bookedTimes_slotTaken in Hn.
      unfold createPublicBooking.
      destruct (findUser _ _); [|simpl; discriminate].
      destruct (find _ (services st)); [|simpl; discriminate].
      destruct (slotTaken _ _ _ _); [contradiction Hn; discriminate|].
      destruct (ci_email _); [|simpl; discriminate].
      destruct (findOrCreateCustomer _ _ _ _) as [[cid cs]|];
        [|simpl; discriminate].
      destruct (save _ _ _); simpl; discriminate.
    + intro Hin. apply bookedTimes_slotTaken in Hin.
      unfold createPublicBooking.
      destruct (findUser _ _); [|simpl; auto].
      destruct (find _ (services st)); [|simpl; auto].
      destruct (slotTaken _ _ _ _); [simpl; auto|].
      contradiction Hin. reflexivity.
Qed.

(* ================================================================== *)
(** * What creation stores *)
(* ================================================================== *)









(** X13: the schema's pattern for [time] and the hook fit together: a time
    that passes the pattern splits into an hour and a minute with which
    [setHours] stays on the day of [date], and the start the hook computes
    reads back as that hour and minute. *)
Theorem valid_time_starts_on_its_date (date_ : Z) (s : string) :
  test timePattern s = true ->
  exists h m,
    splitHM s = Some (h, m)
    /\ startOfDay (setHours date_ h m) = startOfDay date_
    /\ getHours (setHours date_ h m) = h
    /\ getMinutes (setHours date_ h m) = m
    /\ splitHM (toTimeString5 (setHours date_ h m)) = Some (h, m).
Proof.
  intro Ht.
  destruct (TimeStrings.timePattern_splitHM _ Ht) as [h [m [Hs [Hh Hm]]]].
  exists h, m. split; [exact Hs|].
  assert (A : startOfDay (setHours date_ h m) = startOfDay date_
              /\ getHours (setHours date_ h m) = h
              /\ getMinutes (setHours date_ h m) = m).
  { unfold setHours, startOfDay, getHours, getMinutes, msPerDay, msPerHour,
      msPerMinute.
    assert (E : exists q, date_ - date_ mod 86400000 = 86400000 * q).
    { exists (date_ / 86400000).
      pose proof (Z.div_mod date_ 86400000 ltac:(lia)). lia. }
    destruct E as [q ->].
    set (r := h * 3600000 + m * 60000).
    assert (Hr : 0 <= r < 86400000) by (unfold r; lia).
    replace (86400000 * q + h * 3600000 + m * 60000)
      with (r + q * 86400000) by (unfold r; lia).
    rewrite Z.mod_add by lia. rewrite (Z.mod_small r) by lia.
    replace (r + q * 86400000) with (m * 60000 + (q * 24 + h) * 3600000)
      by (unfold r; lia).
    rewrite Z.mod_add by lia. rewrite (Z.mod_small (m * 60000)) by lia.
    repeat split.
    - unfold r. lia.
    - unfold r. replace (h * 3600000 + m * 60000)
        with (m * 60000 + h * 3600000) by lia.
      rewrite Z.div_add by lia. rewrite Z.div_small by lia. lia.
    - rewrite Z.div_mul by lia. reflexivity. }
  destruct A as [A1 [A2 A3]]. repeat split; try assumption.
  rewrite (proj2 (TimeStrings.toTimeString5_valid _)), A2, A3. reflexivity.
Qed.

Lemma valid_time_starts_on_its_date_witness :
  exists h m,
    splitHM "09:30" = Some (h, m)
    /\ startOfDay (setHours (at_ Sample.day 0 0) h m)
       = startOfDay (at_ Sample.day 0 0)
    /\ getHours (setHours (at_ Sample.day 0 0) h m) = h
    /\ getMinutes (setHours (at_ Sample.day 0 0) h m) = m
    /\ splitHM (toTimeString5 (setHours (at_ Sample.day 0 0) h m))
       = Some (h, m).
Proof.
  apply (valid_time_starts_on_its_date (at_ Sample.day 0 0) "09:30").
  reflexivity.
Defined.

(* ================================================================== *)
(** * Available slots and the conflict check together *)
(* ================================================================== *)


Lemma getAvailableTimeSlots_In (users_ : list User) (db : list Booking)
  (uid date_ duration_ : Z) (slots : list Slot) (slot : Slot) :
  getAvailableTimeSlots users_ db uid date_ duration_ = Ok slots ->
  In slot slots ->
  exists fuel close cur,
    slots = slotLoop fuel (bookingsOfDay db uid date_) duration_ close cur.
Proof.
  unfold getAvailableTimeSlots.
  destruct (findUser users_ uid) as [user|];
    [|intro H; inversion H; subst; contradiction].
  destruct (businessHours user) as [hours|];
    [|intro H; inversion H; subst; contradiction].
  destruct (hours (dayOfWeek date_)) as [dayHours|];
    [|intro H; inversion H; subst; contradiction].
  destruct (isOpen dayHours); cbn [negb];
    [|intro H; inversion H; subst; contradiction].
  destruct (splitHours (start dayHours)) as [s|]; [|discriminate].
  destruct (splitHours (end_ dayHours)) as [e|]; [|discriminate].
  cbn [bindExc].
  destruct s as [[sh sm]|]; [|intro H; inversion H; subst; contradiction].
  destruct e as [[eh em]|]; [|intro H; inversion H; subst; contradiction].
  intro H. inversion H. intros _. eauto.
Qed.



Lemma slotLoop_increasing (existing : list Booking) (duration close : Z) :
  forall fuel cur,
    StronglySorted (fun a b => startTime a < startTime b)
      (slotLoop fuel existing duration close cur)
    /\ Forall (fun s => cur <= startTime s)
         (slotLoop fuel existing duration close cur).
Proof.
  induction fuel as [|fuel IH]; intro cur; simpl; [split; constructor|].
  destruct (cur <? close); [|split; constructor].
  destruct (IH (addMinutes cur 30)) as [S F].
  assert (F' : Forall (fun s => cur < startTime s)
                 (slotLoop fuel existing duration close (addMinutes cur 30))).
  { eapply Forall_impl; [|exact F]. unfold addMinutes, msPerMinute.
    simpl. intros s Hs. lia. }
  destruct (negb _ && _); simpl.
  - split; constructor; simpl; try assumption; try lia.
    eapply Forall_impl; [|exact F']. simpl. intros; lia.
  - split; [exact S|]. eapply Forall_impl; [|exact F']. simpl. intros; lia.
Qed.

(** The slots of [getAvailableTimeSlots] come in ascending order of
    start, no start twice. *)
Theorem available_slots_increasing (users_ : list User) (db : list Booking)
  (uid date_ duration_ : Z) (slots : list Slot) :
  getAvailableTimeSlots users_ db uid date_ duration_ = Ok slots ->
  StronglySorted (fun a b => startTime a < startTime b) slots.
Proof.
  intro Hg. destruct slots as [|slot rest]; [constructor|].
  destruct (getAvailableTimeSlots_In _ _ _ _ _ _ slot Hg (or_introl eq_refl))
    as [fuel [close [cur ->]]].
  apply slotLoop_increasing.
Qed.

Lemma available_slots_increasing_witness :
  StronglySorted (fun a b => startTime a < startTime b)
    (match getAvailableTimeSlots [Sample.provider] Sample.midMorning 1
             (at_ Sample.day 0 0) 60 with
     | Ok slots => slots
     | Throw _ => []
     end).
Proof.
  apply (available_slots_increasing [Sample.provider] Sample.midMorning 1
           (at_ Sample.day 0 0) 60).
  vm_compute. reflexivity.
Defined.

(* ================================================================== *)
(** * Creation and the business hours *)
(* ================================================================== *)

(** X10: neither creation route reads the provider's business hours: with
    the same user ids in the store, whatever hours they carry, open or
    closed, a creation request gets the same answer and leaves the same
    bookings. *)
Theorem creation_ignores_business_hours (ord : MiddlewareOrder) (now : Z)
  (st : Store) (users' : list User) (uid : Z) (rq : CreateRequest)
  (prq : PublicRequest) :
  (forall id, isSome (findUser users' id) = isSome (findUser (users st) id)) ->
  fst (createBooking ord now (with_users users' st) uid rq)
  = fst (createBooking ord now st uid rq)
  /\ bookings (snd (createBooking ord now (with_users users' st) uid rq))
     = bookings (snd (createBooking ord now st uid rq))
  /\ fst (createPublicBooking ord now (with_users users' st) prq)
     = fst (createPublicBooking ord now st prq)
  /\ bookings (snd (createPublicBooking ord now (with_users users' st) prq))
     = bookings (snd (createPublicBooking ord now st prq)).
Proof.
  intro H.
  assert (A : fst (createBooking ord now (with_users users' st) uid rq)
              = fst (createBooking ord now st uid rq)
              /\ bookings (snd (createBooking ord now (with_users users' st)
                                  uid rq))
                 = bookings (snd (createBooking ord now st uid rq))).
  { unfold createBooking.
    cbn [users services customers bookings with_users].
    repeat match goal with
           | |- context [match ?x with _ => _ end] => destruct x
           end; split; reflexivity. }
  destruct A as [A1 A2]. split; [exact A1|]. split; [exact A2|].
  unfold createPublicBooking.
  cbn [users services customers bookings with_users].
  specialize (H (pr_businessId prq)).
  destruct (findUser users' (pr_businessId prq)),
    (findUser (users st) (pr_businessId prq)); try discriminate H;
    [|split; reflexivity].
  repeat match goal with
         | |- context [match ?x with _ => _ end] => destruct x
         end; split; reflexivity.
Qed.

Lemma creation_ignores_business_hours_witness :
  fst (createBooking HookThenValidate 0
         (with_users [Sample.alwaysClosed] (Sample.storeWith Sample.oneMorning))
         1 Sample.deskRequest)
  = fst (createBooking HookThenValidate 0 (Sample.storeWith Sample.oneMorning)
           1 Sample.deskRequest)
  /\ bookings (snd (createBooking HookThenValidate 0
                      (with_users [Sample.alwaysClosed]
                         (Sample.storeWith Sample.oneMorning))
                      1 Sample.deskRequest))
     = bookings (snd (createBooking HookThenValidate 0
                        (Sample.storeWith Sample.oneMorning) 1
                        Sample.deskRequest))
  /\ fst (createPublicBooking HookThenValidate 0
            (with_users [Sample.alwaysClosed]
               (Sample.storeWith Sample.oneMorning)) Sample.walkIn)
     = fst (createPublicBooking HookThenValidate 0
              (Sample.storeWith Sample.oneMorning) Sample.walkIn)
  /\ bookings (snd (createPublicBooking HookThenValidate 0
                      (with_users [Sample.alwaysClosed]
                         (Sample.storeWith Sample.oneMorning)) Sample.walkIn))
     = bookings (snd (createPublicBooking HookThenValidate 0
                        (Sample.storeWith Sample.oneMorning) Sample.walkIn)).
Proof.
  apply (creation_ignores_business_hours HookThenValidate 0
           (Sample.storeWith Sample.oneMorning) [Sample.alwaysClosed] 1
           Sample.deskRequest Sample.walkIn).
  intro id. unfold findUser, Sample.storeWith.
  cbn [users find u_id Sample.alwaysClosed Sample.provider].
  destruct (1 =? id); reflexivity.
Defined.

(* ================================================================== *)
(** * Roles, resources and actions *)
(* ================================================================== *)

(** X30: the two tables of [rbacUtils]. Only an admin may delete; an
    assistant may read and write every resource listed as accessible to
    assistants, and every one of those is accessible to an admin. The
    tables differ on payments: the resource is not listed as accessible to
    assistants, yet [getAllowedActions] lets an assistant read and write
    it, as it does for every resource outside its list of three. *)
Theorem rbacUtils_tables (role resource : string) :
  (In "delete" (Rbac.getAllowedActions role resource) <-> role = "admin")
  /\ (In resource (Rbac.getAccessibleResources "assistant") ->
      In resource (Rbac.getAccessibleResources "admin")
      /\ Rbac.getAllowedActions "assistant" resource = ["read"; "write"])
  /\ (Rbac.getAllowedActions "assistant" resource = []
      <-> resource = "users" \/ resource = "billing" \/ resource = "settings")
  /\ (In resource (Rbac.getAccessibleResources "admin") ->
      Rbac.getAllowedActions "assistant" resource <> [] ->
      ~ In resource (Rbac.getAccessibleResources "assistant") ->
      resource = "payments")
  /\ Rbac.getAllowedActions "assistant" "payments" = ["read"; "write"]
  /\ ~ In "payments" (Rbac.getAccessibleResources "assistant").
Proof.
  split; [|split; [|split; [|split; [|split]]]].
  - unfold Rbac.getAllowedActions.
    destruct (String.eqb role "admin") eqn:A.
    + apply String.eqb_eq in A. simpl. intuition.
    + apply String.eqb_neq in A.
      destruct (String.eqb role "assistant");
        [destruct (inList resource _)|]; simpl; intuition discriminate.
  - simpl. intros [<-|[<-|[<-|[<-|[]]]]]; simpl; auto 10.
  - unfold Rbac.getAllowedActions. cbn [String.eqb Ascii.eqb Bool.eqb].
    cbv zeta. destruct (inList resource _) eqn:E.
    + apply inList_In in E. simpl in E. intuition.
    + split; [discriminate|]. intro H.
      apply not_true_iff_false in E. contradiction E.
      apply inList_In. simpl. intuition.
  - simpl. intros [<-|[<-|[<-|[<-|[<-|[<-|[<-|[<-|[]]]]]]]]] Hne Hno;
      try reflexivity; try (contradiction Hne; reflexivity);
      contradiction Hno; simpl; auto 10.
  - reflexivity.
  - simpl. intuition discriminate.
Qed.

(* ================================================================== *)
(** * Subscriptions and the feature check *)
(* ================================================================== *)

Module SubscriptionFacts.
Import Subscriptions.

(** X21: the three copies of the plan table agree: for each plan of the
    schema's enum the [pre('save')] hook sets the limits the schema's
    defaults give, and [GET /plans] advertises those limits and features. *)
Theorem plan_tables_agree (p : string) (current : Limits)
  (currency : option string) :
  In p planEnum ->
  planLimits p current = defaultLimits p
  /\ exists info,
       plansRoute currency p = Some info
       /\ pi_features info = features (planLimits p current)
       /\ pi_bookings info = maxBookingsPerMonth (planLimits p current)
       /\ pi_services info = maxServices (planLimits p current)
       /\ pi_assistants info = maxAssistants (planLimits p current).
Proof.
  intros [<-|[<-|[<-|[]]]]; (split; [reflexivity|]);
    eexists; (split; [reflexivity|]); repeat split.
Qed.

Lemma plan_tables_agree_witness :
  planLimits "business" (mkLimits 1 2 3 []) = defaultLimits "business"
  /\ exists info,
       plansRoute (Some "ETB") "business" = Some info
       /\ pi_features info
          = features (planLimits "business" (mkLimits 1 2 3 []))
       /\ pi_bookings info
          = maxBookingsPerMonth (planLimits "business" (mkLimits 1 2 3 []))
       /\ pi_services info
          = maxServices (planLimits "business" (mkLimits 1 2 3 []))
       /\ pi_assistants info
          = maxAssistants (planLimits "business" (mkLimits 1 2 3 [])).
Proof.
  apply (plan_tables_agree "business" (mkLimits 1 2 3 []) (Some "ETB")).
  simpl. auto.
Defined.

(** X22: what [checkFeatureAccess] lets through, plan by plan, for a
    subscription that is active or on trial and whose limits the hook has
    set. Reminders and recommendations need pro or business; advanced
    analytics and the
    assistants' routes need business; the PDF report, which asks for
    [basic_analytics], is open to pro alone: the business plan's feature
    list does not contain [basic_analytics]. *)
Theorem feature_access_by_plan (users_ : list User) (subs : list Subscription)
  (uid : Z) (user : User) (s : Subscription) (current : Limits) :
  findUser users_ uid = Some user ->
  findSubscription subs (u_id user) = Some s ->
  In (plan s) planEnum ->
  limits s = planLimits (plan s) current ->
  sub_status s = "active" \/ sub_status s = "trial" ->
  (checkFeatureAccess users_ subs "reminders" uid = Next s
   <-> plan s <> "free")
  /\ (checkFeatureAccess users_ subs "ai_recommendations" uid = Next s
      <-> plan s <> "free")
  /\ (checkFeatureAccess users_ subs "basic_analytics" uid = Next s
      <-> plan s = "pro")
  /\ (checkFeatureAccess users_ subs "advanced_analytics" uid = Next s
      <-> plan s = "business")
  /\ (checkFeatureAccess users_ subs "rbac" uid = Next s
      <-> plan s = "business")
  /\ (plan s = "business" ->
      checkFeatureAccess users_ subs "basic_analytics" uid
      = FeatureUnavailable "business").
Proof.
  intros Hu Hs Hp Hl Hst. unfold checkFeatureAccess, hasFeature.
  rewrite Hu, Hs, Hl.
  assert (Ha : inList (sub_status s) ["active"; "trial"] = true)
    by (destruct Hst as [-> | ->]; reflexivity).
  rewrite Ha.
  destruct Hp as [E|[E|[E|[]]]]; rewrite <- E; cbn;
    repeat split; intros; try discriminate; try reflexivity;
    try congruence.
Qed.

Lemma feature_access_by_plan_witness :
  (checkFeatureAccess [Sample.provider] [SubscriptionSample.businessPlan] "reminders" 1
   = Next SubscriptionSample.businessPlan
   <-> plan SubscriptionSample.businessPlan <> "free")
  /\ (checkFeatureAccess [Sample.provider] [SubscriptionSample.businessPlan]
        "ai_recommendations" 1 = Next SubscriptionSample.businessPlan
      <-> plan SubscriptionSample.businessPlan <> "free")
  /\ (checkFeatureAccess [Sample.provider] [SubscriptionSample.businessPlan]
        "basic_analytics" 1 = Next SubscriptionSample.businessPlan
      <-> plan SubscriptionSample.businessPlan = "pro")
  /\ (checkFeatureAccess [Sample.provider] [SubscriptionSample.businessPlan]
        "advanced_analytics" 1 = Next SubscriptionSample.businessPlan
      <-> plan SubscriptionSample.businessPlan = "business")
  /\ (checkFeatureAccess [Sample.provider] [SubscriptionSample.businessPlan] "rbac" 1
      = Next SubscriptionSample.businessPlan
      <-> plan SubscriptionSample.businessPlan = "business")
  /\ (plan SubscriptionSample.businessPlan = "business" ->
      checkFeatureAccess [Sample.provider] [SubscriptionSample.businessPlan]
        "basic_analytics" 1 = FeatureUnavailable "business").
Proof.
  apply (feature_access_by_plan [Sample.provider]
           [SubscriptionSample.businessPlan] 1
           Sample.provider SubscriptionSample.businessPlan (mkLimits 0 0 0 []));
    try reflexivity.
  - simpl. auto.
  - left. reflexivity.
Defined.

(** The check is sound: a request passes only with a subscription of the
    user's own that lists the feature and is active or on trial. *)
Theorem feature_access_sound (users_ : list User) (subs : list Subscription)
  (feature : string) (uid : Z) (s : Subscription) :
  checkFeatureAccess users_ subs feature uid = Next s ->
  (exists user, findUser users_ uid = Some user /\ sub_userId s = u_id user)
  /\ In s subs
  /\ In feature (features (limits s))
  /\ (sub_status s = "active" \/ sub_status s = "trial").
Proof.
  unfold checkFeatureAccess, hasFeature, findSubscription.
  destruct (findUser users_ uid) as [user|] eqn:Hu; [|discriminate].
  destruct (find _ subs) as [s'|] eqn:Hs; [|discriminate].
  destruct (inList feature (features (limits s'))) eqn:Hf; [|discriminate].
  destruct (inList (sub_status s') ["active"; "trial"]) eqn:Ha;
    [|discriminate].
  cbn [negb]. intro H. inversion H; subst s'.
  apply find_some in Hs. destruct Hs as [Hin Hid]. apply Z.eqb_eq in Hid.
  apply inList_In in Hf. apply inList_In in Ha.
  repeat split; try assumption.
  - exists user. auto.
  - destruct Ha as [E|[E|[]]]; [left | right]; symmetry; exact E.
Qed.

Lemma feature_access_sound_witness :
  (exists user, findUser [Sample.provider] 1 = Some user
                /\ sub_userId SubscriptionSample.businessPlan = u_id user)
  /\ In SubscriptionSample.businessPlan [SubscriptionSample.businessPlan]
  /\ In "rbac" (features (limits SubscriptionSample.businessPlan))
  /\ (sub_status SubscriptionSample.businessPlan = "active"
      \/ sub_status SubscriptionSample.businessPlan = "trial").
Proof.
  apply (feature_access_sound [Sample.provider]
           [SubscriptionSample.businessPlan] "rbac" 1
           SubscriptionSample.businessPlan).
  reflexivity.
Defined.

(** X23: the downgrade of [POST /change-plan]. From pro or business the
    saved subscription is free and active with the free plan's limits,
    whatever the limits were; the usage counters are kept, so an account
    that has 50 bookings or more in the month can create no further one. *)
Theorem downgrade_resets_limits (s : Subscription) :
  plan s = "pro" \/ plan s = "business" ->
  let s' := downgradeToFree s in
  plan s' = "free" /\ sub_status s' = "active" /\ usage s' = usage s
  /\ limits s' = mkLimits 50 5 0 ["basic_booking"; "customer_management"]
  /\ (forall feature,
        hasFeature feature s' = true
        <-> feature = "basic_booking" \/ feature = "customer_management")
  /\ (canCreateBooking s' = true <-> bookingsThisMonth (usage s) < 50)
  /\ (canCreateService s' = true <-> servicesCount (usage s) < 5)
  /\ (canCreateAssistant s' = true <-> assistantsCount (usage s) < 0).
Proof.
  intros Hp s'. unfold s', downgradeToFree, preSave.
  assert (E : String.eqb "free" (plan s) = false)
    by (destruct Hp as [-> | ->]; reflexivity).
  rewrite E. cbn. repeat split; try (apply Z.ltb_lt); try (apply Z.ltb_lt; assumption).
  - intro H. rewrite !orb_true_iff, !String.eqb_eq in H.
    destruct H as [H|[H|H]]; [left | right | discriminate]; exact H.
  - intros [-> | ->]; reflexivity.
Qed.

Lemma downgrade_resets_limits_witness :
  let s' := downgradeToFree SubscriptionSample.businessPlan in
  plan s' = "free" /\ sub_status s' = "active"
  /\ usage s' = usage SubscriptionSample.businessPlan
  /\ limits s' = mkLimits 50 5 0 ["basic_booking"; "customer_management"]
  /\ (forall feature,
        hasFeature feature s' = true
        <-> feature = "basic_booking" \/ feature = "customer_management")
  /\ (canCreateBooking s' = true
      <-> bookingsThisMonth (usage SubscriptionSample.businessPlan) < 50)
  /\ (canCreateService s' = true
      <-> servicesCount (usage SubscriptionSample.businessPlan) < 5)
  /\ (canCreateAssistant s' = true
      <-> assistantsCount (usage SubscriptionSample.businessPlan) < 0).
Proof.
  apply (downgrade_resets_limits SubscriptionSample.businessPlan). right. reflexivity.
Defined.



End SubscriptionFacts.

(* ================================================================== *)
(** * The recommender: slots, scores and confidence *)
(* ================================================================== *)

Module RecommenderFacts.
Import AIService.

Lemma slotsFrom_In (serviceDuration closeMinutes : Z) (slot : TimeSlot) :
  forall fuel minutes,
    In slot (slotsFrom fuel serviceDuration closeMinutes minutes) <->
    exists k, (k < fuel)%nat
      /\ minutes + Z.of_nat k * 30 + serviceDuration <= closeMinutes
      /\ slot = mkTimeSlot (hhmm (minutes + Z.of_nat k * 30))
                  (hhmm (minutes + Z.of_nat k * 30 + serviceDuration))
                  (minutes + Z.of_nat k * 30)
                  (minutes + Z.of_nat k * 30 + serviceDuration).
Proof.
  induction fuel as [|fuel IH]; intro minutes; simpl.
  - split; [contradiction | intros [k [Hk _]]; lia].
  - destruct (minutes + serviceDuration <=? closeMinutes) eqn:C.
    + apply Z.leb_le in C. simpl. rewrite IH. split.
      * intros [H|[k [Hk [Hle Hs]]]].
        -- exists 0%nat. rewrite Z.mul_0_l, Z.add_0_r.
           repeat split; [lia | lia | symmetry; exact H].
        -- exists (S k). rewrite Nat2Z.inj_succ.
           replace (minutes + Z.succ (Z.of_nat k) * 30)
             with (minutes + 30 + Z.of_nat k * 30) by lia.
           repeat split; [lia | exact Hle | exact Hs].
      * intros [[|k] [Hk [Hle Hs]]].
        -- left. rewrite Z.mul_0_l, Z.add_0_r in Hs. symmetry. exact Hs.
        -- right. exists k. rewrite Nat2Z.inj_succ in Hle, Hs.
           replace (minutes + Z.succ (Z.of_nat k) * 30)
             with (minutes + 30 + Z.of_nat k * 30) in Hle, Hs by lia.
           repeat split; [lia | exact Hle | exact Hs].
    + apply Z.leb_gt in C. split; [contradiction|].
      intros [k [_ [Hle _]]]. lia.
Qed.

Lemma slotCount_bound (serviceDuration closeMinutes minutes : Z) (k : nat) :
  minutes + Z.of_nat k * 30 + serviceDuration <= closeMinutes ->
  (k < slotCount serviceDuration closeMinutes minutes)%nat.
Proof.
  intro H. unfold slotCount.
  assert (Z.of_nat k <= (closeMinutes - serviceDuration - minutes) / 30)
    by (apply Z.div_le_lower_bound; lia).
  lia.
Qed.

Lemma hhmm_round_trip (minutes : Z) :
  0 <= minutes < 1440 ->
  test timePattern (hhmm minutes) = true
  /\ timeToMinutes (Some (hhmm minutes)) = Ok (Some minutes).
Proof.
  intro H.
  assert (Hh : 0 <= minutes / 60 < 24)
    by (split; [apply Z.div_pos; lia | apply Z.div_lt_upper_bound; lia]).
  assert (Hm : 0 <= minutes mod 60 < 60) by (apply Z.mod_pos_bound; lia).
  assert (R := TimeStrings.hmRoundTrip_all _ _ Hh Hm).
  unfold hmRoundTrip in R. fold (hhmm minutes) in R.
  apply andb_true_iff in R. destruct R as [R1 R2]. split; [exact R1|].
  unfold timeToMinutes.
  destruct (splitHM (hhmm minutes)) as [[h m]|]; [|discriminate].
  apply andb_true_iff in R2. destruct R2 as [A B].
  apply Z.eqb_eq in A. apply Z.eqb_eq in B. subst.
  do 2 f_equal. pose proof (Z.div_mod minutes 60 ltac:(lia)). lia.
Qed.

(** X25: [generateTimeSlots] for hours that open at [o] and close at [c]
    minutes after midnight: the slots are exactly the starts [o], [o + 30],
    [o + 60], ... for which the service ends by [c]; every slot ends its
    duration after it starts, and within a day its [time] string passes the
    booking schema's pattern and reads back as its minutes. *)
Theorem generateTimeSlots_exact (businessHours : HoursView)
  (serviceDuration o c : Z) :
  timeToMinutes (hv_open businessHours) = Ok (Some o) ->
  timeToMinutes (hv_close businessHours) = Ok (Some c) ->
  exists slots,
    generateTimeSlots businessHours serviceDuration = Ok slots
    /\ (forall slot,
          In slot slots <->
          exists k, 0 <= k
            /\ sl_minutes slot = o + k * 30
            /\ sl_endMinutes slot = sl_minutes slot + serviceDuration
            /\ sl_endMinutes slot <= c
            /\ sl_time slot = hhmm (sl_minutes slot)
            /\ sl_endTime slot = hhmm (sl_endMinutes slot))
    /\ (0 <= o -> 0 < serviceDuration -> c <= 1440 ->
        forall slot, In slot slots ->
          test timePattern (sl_time slot) = true
          /\ timeToMinutes (Some (sl_time slot)) = Ok (Some (sl_minutes slot))).
Proof.
  intros Ho Hc. unfold generateTimeSlots. rewrite Ho, Hc. cbn [bindExc].
  eexists. split; [reflexivity|].
  assert (Hin : forall slot,
            In slot (slotsFrom (slotCount serviceDuration c o)
                       serviceDuration c o) <->
            exists k, 0 <= k
              /\ sl_minutes slot = o + k * 30
              /\ sl_endMinutes slot = sl_minutes slot + serviceDuration
              /\ sl_endMinutes slot <= c
              /\ sl_time slot = hhmm (sl_minutes slot)
              /\ sl_endTime slot = hhmm (sl_endMinutes slot)).
  { intro slot. rewrite slotsFrom_In. split.
    - intros [k [_ [Hle ->]]]. exists (Z.of_nat k). simpl.
      repeat split; try reflexivity; lia.
    - intros [k [Hk [H1 [H2 [H3 [H4 H5]]]]]].
      exists (Z.to_nat k). rewrite Z2Nat.id by exact Hk.
      split; [apply slotCount_bound; rewrite Z2Nat.id by exact Hk; lia|].
      split; [lia|].
      destruct slot as [t e mi en]. simpl in *. subst. reflexivity. }
  split; [exact Hin|].
  intros Hpos Hd Hday slot Hs. apply Hin in Hs.
  destruct Hs as [k [Hk [H1 [H2 [H3 [H4 _]]]]]].
  rewrite H4. apply hhmm_round_trip. lia.
Qed.

Lemma generateTimeSlots_exact_witness :
  exists slots,
    generateTimeSlots Sample.plainHours 60 = Ok slots
    /\ (forall slot,
          In slot slots <->
          exists k, 0 <= k
            /\ sl_minutes slot = 540 + k * 30
            /\ sl_endMinutes slot = sl_minutes slot + 60
            /\ sl_endMinutes slot <= 1020
            /\ sl_time slot = hhmm (sl_minutes slot)
            /\ sl_endTime slot = hhmm (sl_endMinutes slot))
    /\ (0 <= 540 -> 0 < 60 -> 1020 <= 1440 ->
        forall slot, In slot slots ->
          test timePattern (sl_time slot) = true
          /\ timeToMinutes (Some (sl_time slot)) = Ok (Some (sl_minutes slot))).
Proof.
  apply (generateTimeSlots_exact Sample.plainHours 60 540 1020); reflexivity.
Defined.

(** X26: the score of [calculateSlotScore]. A slot that is taken scores 0
    and is marked unavailable; an available slot scores the sum of its five
    factors, between 30 and 100, of which 25 for being available, at most
    30 for the customer's preference, between 5 and 20 for the hour of the
    day, at most 15 for demand and at most 10 for buffers. *)
Theorem calculateSlotScore_bounds (slot : TimeSlot)
  (existingBookings : list BookingView) (customerHistory : list string)
  (sameTimeBookings : string -> Z) (preferredTime : option string)
  (sc : SlotScore) :
  (forall t, 0 <= sameTimeBookings t) ->
  calculateSlotScore slot existingBookings customerHistory sameTimeBookings
    preferredTime = Ok sc ->
  (available sc = false /\ score sc = 0)
  \/ (available sc = true
      /\ score sc = availability (factors sc) + customerPreference (factors sc)
                    + businessOptimal (factors sc)
                    + historicalDemand (factors sc) + bufferTime (factors sc)
      /\ availability (factors sc) = 25
      /\ 0 <= customerPreference (factors sc) <= 30
      /\ 5 <= businessOptimal (factors sc) <= 20
      /\ 0 <= historicalDemand (factors sc) <= 15
      /\ 0 <= bufferTime (factors sc) <= 10
      /\ 30 <= score sc <= 100).
Proof.
  intros Hpos. unfold calculateSlotScore.
  destruct (someExc _ existingBookings) as [taken|]; [|discriminate].
  cbn [bindExc]. destruct taken.
  - intro H. inversion H. left. auto.
  - destruct (someExc _ existingBookings) as [before|]; [|discriminate].
    cbn [bindExc].
    destruct (someExc _ existingBookings) as [after|]; [|discriminate].
    cbn [bindExc]. cbv zeta. intro H. injection H as <-. right.
    unfold totalScore.
    cbn [available score factors availability customerPreference
         businessOptimal historicalDemand bufferTime totalScore].
    specialize (Hpos (sl_time slot)).
    assert (Hn : 0 <= Z.of_nat (List.length
                                  (filter (fun t => String.eqb t (sl_time slot))
                                          customerHistory))) by lia.
    repeat match goal with
           | |- context [if ?b then _ else _] => destruct b
           end; lia.
Qed.

Lemma calculateSlotScore_bounds_witness :
  (available (mkSlotScore true 88 (mkFactors 25 24 20 9 10)
                "Matches your usual time preference") = false
   /\ score (mkSlotScore true 88 (mkFactors 25 24 20 9 10)
               "Matches your usual time preference") = 0)
  \/ (available (mkSlotScore true 88 (mkFactors 25 24 20 9 10)
                   "Matches your usual time preference") = true
      /\ 88 = 25 + 24 + 20 + 9 + 10
      /\ 25 = 25
      /\ 0 <= 24 <= 30
      /\ 5 <= 20 <= 20
      /\ 0 <= 9 <= 15
      /\ 0 <= 10 <= 10
      /\ 30 <= 88 <= 100).
Proof.
  apply (calculateSlotScore_bounds (mkTimeSlot "10:00" "11:00" 600 660)
           Sample.plainLunch Sample.tenOClockThrice Sample.completedAt None
           (mkSlotScore true 88 (mkFactors 25 24 20 9 10)
              "Matches your usual time preference")).
  - intro t. unfold Sample.completedAt. lia.
  - vm_compute. reflexivity.
Defined.

(** X27: [calculateConfidenceScore] lies between 50 and 95, and the cap of
    95 never cuts anything off: the most the four terms add up to is 95.
    Without history the score is 50 or 65. *)
Theorem calculateConfidenceScore_range (now : Z) (bookingHistory : list Z)
  (businessPatterns : option BusinessPatterns) :
  let confidence := calculateConfidenceScore now bookingHistory businessPatterns in
  50 <= confidence <= 95
  /\ confidence
     = 50
       + (if 5 <=? Z.of_nat (List.length bookingHistory) then 20
          else if 2 <=? Z.of_nat (List.length bookingHistory) then 10 else 0)
       + match businessPatterns with
         | Some patterns => if 30 <? recentBookings patterns then 15 else 0
         | None => 0
         end
       + match bookingHistory with
         | lastBooking :: _ =>
             if now - lastBooking <? 30 * msPerDay then 10 else 0
         | [] => 0
         end
  /\ (bookingHistory = [] -> confidence = 50 \/ confidence = 65).
Proof.
  unfold calculateConfidenceScore. cbv zeta.
  destruct bookingHistory as [|lastBooking rest].
  - cbn [List.length Z.of_nat Z.leb Z.compare].
    destruct businessPatterns as [p|];
      [destruct (30 <? recentBookings p)|]; cbn; repeat split; auto; lia.
  - destruct (5 <=? Z.of_nat (List.length (lastBooking :: rest)));
      [|destruct (2 <=? Z.of_nat (List.length (lastBooking :: rest)))];
      (destruct businessPatterns as [p|];
       [destruct (30 <? recentBookings p)|]);
      destruct (now - lastBooking <? 30 * msPerDay);
      repeat split; try discriminate; try lia.
Qed.

End RecommenderFacts.

(* ================================================================== *)
(** * Instances of the general results *)
(* ================================================================== *)

Lemma checkConflicts_iff_overlaps_witness :
  In (Sample.booked 1 1 9 0 60 "pending")
     (checkConflicts (Sample.booked 3 1 9 30 60 "pending") Sample.twoApart)
  <-> In (Sample.booked 1 1 9 0 60 "pending") Sample.twoApart
      /\ userId (Sample.booked 1 1 9 0 60 "pending")
         = userId (Sample.booked 3 1 9 30 60 "pending")
      /\ _id (Sample.booked 1 1 9 0 60 "pending")
         <> _id (Sample.booked 3 1 9 30 60 "pending")
      /\ inList (status (Sample.booked 1 1 9 0 60 "pending")) activeStatuses
         = true
      /\ exists e,
           intervalOf (Sample.booked 1 1 9 0 60 "pending") = Some e
           /\ overlaps (mkInterval (at_ Sample.day 9 30) (at_ Sample.day 10 30))
                       e = true.
Proof.
  apply (checkConflicts_iff_overlaps (Sample.booked 3 1 9 30 60 "pending")
           Sample.twoApart
           (mkInterval (at_ Sample.day 9 30) (at_ Sample.day 10 30))).
  - reflexivity.
  - unfold wellFormed. vm_compute. reflexivity.
  - repeat constructor; (eexists; split; [reflexivity|]);
      unfold wellFormed; vm_compute; reflexivity.
Defined.

Lemma save_new_snapshot_witness :
  conflictsWith Sample.deskBooked
  = map _id (checkConflicts Sample.deskBooked Sample.oneMorning)
  /\ hasConflicts Sample.deskBooked
     = negb (Nat.eqb (List.length (conflictsWith Sample.deskBooked)) 0).
Proof.
  apply (save_new_snapshot HookThenValidate Sample.oneMorning
           (Sample.oneMorning ++ [Sample.deskBooked])
           (newBooking 2 1 100 200 (at_ Sample.day 0 0) "09:30" 60 50 None)
           Sample.deskBooked).
  - reflexivity.
  - vm_compute. reflexivity.
Defined.

Lemma save_changed_snapshot_witness :
  conflictsWith Sample.movedToThree
  = map _id (checkConflicts Sample.movedToThree Sample.twoApart)
  /\ hasConflicts Sample.movedToThree
     = negb (Nat.eqb (List.length (conflictsWith Sample.movedToThree)) 0).
Proof.
  apply (save_changed_snapshot HookThenValidate Sample.twoApart
           [Sample.movedToThree; Sample.booked 2 1 11 0 60 "confirmed"]
           (setTime "15:00" (loaded (Sample.booked 1 1 9 0 60 "pending")))
           Sample.movedToThree).
  - reflexivity.
  - vm_compute. discriminate.
  - vm_compute. reflexivity.
Defined.

Lemma recommend_ranked_witness :
  (List.length
     (match AIService.recommend monday Sample.plainHours Sample.plainLunch
              Sample.tenOClockThrice Sample.completedAt 60 None with
      | AIService.RuleBased recs _ => recs
      | _ => []
      end) <= 5)%nat
  /\ StronglySorted AIService.byScore
       (match AIService.recommend monday Sample.plainHours Sample.plainLunch
                Sample.tenOClockThrice Sample.completedAt 60 None with
        | AIService.RuleBased recs _ => recs
        | _ => []
        end).
Proof.
  apply (AIServiceFacts.recommend_ranked monday Sample.plainHours
           Sample.plainLunch Sample.tenOClockThrice Sample.completedAt 60 None
           _ 12).
  vm_compute. reflexivity.
Defined.
